(** * Mini LIMS (app.py): a shallow embedding and its verified properties

    The program is a Streamlit script over an SQLite file.  The embedding
    keeps the shape of the script:

    - the database is a record of tables ([DB]); every SQL statement of the
      script is a function on that record;
    - [run_query] and [run_execute] lift statements into a state-and-exception
      monad [M] over the [world] (database, wall clock, session user, page
      output).  Every statement commits on its own, so a write that precedes
      an exception stays in the database;
    - the page handlers are the bodies of the [if page == ...] branches,
      one definition per form or button. *)

From Stdlib Require Import ZArith List DecimalString DecimalZ PrimFloat.
From Stdlib Require Import OrderedTypeEx.
From Stdlib Require Import Ascii.
From Stdlib Require String.
From stdpp Require Import gmap strings list sorting.

Local Open Scope Z_scope.

(** ** Python values *)

Module Py.

(** [str(n)] for an [int]. *)
Definition str (n : Z) : string := NilZero.string_of_int (Z.to_int n).

(** Strings are the UTF-8 bytes of Python's [str]; [is_ascii] tells whether
    a text has ASCII characters only. *)
Fixpoint is_ascii (s : string) : bool :=
  match s with
  | EmptyString => true
  | String a s' => (nat_of_ascii a <? 128)%nat && is_ascii s'
  end.

(** The blanks that [int] skips around an ASCII literal: space, tab, line
    feed, vertical tab, form feed and carriage return. *)
Definition is_space (a : ascii) : bool :=
  let n := nat_of_ascii a in
  ((9 <=? n)%nat && (n <=? 13)%nat) || (n =? 32)%nat.

Definition is_decimal (a : ascii) : bool :=
  let n := nat_of_ascii a in (48 <=? n)%nat && (n <=? 57)%nat.

Fixpoint lstrip (s : string) : string :=
  match s with
  | EmptyString => EmptyString
  | String a s' => if is_space a then lstrip s' else s
  end.

Fixpoint rstrip (s : string) : string :=
  match s with
  | EmptyString => EmptyString
  | String a s' =>
      match rstrip s' with
      | EmptyString => if is_space a then EmptyString
                       else String a EmptyString
      | t => String a t
      end
  end.

(** The digits of a literal: decimal digits, with single underscores
    allowed between two digits.  The result is the digits without the
    underscores; [None] if there is no digit, an underscore is not between
    two digits, or another character occurs.  [after_digit] tells whether
    the character before was a digit. *)
Fixpoint digit_groups (after_digit : bool) (s : string) : option string :=
  match s with
  | EmptyString => if after_digit then Some EmptyString else None
  | String a s' =>
      if is_decimal a then option_map (String a) (digit_groups true s')
      else if Ascii.eqb a "_" then
             if after_digit then digit_groups false s' else None
      else None
  end.

(** [int(s)] for a string; [None] stands for [ValueError].  The literal is
    what is left between the blanks around it: an optional sign [+] or [-],
    then decimal digits, with single underscores allowed between digits;
    leading zeros are allowed.  This is Python's [int] on ASCII text.  On
    text with other characters Python also reads the blanks and decimal
    digits of other scripts; those are not modelled ([None] here), so where
    a [None] is taken to mean that [ValueError] is raised the text is
    required to be ASCII.  CPython's configurable limit on the number of
    digits of a literal is not modelled either. *)
Definition int (s : string) : option Z :=
  let t := rstrip (lstrip s) in
  let (negative, body) :=
    match t with
    | String "-"%char r => (true, r)
    | String "+"%char r => (false, r)
    | _ => (false, t)
    end in
  match digit_groups false body with
  | Some ds =>
      option_map
        (fun d => Z.of_int (if negative then Decimal.Neg d else Decimal.Pos d))
        (NilEmpty.uint_of_string ds)
  | None => None
  end.

(** Truth value of a string: only the empty string is false. *)
Definition truthy (s : string) : bool := negb (String.eqb s "").

Fixpoint zeros (n : nat) : string :=
  match n with
  | O => ""
  | S n' => String "0"%char (zeros n')
  end.

(** [s.zfill(w)] restricted to strings without sign. *)
Definition lpad0 (w : nat) (s : string) : string :=
  zeros (w - String.length s) +:+ s.

(** The format specification [{n:04d}]: sign-aware zero padding up to a
    total width of four characters; longer numbers are printed in full. *)
Definition format_04d (n : Z) : string :=
  if n <? 0 then String "-"%char (lpad0 3 (str (- n))) else lpad0 4 (str n).

End Py.

(** ** Time

    One reading of the wall clock.  [now_year] is [datetime.now().year],
    [now_stamp] is the text produced by [now_ts()]. *)

Record instant := { now_year : Z; now_stamp : string }.

(** Calendar dates ([datetime.date]) are represented by their proleptic
    Gregorian ordinal; the ISO text [YYYY-MM-DD] that the program stores is
    ordered like the ordinal. *)
Definition date := Z.

(** ** Rows of the tables of [SCHEMA] *)

Record user_row := {
  u_id : Z; u_username : string; u_role : string; u_active : Z;
  u_created_at : string }.

Record sample_row := {
  s_id : string; s_client : string; s_project : string; s_matrix : string;
  s_description : string; s_received_at : date; s_due_at : option date;
  s_status : string; s_priority : string; s_location : string;
  s_created_by : string; s_created_at : string; s_updated_at : string }.

Record test_row := {
  t_id : Z; t_sample_id : string; t_test_name : string; t_method : string;
  t_unit : string; t_status : string; t_assigned_to : option string;
  t_due_at : option date }.

(** [value] and [uncertainty] are nullable columns. *)
Record result_row := {
  r_id : Z; r_test_id : Z; r_analyte : string; r_value : option float;
  r_unit : string; r_uncertainty : option float; r_notes : string;
  r_measured_at : string }.

Record attachment_row := {
  at_id : Z; at_sample_id : string; at_label : string; at_url : string;
  at_added_by : string; at_added_at : string }.

Record coc_row := {
  c_id : Z; c_sample_id : string; c_event : string; c_by_user : string;
  c_at_time : string; c_notes : string }.

(** [a_details] is the dictionary handed to [json.dumps]; it is kept as the
    list of its items. *)
Record audit_row := {
  a_id : Z; a_entity : string; a_entity_id : string; a_action : string;
  a_by_user : string; a_at_time : string;
  a_details : list (string * string) }.

Record qc_row := {
  q_id : Z; q_type : string; q_instrument : string; q_description : string;
  q_status : string; q_at_time : string; q_by_user : string }.

(** ** The database *)

Record DB := {
  meta : gmap string string;
  users : list user_row;
  samples : list sample_row;
  tests : list test_row;
  results : list result_row;
  attachments : list attachment_row;
  coc : list coc_row;
  audit_log : list audit_row;
  qc_events : list qc_row }.

(** The file [lims.db] before its first use: [CREATE TABLE IF NOT EXISTS]
    makes every table, empty. *)
Definition empty_db : DB :=
  {| meta := ∅; users := []; samples := []; tests := []; results := [];
     attachments := []; coc := []; audit_log := []; qc_events := [] |}.

Definition with_meta (m : gmap string string) (d : DB) : DB :=
  {| meta := m; users := users d; samples := samples d; tests := tests d;
     results := results d; attachments := attachments d; coc := coc d;
     audit_log := audit_log d; qc_events := qc_events d |}.

Definition with_users (x : list user_row) (d : DB) : DB :=
  {| meta := meta d; users := x; samples := samples d; tests := tests d;
     results := results d; attachments := attachments d; coc := coc d;
     audit_log := audit_log d; qc_events := qc_events d |}.

Definition with_samples (x : list sample_row) (d : DB) : DB :=
  {| meta := meta d; users := users d; samples := x; tests := tests d;
     results := results d; attachments := attachments d; coc := coc d;
     audit_log := audit_log d; qc_events := qc_events d |}.

Definition with_tests (x : list test_row) (d : DB) : DB :=
  {| meta := meta d; users := users d; samples := samples d; tests := x;
     results := results d; attachments := attachments d; coc := coc d;
     audit_log := audit_log d; qc_events := qc_events d |}.

Definition with_results (x : list result_row) (d : DB) : DB :=
  {| meta := meta d; users := users d; samples := samples d; tests := tests d;
     results := x; attachments := attachments d; coc := coc d;
     audit_log := audit_log d; qc_events := qc_events d |}.

Definition with_attachments (x : list attachment_row) (d : DB) : DB :=
  {| meta := meta d; users := users d; samples := samples d; tests := tests d;
     results := results d; attachments := x; coc := coc d;
     audit_log := audit_log d; qc_events := qc_events d |}.

Definition with_coc (x : list coc_row) (d : DB) : DB :=
  {| meta := meta d; users := users d; samples := samples d; tests := tests d;
     results := results d; attachments := attachments d; coc := x;
     audit_log := audit_log d; qc_events := qc_events d |}.

Definition with_audit_log (x : list audit_row) (d : DB) : DB :=
  {| meta := meta d; users := users d; samples := samples d; tests := tests d;
     results := results d; attachments := attachments d; coc := coc d;
     audit_log := x; qc_events := qc_events d |}.

Definition with_qc_events (x : list qc_row) (d : DB) : DB :=
  {| meta := meta d; users := users d; samples := samples d; tests := tests d;
     results := results d; attachments := attachments d; coc := coc d;
     audit_log := audit_log d; qc_events := x |}.

(** [INTEGER PRIMARY KEY AUTOINCREMENT]: one more than the largest id of the
    table (rows are never deleted by the program), 1 for an empty table. *)
Definition next_rowid (ids : list Z) : Z := 1 + foldr Z.max 0 ids.

(** ** The world, exceptions and the monad of the script *)

Inductive exn := IntegrityError | ValueError | IndexError.

#[global] Instance exn_eq_dec : EqDecision exn.
Proof. solve_decision. Defined.

Inductive outcome (A : Type) :=
| Ok (a : A)
| Raise (e : exn).
Arguments Ok {A} a.
Arguments Raise {A} e.

(** What the page shows through [st.error], [st.success], [st.warning] and
    [st.info]. *)
Inductive message :=
| st_error (text : string)
| st_success (text : string)
| st_warning (text : string)
| st_info (text : string).

Record world := {
  w_db : DB;
  w_clock : nat -> instant;   (* successive readings of the wall clock *)
  w_tick : nat;               (* readings consumed so far *)
  w_user : string;            (* st.session_state.user *)
  w_out : list message }.

Definition M (A : Type) : Type := world -> outcome A * world.

Definition ret {A} (a : A) : M A := fun w => (Ok a, w).

Definition bind {A B} (c : M A) (k : A -> M B) : M B :=
  fun w => match c w with
           | (Ok a, w') => k a w'
           | (Raise e, w') => (Raise e, w')
           end.

Definition raise {A} (e : exn) : M A := fun w => (Raise e, w).

(** [try: c except e: h] *)
Definition try_except {A} (c : M A) (e : exn) (h : M A) : M A :=
  fun w => match c w with
           | (Raise e', w') =>
               if bool_decide (e' = e) then h w' else (Raise e', w')
           | r => r
           end.

Declare Scope lims_scope.
Delimit Scope lims_scope with lims.
Notation "x <- c ; k" := (bind c (fun x => k))
  (at level 20, c at level 100, k at level 200) : lims_scope.
Notation "c ;; k" := (bind c (fun _ => k))
  (at level 100, k at level 200, right associativity) : lims_scope.
Local Open Scope lims_scope.

Definition set_db (d : DB) (w : world) : world :=
  {| w_db := d; w_clock := w_clock w; w_tick := w_tick w;
     w_user := w_user w; w_out := w_out w |}.

(** [run_query(sql)]: evaluate a [SELECT] on the current database. *)
Definition run_query {A} (q : DB -> A) : M A := fun w => (Ok (q (w_db w)), w).

(** [run_execute(sql)]: run one statement and commit it.  (The returned
    [lastrowid] is dropped by every caller and is not modelled.) *)
Definition run_execute (stmt : DB -> outcome DB) : M unit :=
  fun w => match stmt (w_db w) with
           | Ok d => (Ok tt, set_db d w)
           | Raise e => (Raise e, w)
           end.

(** One reading of the clock. *)
Definition datetime_now : M instant :=
  fun w => (Ok (w_clock w (w_tick w)),
            {| w_db := w_db w; w_clock := w_clock w; w_tick := S (w_tick w);
               w_user := w_user w; w_out := w_out w |}).

Definition now_ts : M string := i <- datetime_now; ret (now_stamp i).

Definition session_user : M string := fun w => (Ok (w_user w), w).

Definition show (m : message) : M unit :=
  fun w => (Ok tt,
            {| w_db := w_db w; w_clock := w_clock w; w_tick := w_tick w;
               w_user := w_user w; w_out := w_out w ++ [m] |}).

(** ** The SQL statements of the script

    Each definition is one statement, named after its table; its comment
    gives the SQL text.  Foreign keys are declared in [SCHEMA] but SQLite does
    not enforce them unless asked to, and the script never asks: inserts
    check [PRIMARY KEY] and [UNIQUE] only. *)

Module Sql.

(** [SELECT value FROM meta WHERE key=k] *)
Definition select_meta (k : string) (d : DB) : list string :=
  match meta d !! k with
  | Some v => [v]
  | None => []
  end.

(** [INSERT INTO meta(key, value) VALUES(?, ?)]; [key] is the primary key. *)
Definition insert_meta (k v : string) (d : DB) : outcome DB :=
  match meta d !! k with
  | Some _ => Raise IntegrityError
  | None => Ok (with_meta (<[k:=v]> (meta d)) d)
  end.

(** [UPDATE meta SET value=? WHERE key=k]: no row, no change. *)
Definition update_meta (k v : string) (d : DB) : outcome DB :=
  Ok (with_meta (alter (fun _ => v) k (meta d)) d).

(** [SELECT * FROM users WHERE username=?] *)
Definition select_users (name : string) (d : DB) : list user_row :=
  filter (fun u => u_username u = name) (users d).

(** [INSERT INTO users(username, role, active, created_at) VALUES(?,?,?,?)];
    [username] is [UNIQUE]. *)
Definition insert_user (name role : string) (active : Z) (ts : string)
    (d : DB) : outcome DB :=
  if bool_decide (name ∈ u_username <$> users d) then Raise IntegrityError
  else Ok (with_users
             (users d ++
              [{| u_id := next_rowid (u_id <$> users d); u_username := name;
                  u_role := role; u_active := active;
                  u_created_at := ts |}]) d).

(** [SELECT * FROM samples WHERE id=?] *)
Definition select_sample (sid : string) (d : DB) : list sample_row :=
  filter (fun s => s_id s = sid) (samples d).

(** [INSERT INTO samples(id, client, ..., updated_at) VALUES(...)]; [id] is
    the primary key. *)
Definition insert_sample (s : sample_row) (d : DB) : outcome DB :=
  if bool_decide (s_id s ∈ s_id <$> samples d) then Raise IntegrityError
  else Ok (with_samples (samples d ++ [s]) d).

(** [UPDATE samples SET client=?, project=?, matrix=?, description=?,
    received_at=?, due_at=?, status=?, priority=?, location=?, updated_at=?
    WHERE id=?] *)
Definition update_sample (client project matrix description : string)
    (received_at : date) (due_at : option date)
    (status priority location ts sid : string) (d : DB) : outcome DB :=
  Ok (with_samples
        ((fun s =>
            if bool_decide (s_id s = sid) then
              {| s_id := s_id s; s_client := client; s_project := project;
                 s_matrix := matrix; s_description := description;
                 s_received_at := received_at; s_due_at := due_at;
                 s_status := status; s_priority := priority;
                 s_location := location; s_created_by := s_created_by s;
                 s_created_at := s_created_at s; s_updated_at := ts |}
            else s) <$> samples d) d).

(** [SELECT * FROM tests WHERE id=?] *)
Definition select_test (tid : Z) (d : DB) : list test_row :=
  filter (fun t => t_id t = tid) (tests d).

(** [INSERT INTO tests(sample_id, test_name, method, unit, status, due_at)
    VALUES(?,?,?,?,?,?)]; [assigned_to] is left [NULL]. *)
Definition insert_test (sid name method unit status : string)
    (due_at : option date) (d : DB) : outcome DB :=
  Ok (with_tests
        (tests d ++
         [{| t_id := next_rowid (t_id <$> tests d); t_sample_id := sid;
             t_test_name := name; t_method := method; t_unit := unit;
             t_status := status; t_assigned_to := None;
             t_due_at := due_at |}]) d).

(** [UPDATE tests SET status=?, assigned_to=?, due_at=? WHERE id=?] *)
Definition update_test (status assigned_to : string) (due_at : option date)
    (tid : Z) (d : DB) : outcome DB :=
  Ok (with_tests
        ((fun t =>
            if bool_decide (t_id t = tid) then
              {| t_id := t_id t; t_sample_id := t_sample_id t;
                 t_test_name := t_test_name t; t_method := t_method t;
                 t_unit := t_unit t; t_status := status;
                 t_assigned_to := Some assigned_to; t_due_at := due_at |}
            else t) <$> tests d) d).

(** What a column declared [REAL] gives back for a Python [float] bound to
    it.  SQLite binds a NaN as [NULL].  It writes a float without fractional
    part as an integer and turns it back into a float when read, which
    loses the sign of a negative zero.  Every other float, the infinities
    included, is read back as it was bound. *)
Definition sqlite_real (f : float) : option float :=
  match PrimFloat.classify f with
  | FloatClass.NaN => None
  | FloatClass.NZero => Some PrimFloat.zero
  | _ => Some f
  end.

(** The floats a [REAL] column keeps as they are: all but NaN and the
    negative zero. *)
Definition kept_as_bound (f : float) : Prop :=
  PrimFloat.classify f <> FloatClass.NaN
  /\ PrimFloat.classify f <> FloatClass.NZero.

(** [INSERT INTO results(test_id, analyte, value, unit, uncertainty, notes,
    measured_at) VALUES(?,?,?,?,?,?,?)]; [unc] is [None] for Python's
    [None], bound as [NULL]. *)
Definition insert_result (tid : Z) (analyte : string) (value : float)
    (unit : string) (unc : option float) (notes ts : string)
    (d : DB) : outcome DB :=
  Ok (with_results
        (results d ++
         [{| r_id := next_rowid (r_id <$> results d); r_test_id := tid;
             r_analyte := analyte; r_value := sqlite_real value;
             r_unit := unit;
             r_uncertainty := unc ≫= sqlite_real; r_notes := notes;
             r_measured_at := ts |}]) d).

(** [SELECT * FROM results WHERE test_id=?] *)
Definition select_results (tid : Z) (d : DB) : list result_row :=
  filter (fun r => r_test_id r = tid) (results d).

(** [INSERT INTO attachments(sample_id, label, url, added_by, added_at)
    VALUES(?,?,?,?,?)] *)
Definition insert_attachment (sid label url by_user ts : string)
    (d : DB) : outcome DB :=
  Ok (with_attachments
        (attachments d ++
         [{| at_id := next_rowid (at_id <$> attachments d);
             at_sample_id := sid; at_label := label; at_url := url;
             at_added_by := by_user; at_added_at := ts |}]) d).

(** [INSERT INTO coc(sample_id, event, by_user, at_time, notes)
    VALUES(?,?,?,?,?)] *)
Definition insert_coc (sid event by_user ts notes : string)
    (d : DB) : outcome DB :=
  Ok (with_coc
        (coc d ++
         [{| c_id := next_rowid (c_id <$> coc d); c_sample_id := sid;
             c_event := event; c_by_user := by_user; c_at_time := ts;
             c_notes := notes |}]) d).

Definition coc_id_le (a b : coc_row) : Prop := c_id a ≤ c_id b.

#[global] Instance coc_id_le_dec a b : Decision (coc_id_le a b).
Proof. unfold coc_id_le. apply _. Defined.

(** [SELECT id,event,by_user,at_time,notes FROM coc WHERE sample_id=?
    ORDER BY id ASC] (the rows are kept whole). *)
Definition select_coc (sid : string) (d : DB) : list coc_row :=
  merge_sort coc_id_le (filter (fun c => c_sample_id c = sid) (coc d)).

(** [INSERT INTO audit(entity, entity_id, action, by_user, at_time, details)
    VALUES(?,?,?,?,?,?)] *)
Definition insert_audit (entity entity_id action by_user ts : string)
    (details : list (string * string)) (d : DB) : outcome DB :=
  Ok (with_audit_log
        (audit_log d ++
         [{| a_id := next_rowid (a_id <$> audit_log d); a_entity := entity;
             a_entity_id := entity_id; a_action := action;
             a_by_user := by_user; a_at_time := ts;
             a_details := details |}]) d).

(** [INSERT INTO qc_events(type, instrument, description, status, at_time,
    by_user) VALUES(?,?,?,?,?,?)] *)
Definition insert_qc (type instrument description status ts by_user : string)
    (d : DB) : outcome DB :=
  Ok (with_qc_events
        (qc_events d ++
         [{| q_id := next_rowid (q_id <$> qc_events d); q_type := type;
             q_instrument := instrument; q_description := description;
             q_status := status; q_at_time := ts;
             q_by_user := by_user |}]) d).

(** [UPDATE qc_events SET status='cerrado' WHERE id=?] *)
Definition close_qc (qid : Z) (d : DB) : outcome DB :=
  Ok (with_qc_events
        ((fun q =>
            if bool_decide (q_id q = qid) then
              {| q_id := q_id q; q_type := q_type q;
                 q_instrument := q_instrument q;
                 q_description := q_description q; q_status := "cerrado";
                 q_at_time := q_at_time q; q_by_user := q_by_user q |}
            else q) <$> qc_events d) d).

(** The row shape of the due-soon listing:
    [s.id AS sample_id, s.client, s.project, s.due_at, s.status]. *)
Record due_row := {
  d_sample_id : string; d_client : string; d_project : string;
  d_due_at : option date; d_status : string }.

Definition due_of (s : sample_row) : due_row :=
  {| d_sample_id := s_id s; d_client := s_client s;
     d_project := s_project s; d_due_at := s_due_at s;
     d_status := s_status s |}.

(** The [WHERE] clause of the due-soon listing,
    [s.due_at IS NOT NULL AND DATE(s.due_at) <= DATE('now','+7 day')
     AND s.status NOT IN ('cerrado','cancelado')],
    with [today] for [DATE('now')]. *)
Definition due_soon_where (today : date) (s : sample_row) : bool :=
  match s_due_at s with
  | None => false
  | Some due =>
      (due <=? today + 7)
      && negb (bool_decide (s_status s ∈ ["cerrado"; "cancelado"]))
  end.

(** The order of [ORDER BY ... ASC] on a nullable date column: SQLite puts
    [NULL] first. *)
Definition null_first_le (a b : option date) : Prop :=
  match a, b with
  | None, _ => True
  | Some _, None => False
  | Some x, Some y => x ≤ y
  end.

(** [ORDER BY s.due_at ASC] *)
Definition due_le (a b : sample_row) : Prop :=
  null_first_le (s_due_at a) (s_due_at b).

#[global] Instance due_le_dec a b : Decision (due_le a b).
Proof.
  unfold due_le, null_first_le.
  destruct (s_due_at a), (s_due_at b); apply _.
Defined.

(** The due-soon listing of the dashboard. *)
Definition select_due_soon (today : date) (d : DB) : list due_row :=
  due_of <$> merge_sort due_le
               (List.filter (due_soon_where today) (samples d)).

End Sql.

(** ** Initialisation, audit trail and identifier sequencer *)

(** [datetime.now().year] *)
Definition current_year : M Z := i <- datetime_now; ret (now_year i).

(** [init_db()].  The [CREATE TABLE IF NOT EXISTS] statements of [SCHEMA]
    change nothing here: a table that does not exist yet is an empty table of
    [DB]. *)
Definition init_db : M unit :=
  rows <- run_query (Sql.select_meta "seq_ano");
  (if bool_decide (rows = [])
   then y <- current_year;
        run_execute (Sql.insert_meta "seq_ano" (Py.str y))
   else ret tt);;
  rows <- run_query (Sql.select_meta "seq_num");
  (if bool_decide (rows = [])
   then run_execute (Sql.insert_meta "seq_num" "0")
   else ret tt);;
  rows <- run_query (Sql.select_users "admin");
  (if bool_decide (rows = [])
   then ts <- now_ts;
        run_execute (Sql.insert_user "admin" "admin" 1 ts)
   else ret tt).

(** [audit(entity, entity_id, action, by_user, details)] *)
Definition audit (entity entity_id action by_user : string)
    (details : list (string * string)) : M unit :=
  ts <- now_ts;
  run_execute (Sql.insert_audit entity entity_id action by_user ts details).

(** The identifier [f"S-{year}-{seq_num:04d}"], [year] being a string
    already. *)
Definition sample_id (year : string) (seq_num : Z) : string :=
  "S-" +:+ year +:+ "-" +:+ Py.format_04d seq_num.

(** [next_sample_id()] *)
Definition next_sample_id : M string :=
  y <- current_year;
  let year := Py.str y in
  seq_year <- run_query (Sql.select_meta "seq_ano");
  rows <- run_query (Sql.select_meta "seq_num");
  v <- match rows with
       | [] => raise IndexError
       | v :: _ => ret v
       end;
  seq_num <- match Py.int v with
             | None => raise ValueError
             | Some n => ret n
             end;
  seq_num <- (if bool_decide (seq_year = []) || negb (bool_decide (head seq_year = Some year))
              then run_execute (Sql.update_meta "seq_ano" year);; ret 0
              else ret seq_num);
  let seq_num := seq_num + 1 in
  run_execute (Sql.update_meta "seq_num" (Py.str seq_num));;
  ret (sample_id year seq_num).

(** ** The pages *)

(** The choices offered by the status and priority select boxes. *)
Definition sample_statuses : list string :=
  ["registrado"; "en_proceso"; "en_espera"; "reportado"; "cerrado";
   "cancelado"].
Definition priorities : list string := ["baja"; "normal"; "alta"; "urgente"].
Definition test_statuses : list string :=
  ["pendiente"; "en_proceso"; "en_revision"; "reportado"; "cancelado"].

(** [choices.index(x)]: [ValueError] when [x] is not a choice. *)
Definition index_of (x : string) (choices : list string) : M nat :=
  match list_find (fun c => c = x) choices with
  | Some (i, _) => ret i
  | None => raise ValueError
  end.

(** The fields of the form [frm_sample]. *)
Record sample_form := {
  f_client : string; f_project : string; f_matrix : string;
  f_description : string; f_received_at : date; f_due_at : option date;
  f_priority : string; f_status : string; f_location : string;
  f_created_by : string }.

(** Page "Registro de muestras", form [frm_sample]. *)
Definition frm_sample (f : sample_form) (submitted : bool) : M unit :=
  if submitted then
    if negb (Py.truthy (f_client f)) then
      show (st_error "Cliente es obligatorio.")
    else
      sid <- next_sample_id;
      created <- now_ts;
      updated <- now_ts;
      run_execute
        (Sql.insert_sample
           {| s_id := sid; s_client := f_client f; s_project := f_project f;
              s_matrix := f_matrix f; s_description := f_description f;
              s_received_at := f_received_at f; s_due_at := f_due_at f;
              s_status := f_status f; s_priority := f_priority f;
              s_location := f_location f; s_created_by := f_created_by f;
              s_created_at := created; s_updated_at := updated |});;
      user <- session_user;
      audit "sample" sid "create" user
            [("client", f_client f); ("priority", f_priority f)];;
      user <- session_user;
      ts <- now_ts;
      run_execute (Sql.insert_coc sid "Registro" user ts "Muestra creada");;
      show (st_success ("Muestra creada: " +:+ sid))
  else ret tt.

(** Page "Muestras", form [edit_sample] under the text input [sid].  The
    form is built from the stored record before [save] is looked at; the two
    [index] calls belong to that. *)
Definition edit_sample (sid : string) (f : sample_form) (save : bool)
    : M unit :=
  if Py.truthy sid then
    recs <- run_query (Sql.select_sample sid);
    match recs with
    | [] => show (st_warning "No existe esa muestra.")
    | rec :: _ =>
        index_of (s_status rec) sample_statuses;;
        index_of (s_priority rec) priorities;;
        if save then
          ts <- now_ts;
          run_execute
            (Sql.update_sample (f_client f) (f_project f) (f_matrix f)
               (f_description f) (f_received_at f) (f_due_at f) (f_status f)
               (f_priority f) (f_location f) ts sid);;
          user <- session_user;
          audit "sample" sid "update" user [("status", f_status f)];;
          show (st_success "Actualizado.")
        else ret tt
    end
  else ret tt.

(** Page "Muestras", form [add_test] under the text input [sid2]. *)
Definition add_test (sid2 test_name method unit_ : string)
    (due_at : option date) (submitted : bool) : M unit :=
  if Py.truthy sid2 then
    if submitted && Py.truthy test_name then
      run_execute
        (Sql.insert_test sid2 test_name method unit_ "pendiente" due_at);;
      user <- session_user;
      audit "test" sid2 "create" user [("test", test_name)];;
      show (st_success "Ensayo agregado.")
    else ret tt
  else ret tt.

(** Page "Ensayos & Resultados", form [edit_test] under the number input
    [tid]. *)
Definition edit_test (tid : Z) (status assigned_to : string)
    (due_at : option date) (save : bool) : M unit :=
  if bool_decide (tid ≠ 0) then
    dft <- run_query (Sql.select_test tid);
    match dft with
    | [] => show (st_info "Ingrese un ID válido")
    | row :: _ =>
        index_of (t_status row) test_statuses;;
        if save then
          run_execute (Sql.update_test status assigned_to due_at tid);;
          user <- session_user;
          audit "test" (Py.str tid) "update" user [("status", status)];;
          show (st_success "Ensayo actualizado.")
        else ret tt
    end
  else ret tt.

Section FloatParser.

(** Python's [float(s)] on a string; [None] stands for [ValueError].
    Floating-point parsing is outside this development. *)
Variable py_float : string -> option float.

(** The expression [float(unc) if unc else None]. *)
Definition optional_float (unc : string) : M (option float) :=
  if Py.truthy unc then
    match py_float unc with
    | Some u => ret (Some u)
    | None => raise ValueError
    end
  else ret None.

(** Page "Ensayos & Resultados", form [add_result]. *)
Definition add_result (tid_r : Z) (analyte : string) (value : float)
    (unit_ unc notes : string) (submit_r : bool) : M unit :=
  if submit_r && Py.truthy analyte && bool_decide (tid_r ≠ 0) then
    uncertainty <- optional_float unc;
    ts <- now_ts;
    run_execute
      (Sql.insert_result tid_r analyte value unit_ uncertainty notes ts);;
    user <- session_user;
    audit "result" (Py.str tid_r) "create" user [("analyte", analyte)];;
    show (st_success "Resultado guardado.")
  else ret tt.

End FloatParser.

(** Page "Ensayos & Resultados", the view under the number input
    [tid_view]: the rows put in the data frame, if one is shown. *)
Definition view_results (tid_view : Z) : M (option (list result_row)) :=
  if bool_decide (tid_view ≠ 0) then
    rows <- run_query (Sql.select_results tid_view);
    ret (Some rows)
  else ret None.

(** Page "Adjuntos / Links", form [add_link]. *)
Definition add_link (sid label url notes : string) (add : bool) : M unit :=
  if add && Py.truthy sid && Py.truthy url then
    user <- session_user;
    ts <- now_ts;
    run_execute (Sql.insert_attachment sid label url user ts);;
    user <- session_user;
    audit "attachment" sid "create" user [("url", url)];;
    show (st_success "Adjunto registrado.")
  else ret tt.

(** Page "Control de Calidad", form [qc_form]. *)
Definition qc_form (qtype instr desc : string) (add : bool) : M unit :=
  if add then
    ts <- now_ts;
    user <- session_user;
    run_execute (Sql.insert_qc qtype instr desc "abierto" ts user);;
    user <- session_user;
    audit "qc" "-" "create" user [("type", qtype)];;
    show (st_success "Evento QC registrado.")
  else ret tt.

(** Page "Control de Calidad", button "Cerrar evento QC" under the number
    input [qid]. *)
Definition qc_close (qid : Z) (pressed : bool) : M unit :=
  if bool_decide (qid ≠ 0) then
    if pressed then
      run_execute (Sql.close_qc qid);;
      user <- session_user;
      audit "qc" (Py.str qid) "close" user [];;
      show (st_success "Evento QC cerrado.")
    else ret tt
  else ret tt.

(** Page "Administración", form [add_user]. *)
Definition add_user (uname role : string) (active add : bool) : M unit :=
  if add && Py.truthy uname then
    try_except
      (ts <- now_ts;
       run_execute (Sql.insert_user uname role (if active then 1 else 0) ts);;
       user <- session_user;
       audit "user" uname "create" user [("role", role)];;
       show (st_success "Usuario creado."))
      IntegrityError
      (show (st_error "Nombre de usuario ya existe."))
  else ret tt.

(** Page "Auditoría", form [add_coc] under the text input [sid]. *)
Definition add_coc (sid event notes : string) (add : bool) : M unit :=
  if Py.truthy sid then
    if add && Py.truthy event then
      user <- session_user;
      ts <- now_ts;
      run_execute (Sql.insert_coc sid event user ts notes);;
      user <- session_user;
      audit "coc" sid "add_event" user [("event", event)];;
      show (st_success "Evento agregado a la cadena de custodia.")
    else ret tt
  else ret tt.

(** ** Vocabulary of the statements *)

(** Order of Python strings ([<] on [str]); the identifiers are ASCII. *)
Definition str_lt (a b : string) : Prop := String.compare a b = Lt.

Definition is_digit (a : ascii) : bool :=
  (48 <=? nat_of_ascii a)%nat && (nat_of_ascii a <=? 57)%nat.

Fixpoint all_digits (s : string) : bool :=
  match s with
  | EmptyString => true
  | String a s' => is_digit a && all_digits s'
  end.

Fixpoint strip_prefix (p s : string) : option string :=
  match p, s with
  | EmptyString, _ => Some s
  | String a p', String b s' =>
      if Ascii.eqb a b then strip_prefix p' s' else None
  | String _ _, EmptyString => None
  end.

(** The shape the identifiers are meant to have: [S-<year>-] followed by
    exactly four decimal digits. *)
Definition four_digit_id (year : Z) (id : string) : bool :=
  match strip_prefix ("S-" +:+ Py.str year +:+ "-") id with
  | Some seq => (String.length seq =? 4)%nat && all_digits seq
  | None => false
  end.

(** [n] successive calls of [next_sample_id()], with the identifiers they
    return. *)
Fixpoint issue (n : nat) : M (list string) :=
  match n with
  | O => ret []
  | S n' => id <- next_sample_id; ids <- issue n'; ret (id :: ids)
  end.

(** The two rows of [meta] that the sequencer lives in. *)
Definition sequencer_at (ys : string) (c : Z) (d : DB) : Prop :=
  meta d !! "seq_ano" = Some ys /\ meta d !! "seq_num" = Some (Py.str c).

(** Every table but [meta]. *)
Definition tables (d : DB) :=
  (users d, samples d, tests d, results d, attachments d, coc d,
   audit_log d, qc_events d).


(** A clock that always shows the same instant, and the worlds used as
    concrete inputs. *)
Definition frozen_clock (y : Z) (stamp : string) : nat -> instant :=
  fun _ => {| now_year := y; now_stamp := stamp |}.

Definition world_of (d : DB) (y : Z) (user : string) : world :=
  {| w_db := d; w_clock := frozen_clock y "2025-08-28 10:00:00-0500";
     w_tick := 0; w_user := user; w_out := [] |}.

(** A database right after [init_db()] whose counter was moved to [c] in
    year [y]. *)
Definition db_at (y c : Z) : DB :=
  with_meta (<["seq_num" := Py.str c]> (<["seq_ano" := Py.str y]> ∅))
    (with_users
       [{| u_id := 1; u_username := "admin"; u_role := "admin";
           u_active := 1; u_created_at := "2025-01-02 08:00:00-0500" |}]
       empty_db).

(** The mutating operations the pages offer, each with the values typed
    into its form; [perform] presses the submit button. *)
Inductive operation :=
| RegisterSample (f : sample_form)
| UpdateSample (sid : string) (f : sample_form)
| AddTest (sid2 test_name method unit_ : string) (due_at : option date)
| UpdateTest (tid : Z) (status assigned_to : string) (due_at : option date)
| AddResult (tid_r : Z) (analyte : string) (value : float)
            (unit_ unc notes : string)
| AddAttachment (sid label url notes : string)
| AddQcEvent (qtype instr desc : string)
| CloseQcEvent (qid : Z)
| CreateUser (uname role : string) (active : bool)
| AddCocEvent (sid event notes : string).

Definition perform (py_float : string -> option float) (op : operation)
    : M unit :=
  match op with
  | RegisterSample f => frm_sample f true
  | UpdateSample sid f => edit_sample sid f true
  | AddTest sid2 test_name method unit_ due_at =>
      add_test sid2 test_name method unit_ due_at true
  | UpdateTest tid status assigned_to due_at =>
      edit_test tid status assigned_to due_at true
  | AddResult tid_r analyte value unit_ unc notes =>
      add_result py_float tid_r analyte value unit_ unc notes true
  | AddAttachment sid label url notes => add_link sid label url notes true
  | AddQcEvent qtype instr desc => qc_form qtype instr desc true
  | CloseQcEvent qid => qc_close qid true
  | CreateUser uname role active => add_user uname role active true
  | AddCocEvent sid event notes => add_coc sid event notes true
  end.

(** The audit vocabulary: what [audit] is called with for each operation. *)
Definition op_entity (op : operation) : string :=
  match op with
  | RegisterSample _ | UpdateSample _ _ => "sample"
  | AddTest _ _ _ _ _ | UpdateTest _ _ _ _ => "test"
  | AddResult _ _ _ _ _ _ => "result"
  | AddAttachment _ _ _ _ => "attachment"
  | AddQcEvent _ _ _ | CloseQcEvent _ => "qc"
  | CreateUser _ _ _ => "user"
  | AddCocEvent _ _ _ => "coc"
  end.

Definition op_action (op : operation) : string :=
  match op with
  | RegisterSample _ | AddTest _ _ _ _ _ | AddResult _ _ _ _ _ _
  | AddAttachment _ _ _ _ | AddQcEvent _ _ _ | CreateUser _ _ _ => "create"
  | UpdateSample _ _ | UpdateTest _ _ _ _ => "update"
  | CloseQcEvent _ => "close"
  | AddCocEvent _ _ _ => "add_event"
  end.

(** The tables that hold the entities of the laboratory (everything but
    [meta] and the audit trail). *)
Definition domain (d : DB) :=
  (users d, samples d, tests d, results d, attachments d, coc d,
   qc_events d).

(** Whether [frm_sample] gets as far as inserting the sample: the client is
    filled in, the sequencer returns an identifier, and no sample has it
    yet. *)
Definition can_register (f : sample_form) (w : world) : bool :=
  Py.truthy (f_client f)
  && match fst (next_sample_id w) with
     | Ok sid => negb (bool_decide (sid ∈ s_id <$> samples (w_db w)))
     | Raise _ => false
     end.

(** Whether an operation gets as far as its write: its form passes the
    guard of the handler and no statement or conversion on the way raises. *)
Definition writes (py_float : string -> option float) (op : operation)
    (w : world) : bool :=
  match op with
  | RegisterSample f => can_register f w
  | UpdateSample sid _ =>
      Py.truthy sid
      && match Sql.select_sample sid (w_db w) with
         | [] => false
         | rec :: _ =>
             bool_decide (s_status rec ∈ sample_statuses)
             && bool_decide (s_priority rec ∈ priorities)
         end
  | AddTest sid2 test_name _ _ _ => Py.truthy sid2 && Py.truthy test_name
  | UpdateTest tid _ _ _ =>
      bool_decide (tid ≠ 0)
      && match Sql.select_test tid (w_db w) with
         | [] => false
         | row :: _ => bool_decide (t_status row ∈ test_statuses)
         end
  | AddResult tid_r analyte _ _ unc _ =>
      Py.truthy analyte && bool_decide (tid_r ≠ 0)
      && (negb (Py.truthy unc) || bool_decide (is_Some (py_float unc)))
  | AddAttachment sid _ url _ => Py.truthy sid && Py.truthy url
  | AddQcEvent _ _ _ => true
  | CloseQcEvent qid => bool_decide (qid ≠ 0)
  | CreateUser uname _ _ =>
      Py.truthy uname
      && negb (bool_decide (uname ∈ u_username <$> users (w_db w)))
  | AddCocEvent sid event _ => Py.truthy sid && Py.truthy event
  end.

(** The fields marked with a star in the forms: whether one is left
    empty. *)
Definition missing_required (op : operation) : bool :=
  match op with
  | RegisterSample f => negb (Py.truthy (f_client f))
  | AddTest _ test_name _ _ _ => negb (Py.truthy test_name)
  | AddResult _ analyte _ _ _ _ => negb (Py.truthy analyte)
  | AddAttachment _ _ url _ => negb (Py.truthy url)
  | CreateUser uname _ _ => negb (Py.truthy uname)
  | AddCocEvent _ event _ => negb (Py.truthy event)
  | UpdateSample _ _ | UpdateTest _ _ _ _ | AddQcEvent _ _ _
  | CloseQcEvent _ => false
  end.

(** Whether the page reported an error in what it showed. *)
Definition is_error (m : message) : bool :=
  match m with
  | st_error _ => true
  | _ => false
  end.

(** The form of the scenario: client Acme, matrix water ([agua]). *)
Definition acme_form : sample_form :=
  {| f_client := "Acme"; f_project := ""; f_matrix := "agua";
     f_description := ""; f_received_at := 739491; f_due_at := None;
     f_priority := "normal"; f_status := "registrado"; f_location := "";
     f_created_by := "admin" |}.

(** The world of the scenario: year 2025, counter at 0, [admin] at the
    keyboard. *)
Definition lab_2025 : world := world_of (db_at 2025 0) 2025 "admin".

(** A user [admin] with role [admin] that is active. *)
Definition has_admin (d : DB) : Prop :=
  exists u, u ∈ users d /\ u_username u = "admin" /\ u_role u = "admin"
            /\ u_active u = 1.

(** The tables [init_db()] never writes to. *)
Definition untouched_by_init (d : DB) :=
  (samples d, tests d, results d, attachments d, coc d, audit_log d,
   qc_events d).

(** ** The script as a whole

    Streamlit runs the file from its first line at every interaction:
    [init_db()], the sidebar, then the branch of the selected page.  The
    sidebar stores [user.strip() or "anon"] in the session; [login] takes the
    value of that expression. *)
Definition new_page : M unit :=
  fun w => (Ok tt,
            {| w_db := w_db w; w_clock := w_clock w; w_tick := w_tick w;
               w_user := w_user w; w_out := [] |}).

Definition login (user : string) : M unit :=
  fun w => (Ok tt,
            {| w_db := w_db w; w_clock := w_clock w; w_tick := w_tick w;
               w_user := user; w_out := w_out w |}).

Definition script (py_float : string -> option float) (user : string)
    (act : option operation) : M unit :=
  new_page;;
  init_db;;
  login user;;
  match act with
  | Some op => perform py_float op
  | None => ret tt
  end.

(** The worlds the script can be in: it starts on a new database file and
    is run again and again. *)
Inductive reachable (py_float : string -> option float) : world -> Prop :=
| reachable_first (clock : nat -> instant) (user : string)
    (act : option operation) :
    reachable py_float
      (snd (script py_float user act
              {| w_db := empty_db; w_clock := clock; w_tick := 0;
                 w_user := "admin"; w_out := [] |}))
| reachable_next (w : world) (user : string) (act : option operation) :
    reachable py_float w ->
    reachable py_float (snd (script py_float user act w)).

(** What [init_db()] sets up and every later run keeps. *)
Definition bootstrapped (d : DB) : Prop :=
  (exists ys c, 0 ≤ c /\ sequencer_at ys c d) /\ has_admin d.

(** ** Rows as dictionaries *)

(** The loop of [dict_factory(cursor, row)]: [d[col[0]] = row[idx]] for each
    column of [cursor.description] in turn; [description] is the list of the
    column names [col[0]].  [row[idx]] raises [IndexError] past the end of
    the row. *)
Fixpoint dict_factory_from {V} (idx : nat) (description : list string)
    (row : list V) (d : gmap string V) : outcome (gmap string V) :=
  match description with
  | [] => Ok d
  | col :: description' =>
      match row !! idx with
      | Some v => dict_factory_from (S idx) description' row (<[col:=v]> d)
      | None => Raise IndexError
      end
  end.

(** [dict_factory(cursor, row)] *)
Definition dict_factory {V} (description : list string) (row : list V)
    : outcome (gmap string V) :=
  dict_factory_from 0 description row ∅.

(** ** The read side of the pages *)

Module Query.

(** [SELECT COUNT( * ) AS c FROM samples] *)
Definition count_samples (d : DB) : nat := length (samples d).

(** [SELECT COUNT( * ) AS c FROM samples
     WHERE status NOT IN ('cerrado','cancelado')] *)
Definition count_open_samples (d : DB) : nat :=
  length (filter (fun s => s_status s ∉ ["cerrado"; "cancelado"])
                 (samples d)).

(** [SELECT COUNT( * ) AS c FROM tests WHERE status='pendiente'] *)
Definition count_pending_tests (d : DB) : nat :=
  length (filter (fun t => t_status t = "pendiente") (tests d)).

(** [SELECT COUNT( * ) AS c FROM qc_events WHERE status='abierto'] *)
Definition count_open_qc (d : DB) : nat :=
  length (filter (fun q => q_status q = "abierto") (qc_events d)).

(** [SELECT * FROM tests WHERE sample_id=?] *)
Definition select_tests_of (sid : string) (d : DB) : list test_row :=
  filter (fun t => t_sample_id t = sid) (tests d).

(** [SELECT * FROM results WHERE test_id IN (?,...,?)] *)
Definition select_results_in (test_ids : list Z) (d : DB)
    : list result_row :=
  filter (fun r => r_test_id r ∈ test_ids) (results d).

Definition attachment_id_ge (a b : attachment_row) : Prop :=
  at_id b ≤ at_id a.

#[global] Instance attachment_id_ge_dec a b : Decision (attachment_id_ge a b).
Proof. unfold attachment_id_ge. apply _. Defined.

(** [SELECT id,label,url,added_by,added_at FROM attachments
     WHERE sample_id=? ORDER BY id DESC] (the rows are kept whole). *)
Definition select_attachments (sid : string) (d : DB)
    : list attachment_row :=
  merge_sort attachment_id_ge
    (filter (fun a => at_sample_id a = sid) (attachments d)).

Definition test_id_ge (a b : test_row) : Prop := t_id b ≤ t_id a.

#[global] Instance test_id_ge_dec a b : Decision (test_id_ge a b).
Proof. unfold test_id_ge. apply _. Defined.

Definition audit_id_ge (a b : audit_row) : Prop := a_id b ≤ a_id a.

#[global] Instance audit_id_ge_dec a b : Decision (audit_id_ge a b).
Proof. unfold audit_id_ge. apply _. Defined.

(** [ORDER BY created_at DESC] on the text of the timestamps. *)
Definition created_at_ge (a b : sample_row) : Prop :=
  String.le (s_created_at b) (s_created_at a).

#[global] Instance created_at_ge_dec a b : Decision (created_at_ge a b).
Proof. unfold created_at_ge. apply _. Defined.

Section Like.

(** SQLite's operator [text LIKE pattern], as [sql_like pattern text].
    Pattern matching belongs to the engine and is left open. *)
Variable sql_like : string -> string -> bool.

(** The listing of the page "Muestras":
    [SELECT * FROM samples WHERE 1=1], then
    [AND (id LIKE ? OR client LIKE ? OR project LIKE ?)] with the pattern
    [%q%] if [q] is not empty, then [AND status IN (?,...)] if [status_f] is
    not empty, then [ORDER BY created_at DESC]. *)
Definition select_samples_page (q : string) (status_f : list string)
    (d : DB) : list sample_row :=
  let like := "%" +:+ q +:+ "%" in
  merge_sort created_at_ge
    (List.filter
       (fun s =>
          (if Py.truthy q
           then sql_like like (s_id s) || sql_like like (s_client s)
                || sql_like like (s_project s)
           else true)
          && (if bool_decide (status_f = []) then true
              else bool_decide (s_status s ∈ status_f)))
       (samples d)).

(** The rows of [tests t JOIN samples s ON s.id = t.sample_id]: one copy of
    the test per sample that carries its [sample_id]. *)
Definition tests_join_samples (d : DB) : list test_row :=
  t ← tests d;
  (fun _ => t) <$> filter (fun s => s_id s = t_sample_id t) (samples d).

(** The listing of the page "Ensayos & Resultados":
    [SELECT t.id, ... FROM tests t JOIN samples s ON s.id = t.sample_id
     WHERE 1=1], then
    [AND (t.sample_id LIKE ? OR t.test_name LIKE ? OR t.method LIKE ?)] if
    [filt] is not empty, then [ORDER BY t.id DESC]. *)
Definition select_tests_page (filt : string) (d : DB) : list test_row :=
  let like := "%" +:+ filt +:+ "%" in
  merge_sort test_id_ge
    (List.filter
       (fun t =>
          if Py.truthy filt
          then sql_like like (t_sample_id t) || sql_like like (t_test_name t)
               || sql_like like (t_method t)
          else true)
       (tests_join_samples d)).

(** The listing of the page "Auditoría":
    [SELECT * FROM audit WHERE 1=1], then
    [AND (entity LIKE ? OR action LIKE ? OR by_user LIKE ?)] if [filt] is not
    empty, then [ORDER BY id DESC LIMIT 1000]. *)
Definition select_audit_page (filt : string) (d : DB) : list audit_row :=
  let like := "%" +:+ filt +:+ "%" in
  take 1000
    (merge_sort audit_id_ge
       (List.filter
          (fun a =>
             if Py.truthy filt
             then sql_like like (a_entity a) || sql_like like (a_action a)
                  || sql_like like (a_by_user a)
             else true)
          (audit_log d))).

End Like.

End Query.

(** What the dashboard shows: the four metrics and the due-soon table. *)
Record dashboard_view := {
  total : nat; abiertos : nat; pendientes : nat; qc_abiertos : nat;
  df_due : list Sql.due_row }.

(** Page "Dashboard"; [today] is the engine's [DATE('now')]. *)
Definition page_dashboard (today : date) : M dashboard_view :=
  total <- run_query Query.count_samples;
  abiertos <- run_query Query.count_open_samples;
  pendientes <- run_query Query.count_pending_tests;
  qc_abiertos <- run_query Query.count_open_qc;
  df_due <- run_query (Sql.select_due_soon today);
  (if bool_decide (df_due = [])
   then show (st_info "Sin vencimientos próximos.")
   else ret tt);;
  ret {| total := total; abiertos := abiertos; pendientes := pendientes;
         qc_abiertos := qc_abiertos; df_due := df_due |}.

(** The dictionary [report] of the page "Reportes & Exportación";
    [rep_sample] is [None] for the empty dictionary. *)
Record report := {
  generated_at : string; rep_sample : option sample_row;
  rep_tests : list test_row; rep_results : list result_row }.

(** Page "Reportes & Exportación", button "Generar reporte JSON" beside the
    text input [sid]: the dictionary that is then serialised. *)
Definition generar_reporte (sid : string) (pressed : bool)
    : M (option report) :=
  if pressed && Py.truthy sid then
    sample <- run_query (Sql.select_sample sid);
    tests <- run_query (Query.select_tests_of sid);
    let test_ids := t_id <$> tests in
    results <- (if bool_decide (test_ids = []) then ret []
                else run_query (Query.select_results_in test_ids));
    ts <- now_ts;
    ret (Some {| generated_at := ts; rep_sample := head sample;
                 rep_tests := tests; rep_results := results |})
  else ret None.

(** Page "Adjuntos / Links": the table under the form, if one is shown. *)
Definition view_attachments (sid : string)
    : M (option (list attachment_row)) :=
  if Py.truthy sid then
    rows <- run_query (Query.select_attachments sid);
    ret (Some rows)
  else ret None.

(** Page "Auditoría": the chain of custody shown for [sid], if one is
    shown. *)
Definition view_coc (sid : string) : M (option (list coc_row)) :=
  if Py.truthy sid then
    rows <- run_query (Sql.select_coc sid);
    ret (Some rows)
  else ret None.

(** ** How the tables change

    The shapes a table can take after a statement of the script, stated on
    the table before ([l]) and after ([l']). *)

(** Nothing, or one row at the end that takes the next row id. *)
Definition appended {A} (key : A -> Z) (l l' : list A) : Prop :=
  l' = l \/ exists r, l' = l ++ [r] /\ key r = next_rowid (key <$> l).

(** [users]: nothing, or one row at the end with the next id and a username
    nobody has. *)
Definition user_step (l l' : list user_row) : Prop :=
  l' = l
  \/ exists u, l' = l ++ [u] /\ u_id u = next_rowid (u_id <$> l)
               /\ u_username u ∉ u_username <$> l.

(** What no form changes of a sample, a test and a QC event. *)
Definition same_sample (s s' : sample_row) : Prop :=
  s_id s' = s_id s /\ s_created_by s' = s_created_by s
  /\ s_created_at s' = s_created_at s.

Definition same_test (t t' : test_row) : Prop :=
  t_id t' = t_id t /\ t_sample_id t' = t_sample_id t
  /\ t_test_name t' = t_test_name t /\ t_method t' = t_method t
  /\ t_unit t' = t_unit t.

Definition same_qc (q q' : qc_row) : Prop :=
  q_id q' = q_id q /\ q_type q' = q_type q
  /\ q_instrument q' = q_instrument q
  /\ q_description q' = q_description q /\ q_at_time q' = q_at_time q
  /\ q_by_user q' = q_by_user q
  /\ (q_status q' = q_status q \/ q_status q' = "cerrado").

(** [samples]: rows edited in place, or one row at the end with an
    identifier no sample has. *)
Definition sample_step (l l' : list sample_row) : Prop :=
  Forall2 same_sample l l'
  \/ exists s, l' = l ++ [s] /\ s_id s ∉ s_id <$> l.

(** [tests]: rows edited in place, or one row at the end with the next
    id. *)
Definition test_step (l l' : list test_row) : Prop :=
  Forall2 same_test l l' \/ (exists t, l' = l ++ [t]
                                       /\ t_id t = next_rowid (t_id <$> l)).

(** [qc_events]: rows closed in place, or one row at the end with the next
    id. *)
Definition qc_step (l l' : list qc_row) : Prop :=
  Forall2 same_qc l l' \/ (exists q, l' = l ++ [q]
                                     /\ q_id q = next_rowid (q_id <$> l)).

(** A sample enters [samples] only together with its first chain-of-custody
    event and its audit record. *)
Definition custody_opened (d d' : DB) : Prop :=
  s_id <$> samples d' = s_id <$> samples d
  \/ exists s c a,
       samples d' = samples d ++ [s]
       /\ coc d' = coc d ++ [c] /\ c_sample_id c = s_id s
       /\ c_event c = "Registro"
       /\ audit_log d' = audit_log d ++ [a] /\ a_entity a = "sample"
       /\ a_entity_id a = s_id s /\ a_action a = "create".

(** One step of the database: what [init_db()] or one operation of the
    pages can do to it. *)
Definition evolves (d d' : DB) : Prop :=
  user_step (users d) (users d')
  /\ sample_step (samples d) (samples d')
  /\ test_step (tests d) (tests d')
  /\ appended r_id (results d) (results d')
  /\ appended at_id (attachments d) (attachments d')
  /\ appended c_id (coc d) (coc d')
  /\ appended a_id (audit_log d) (audit_log d')
  /\ qc_step (qc_events d) (qc_events d')
  /\ custody_opened d d'.

(** Row ids in the order of the table: at least 1 and strictly growing. *)
Definition ascending (ids : list Z) : Prop :=
  StronglySorted Z.lt ids /\ Forall (fun i => 1 ≤ i) ids.

(** The keys of the schema: [samples.id] and [users.username] without
    repetition, the [AUTOINCREMENT] ids ascending. *)
Definition keys_unique (d : DB) : Prop :=
  NoDup (s_id <$> samples d) /\ NoDup (u_username <$> users d).

Definition rowids_ascending (d : DB) : Prop :=
  ascending (u_id <$> users d) /\ ascending (t_id <$> tests d)
  /\ ascending (r_id <$> results d) /\ ascending (at_id <$> attachments d)
  /\ ascending (c_id <$> coc d) /\ ascending (a_id <$> audit_log d)
  /\ ascending (q_id <$> qc_events d).

(** Every sample has its registration event in the chain of custody and its
    creation record in the audit trail. *)
Definition custody_complete (d : DB) : Prop :=
  forall s, s ∈ samples d ->
    (exists c, c ∈ coc d /\ c_sample_id c = s_id s /\ c_event c = "Registro")
    /\ (exists a, a ∈ audit_log d /\ a_entity a = "sample"
                  /\ a_entity_id a = s_id s /\ a_action a = "create").

(** Every row of [l] is still at its place in [l'], up to [R]. *)
Definition kept {A} (R : A -> A -> Prop) (l l' : list A) : Prop :=
  forall i x, l !! i = Some x -> exists x', l' !! i = Some x' /\ R x x'.

(** The first run of the script on a new database file, in which Ana
    registers Acme's sample. *)
Definition first_run : world :=
  snd (script (fun _ => None) "ana" (Some (RegisterSample acme_form))
         {| w_db := empty_db;
            w_clock := frozen_clock 2025 "2025-08-28 10:00:00-0500";
            w_tick := 0; w_user := "admin"; w_out := [] |}).

(** A database in which the clock went back: sample [S-2025-0001] exists,
    the sequencer has meanwhile moved on to 2026. *)
Definition db_clock_went_back : DB :=
  with_samples
    [{| s_id := "S-2025-0001"; s_client := "Acme"; s_project := "";
        s_matrix := "agua"; s_description := ""; s_received_at := 739491;
        s_due_at := None; s_status := "registrado"; s_priority := "normal";
        s_location := ""; s_created_by := "admin";
        s_created_at := "2025-08-28 10:00:00-0500";
        s_updated_at := "2025-08-28 10:00:00-0500" |}]
    (db_at 2026 3).

(** Acme's form with the status set to closed. *)
Definition acme_closed : sample_form :=
  {| f_client := "Acme"; f_project := "P-7"; f_matrix := "agua";
     f_description := ""; f_received_at := 739491; f_due_at := Some 739500;
     f_priority := "alta"; f_status := "cerrado"; f_location := "";
     f_created_by := "admin" |}.

(** A laboratory with one registered sample, one pending test on it and one
    open QC event. *)
Definition lab_busy : world :=
  world_of
    (with_qc_events
       [{| q_id := 1; q_type := "mantenimiento"; q_instrument := "Epsilon 4";
           q_description := ""; q_status := "abierto";
           q_at_time := "2025-08-28 10:00:00-0500"; q_by_user := "admin" |}]
       (with_tests
          [{| t_id := 1; t_sample_id := "S-2025-0001";
              t_test_name := "ICP-OES"; t_method := "EPA 6010D";
              t_unit := "mg/kg"; t_status := "pendiente";
              t_assigned_to := None; t_due_at := None |}]
          (with_samples
             [{| s_id := "S-2025-0001"; s_client := "Acme"; s_project := "";
                 s_matrix := "agua"; s_description := "";
                 s_received_at := 739491; s_due_at := Some 739495;
                 s_status := "registrado"; s_priority := "normal";
                 s_location := ""; s_created_by := "admin";
                 s_created_at := "2025-08-28 10:00:00-0500";
                 s_updated_at := "2025-08-28 10:00:00-0500" |}]
             (db_at 2025 1))))
    2025 "ana".

(** Page "Adjuntos / Links" as a whole: the form is handled first, the table
    is read after it. *)
Definition page_attachments (sid label url notes : string) (add : bool)
    : M (option (list attachment_row)) :=
  add_link sid label url notes add;;
  view_attachments sid.

(** Page "Auditoría", the part on the chain of custody: the table is read
    first, the form [add_coc] is handled after it. *)
Definition page_coc (sid event notes : string) (add : bool)
    : M (option (list coc_row)) :=
  shown <- view_coc sid;
  add_coc sid event notes add;;
  ret shown.

(** ** The sequencer and the calendar *)

(** The years the clock shows never go back. *)
Definition year_never_goes_back (clock : nat -> instant) : Prop :=
  forall i j : nat, (i <= j)%nat -> now_year (clock i) <= now_year (clock j).

(** An identifier that the sequencer has handed out by the time it stands at
    year [y0] and counter [c]. *)
Definition issued_by (y0 c : Z) (id : string) : Prop :=
  exists y n, id = sample_id (Py.str y) n /\ 1 <= n
              /\ (y < y0 \/ (y = y0 /\ n <= c)).

(** The sequencer is not behind any sample and not ahead of the clock. *)
Definition sequencer_ahead (w : world) : Prop :=
  exists y0 c,
    sequencer_at (Py.str y0) c (w_db w) /\ 0 <= c
    /\ y0 <= now_year (w_clock w (w_tick w))
    /\ Forall (issued_by y0 c) (s_id <$> samples (w_db w)).

(** * Properties *)

(** ** Python values *)

Module PyFacts.

(** Canonical literals (an optional minus sign and digits) are read by the
    Standard Library's [NilZero.int_of_string]; [Py.int] reads them the same
    way. *)
Lemma plain_str (z : Z) :
  option_map Z.of_int (NilZero.int_of_string (Py.str z)) = Some z.
Proof.
  unfold Py.str.
  rewrite NilZero.isi.
  - simpl. by rewrite DecimalZ.of_to.
  - destruct z; simpl; try discriminate.
    intros [= H]. by apply DecimalPos.Unsigned.to_uint_nonnil in H.
  - destruct z; simpl; try discriminate.
    intros [= H]. by apply DecimalPos.Unsigned.to_uint_nonnil in H.
Qed.

Lemma digit_char (a : ascii) (d0 d : Decimal.uint) :
  uint_of_char a (Some d0) = Some d ->
  Py.is_decimal a = true /\ Py.is_space a = false
  /\ Ascii.eqb a "-" = false /\ Ascii.eqb a "+" = false.
Proof.
  destruct a as [[] [] [] [] [] [] [] []]; simpl; intros H;
    first [discriminate H|repeat split].
Qed.

Lemma uint_cons (a : ascii) (s : string) (d : Decimal.uint) :
  NilEmpty.uint_of_string (String a s) = Some d ->
  exists d0, NilEmpty.uint_of_string s = Some d0
             /\ uint_of_char a (Some d0) = Some d.
Proof.
  simpl. destruct (NilEmpty.uint_of_string s) as [d0|]; [by exists d0|].
  destruct a as [[] [] [] [] [] [] [] []]; discriminate.
Qed.

Lemma digit_groups_uint (s : string) (d : Decimal.uint) (b : bool) :
  NilEmpty.uint_of_string s = Some d -> s <> "" \/ b = true ->
  Py.digit_groups b s = Some s.
Proof.
  revert d b. induction s as [|a s IH]; intros d b Hd Hb.
  - destruct Hb as [Hb| ->]; [done|reflexivity].
  - apply uint_cons in Hd as (d0 & Hs & Ha).
    apply digit_char in Ha as (Hdec & _). simpl. rewrite Hdec.
    by rewrite (IH d0 true Hs (or_intror eq_refl)).
Qed.

Lemma strip_uint (s : string) (d : Decimal.uint) :
  NilEmpty.uint_of_string s = Some d ->
  Py.lstrip s = s /\ Py.rstrip s = s.
Proof.
  revert d. induction s as [|a s IH]; intros d Hd; [done|].
  apply uint_cons in Hd as (d0 & Hs & Ha).
  apply digit_char in Ha as (_ & Hsp & _). simpl. rewrite Hsp.
  split; [done|]. destruct (IH d0 Hs) as [_ ->].
  by destruct s.
Qed.

Lemma int_of_plain (s : string) (z : Z) :
  option_map Z.of_int (NilZero.int_of_string s) = Some z ->
  Py.int s = Some z.
Proof.
  unfold NilZero.int_of_string. destruct s as [|a s]; [discriminate|].
  destruct (Ascii.eqb a "-") eqn:Ha.
  - apply Ascii.eqb_eq in Ha as ->. unfold NilZero.uint_of_string.
    destruct s as [|b s]; [discriminate|].
    destruct (NilEmpty.uint_of_string (String b s)) as [d|] eqn:Hd;
      [|discriminate].
    simpl option_map. intros [= <-].
    destruct (strip_uint _ _ Hd) as [Hl Hr]. unfold Py.int.
    change (Py.lstrip (String "-" (String b s))) with (String "-" (String b s)).
    assert (Hrs : Py.rstrip (String "-" (String b s))
                  = String "-" (String b s)).
    { change (Py.rstrip (String "-" (String b s)))
        with (match Py.rstrip (String b s) with
              | EmptyString => String "-" EmptyString
              | t => String "-" t
              end).
      by rewrite Hr. }
    rewrite Hrs. cbv beta iota zeta.
    rewrite (digit_groups_uint _ d false Hd) by (left; discriminate).
    by rewrite Hd.
  - unfold NilZero.uint_of_string.
    destruct (NilEmpty.uint_of_string (String a s)) as [d|] eqn:Hd;
      [|discriminate].
    simpl option_map. intros [= <-].
    destruct (strip_uint _ _ Hd) as [Hl Hr]. unfold Py.int.
    rewrite Hl, Hr.
    pose proof Hd as Hd'. apply uint_cons in Hd' as (d0 & _ & Hc).
    apply digit_char in Hc as (_ & _ & _ & Hplus).
    assert (Hsign :
              match String a s with
              | String "-"%char r => (true, r)
              | String "+"%char r => (false, r)
              | _ => (false, String a s)
              end = (false, String a s)).
    { clear -Ha Hplus.
      destruct a as [[] [] [] [] [] [] [] []]; first [done|discriminate]. }
    rewrite Hsign.
    rewrite (digit_groups_uint _ d false Hd) by (left; discriminate).
    by rewrite Hd.
Qed.

Lemma int_str (z : Z) : Py.int (Py.str z) = Some z.
Proof. apply int_of_plain, plain_str. Qed.

Lemma str_inj (a b : Z) : Py.str a = Py.str b -> a = b.
Proof.
  intros H. apply (f_equal Py.int) in H. rewrite !int_str in H. congruence.
Qed.

(** The digits of a number that is not negative. *)
Lemma str_digits (z : Z) :
  0 <= z ->
  exists d, NilEmpty.uint_of_string (Py.str z) = Some d
            /\ Z.of_int (Decimal.Pos d) = z /\ Py.str z <> "".
Proof.
  intros Hz.
  pose proof (plain_str z) as H.
  destruct (NilZero.int_of_string (Py.str z)) as [i|] eqn:Hi; [|discriminate].
  injection H as H.
  unfold NilZero.int_of_string in Hi.
  destruct (Py.str z) as [|a s'] eqn:Hs; [discriminate|].
  destruct (Ascii.eqb a "-") eqn:Ha.
  - exfalso. apply Ascii.eqb_eq in Ha. subst a.
    unfold Py.str in Hs. destruct z; simpl in Hs; try lia.
    + discriminate.
    + unfold NilZero.string_of_uint in Hs.
      destruct (Pos.to_uint p) eqn:Hp; simpl in Hs; try discriminate.
  - unfold NilZero.uint_of_string in Hi.
    destruct (NilEmpty.uint_of_string (String a s')) as [d|] eqn:Hd;
      [|discriminate].
    simpl in Hi. injection Hi as <-. exists d. done.
Qed.

Lemma sapp_nil (s : string) : "" +:+ s = s.
Proof. reflexivity. Qed.

Lemma sapp_cons (a : ascii) (s t : string) :
  String a s +:+ t = String a (s +:+ t).
Proof. reflexivity. Qed.

Lemma uint_of_zeros (k : nat) (s : string) :
  NilEmpty.uint_of_string (Py.zeros k +:+ s)
  = option_map (Nat.iter k Decimal.D0) (NilEmpty.uint_of_string s).
Proof.
  induction k as [|k IH]; simpl; rewrite ?sapp_nil, ?sapp_cons.
  - destruct (NilEmpty.uint_of_string s); reflexivity.
  - simpl. rewrite IH. destruct (NilEmpty.uint_of_string s); reflexivity.
Qed.

Lemma of_uint_zeros (k : nat) (d : Decimal.uint) :
  Z.of_uint (Nat.iter k Decimal.D0 d) = Z.of_uint d.
Proof.
  unfold Z.of_uint. f_equal.
  induction k as [|k IH]; [done|]. simpl. exact IH.
Qed.

Lemma int_lpad0 (w : nat) (z : Z) :
  0 <= z -> Py.int (Py.lpad0 w (Py.str z)) = Some z.
Proof.
  intros Hz. destruct (str_digits z Hz) as (d & Hd & Hz' & Hne).
  apply int_of_plain. unfold Py.lpad0.
  generalize (w - String.length (Py.str z))%nat. intros k.
  assert (Hu : NilEmpty.uint_of_string (Py.zeros k +:+ Py.str z)
               = Some (Nat.iter k Decimal.D0 d)).
  { rewrite uint_of_zeros, Hd. done. }
  destruct k as [|k].
  - simpl. rewrite sapp_nil. apply plain_str.
  - change (Py.zeros (S k) +:+ Py.str z)
      with (String "0" (Py.zeros k +:+ Py.str z)) in *.
    unfold NilZero.int_of_string, NilZero.uint_of_string.
    change (Ascii.eqb "0" "-") with false. cbv iota.
    rewrite Hu. simpl. f_equal.
    change (Decimal.D0 (Nat.iter k Decimal.D0 d))
      with (Nat.iter (S k) Decimal.D0 d).
    rewrite of_uint_zeros. exact Hz'.
Qed.

Lemma int_format_04d (z : Z) : Py.int (Py.format_04d z) = Some z.
Proof.
  unfold Py.format_04d. destruct (Z.ltb_spec z 0) as [Hneg|Hpos].
  - assert (Hz : 0 <= - z) by lia.
    destruct (str_digits (- z) Hz) as (d & Hd & Hz' & Hne).
    apply int_of_plain. unfold Py.lpad0. simpl.
    generalize (3 - String.length (Py.str (- z)))%nat. intros k.
    unfold NilZero.uint_of_string.
    assert (Hu : NilEmpty.uint_of_string (Py.zeros k +:+ Py.str (- z))
                 = Some (Nat.iter k Decimal.D0 d)).
    { rewrite uint_of_zeros, Hd. done. }
    destruct (Py.zeros k +:+ Py.str (- z)) eqn:Hs.
    + destruct k; simpl in Hs; rewrite ?sapp_nil, ?sapp_cons in Hs;
        [congruence|discriminate].
    + rewrite Hu. simpl. f_equal. rewrite of_uint_zeros.
      simpl in Hz'. lia.
  - by apply int_lpad0.
Qed.

Lemma format_04d_inj (a b : Z) : Py.format_04d a = Py.format_04d b -> a = b.
Proof.
  intros H. apply (f_equal Py.int) in H. rewrite !int_format_04d in H.
  congruence.
Qed.

End PyFacts.

(** ** The identifier sequencer *)

Module SeqFacts.

Lemma str_lt_trans (a b c : string) : str_lt a b -> str_lt b c -> str_lt a c.
Proof.
  unfold str_lt. intros H1 H2.
  apply String_as_OT.cmp_lt. apply String_as_OT.cmp_lt in H1, H2.
  eapply String_as_OT.lt_trans; eauto.
Qed.

Lemma ascii_compare_refl (a : ascii) : Ascii.compare a a = Eq.
Proof. unfold Ascii.compare. apply N.compare_refl. Qed.

Lemma compare_app_l (p a b : string) :
  String.compare (p +:+ a) (p +:+ b) = String.compare a b.
Proof.
  induction p as [|c p IH]; [done|].
  rewrite !PyFacts.sapp_cons. simpl. by rewrite ascii_compare_refl.
Qed.

Lemma sapp_inj_r (p a b : string) : p +:+ a = p +:+ b -> a = b.
Proof.
  induction p as [|c p IH]; [done|].
  rewrite !PyFacts.sapp_cons. intros [= H]. auto.
Qed.

Lemma strip_prefix_app (p s : string) : strip_prefix p (p +:+ s) = Some s.
Proof.
  induction p as [|c p IH]; [done|].
  rewrite PyFacts.sapp_cons. simpl. by rewrite Ascii.eqb_refl.
Qed.

Lemma sample_id_inj (year : string) (a b : Z) :
  sample_id year a = sample_id year b -> a = b.
Proof.
  unfold sample_id. intros H.
  do 3 apply sapp_inj_r in H. by apply PyFacts.format_04d_inj.
Qed.

Lemma format_04d_table :
  forallb (fun n => String.ltb (Py.format_04d n) (Py.format_04d (n + 1))
                    && (String.length (Py.format_04d (n + 1)) =? 4)%nat
                    && all_digits (Py.format_04d (n + 1)))
          (seqZ 0 9999) = true.
Proof. vm_compute. reflexivity. Qed.

Lemma format_04d_succ (n : Z) :
  0 <= n < 9999 ->
  str_lt (Py.format_04d n) (Py.format_04d (n + 1))
  /\ String.length (Py.format_04d (n + 1)) = 4%nat
  /\ all_digits (Py.format_04d (n + 1)) = true.
Proof.
  intros Hn. pose proof format_04d_table as H.
  rewrite forallb_forall in H. specialize (H n).
  rewrite <- list_elem_of_In, elem_of_seqZ in H.
  specialize (H ltac:(lia)).
  apply andb_prop in H as [H H3]. apply andb_prop in H as [H1 H2].
  split; [|split; [by apply Nat.eqb_eq|done]].
  unfold str_lt. unfold String.ltb in H1.
  by destruct (String.compare _ _).
Qed.

Lemma format_04d_lt (a b : Z) :
  0 <= a < b -> b <= 9999 -> str_lt (Py.format_04d a) (Py.format_04d b).
Proof.
  intros Ha Hb.
  assert (H : forall k : nat, a + 1 + Z.of_nat k <= 9999 ->
              str_lt (Py.format_04d a) (Py.format_04d (a + 1 + Z.of_nat k))).
  { induction k as [|k IH]; intros Hk.
    - replace (a + 1 + Z.of_nat 0) with (a + 1) by lia.
      apply format_04d_succ. lia.
    - eapply str_lt_trans; [apply IH; lia|].
      replace (a + 1 + Z.of_nat (S k)) with (a + 1 + Z.of_nat k + 1) by lia.
      apply format_04d_succ. lia. }
  specialize (H (Z.to_nat (b - a - 1))).
  replace (a + 1 + Z.of_nat (Z.to_nat (b - a - 1))) with b in H by lia.
  apply H. lia.
Qed.

Lemma sample_id_lt (year : string) (a b : Z) :
  0 <= a < b -> b <= 9999 -> str_lt (sample_id year a) (sample_id year b).
Proof.
  intros Ha Hb. unfold str_lt, sample_id.
  rewrite !compare_app_l. by apply format_04d_lt.
Qed.

Lemma sapp_assoc (a b c : string) : (a +:+ b) +:+ c = a +:+ (b +:+ c).
Proof.
  induction a as [|x a IH]; [done|].
  rewrite !PyFacts.sapp_cons. by rewrite IH.
Qed.

Lemma sample_id_four_digit (y n : Z) :
  1 <= n <= 9999 -> four_digit_id y (sample_id (Py.str y) n) = true.
Proof.
  intros Hn. unfold four_digit_id, sample_id.
  rewrite <- !sapp_assoc, strip_prefix_app.
  destruct (format_04d_succ (n - 1)) as (_ & Hl & Hd); [lia|].
  replace (n - 1 + 1) with n in * by lia.
  rewrite Hl, Hd. done.
Qed.

Lemma sorted_seqZ (lo hi a : Z) (n : nat) :
  lo <= a -> a + Z.of_nat n <= hi ->
  StronglySorted (fun x y => lo <= x < y /\ y < hi) (seqZ a (Z.of_nat n)).
Proof.
  revert a. induction n as [|n IH]; intros a Hlo Hhi.
  - rewrite seqZ_nil by lia. constructor.
  - rewrite seqZ_cons by lia. constructor.
    + replace (Z.pred (Z.of_nat (S n))) with (Z.of_nat n) by lia.
      apply IH; lia.
    + apply Forall_seqZ. intros j Hj. lia.
Qed.

(** One call: the identifier returned and the state left behind. *)
Lemma next_sample_id_step (w : world) (ys : string) (c : Z) :
  sequencer_at ys c (w_db w) ->
  let y := now_year (w_clock w (w_tick w)) in
  let c' := (if bool_decide (ys = Py.str y) then c else 0) + 1 in
  exists w',
    next_sample_id w = (Ok (sample_id (Py.str y) c'), w')
    /\ sequencer_at (Py.str y) c' (w_db w')
    /\ tables (w_db w') = tables (w_db w)
    /\ w_tick w' = S (w_tick w) /\ w_clock w' = w_clock w
    /\ w_user w' = w_user w /\ w_out w' = w_out w.
Proof.
  intros [Hy Hc] y c'.
  unfold next_sample_id, bind, current_year, datetime_now, run_query, ret,
    Sql.select_meta.
  simpl. rewrite Hy, Hc. simpl. rewrite PyFacts.int_str. simpl.
  fold y. subst c'.
  destruct (decide (ys = Py.str y)) as [->|Hne].
  - rewrite (bool_decide_eq_true_2 (Some _ = Some _)) by done.
    rewrite bool_decide_eq_true_2 by done. simpl.
    eexists. split; [reflexivity|].
    unfold sequencer_at, tables. simpl.
    repeat (rewrite lookup_alter_eq || rewrite lookup_alter_ne by done).
    rewrite Hy, Hc. done.
  - rewrite (bool_decide_eq_false_2 (Some _ = Some _)) by congruence.
    rewrite bool_decide_eq_false_2 by done. simpl.
    eexists. split; [reflexivity|].
    unfold sequencer_at, tables. simpl.
    repeat (rewrite lookup_alter_eq || rewrite lookup_alter_ne by done).
    rewrite Hy, Hc. done.
Qed.

Lemma issue_ids (n : nat) (w : world) (ys : string) (c y : Z) :
  sequencer_at ys c (w_db w) ->
  (forall k, (k < n)%nat -> now_year (w_clock w (w_tick w + k)) = y) ->
  let base := if bool_decide (ys = Py.str y) then c else 0 in
  fst (issue n w)
  = Ok (sample_id (Py.str y) <$> seqZ (base + 1) (Z.of_nat n))
  /\ ((0 < n)%nat ->
      sequencer_at (Py.str y) (base + Z.of_nat n) (w_db (snd (issue n w)))).
Proof.
  revert w ys c. induction n as [|n IH]; intros w ys c Hseq Hclock base.
  - split; [done|lia].
  - pose proof (Hclock 0%nat ltac:(lia)) as H0. rewrite Nat.add_0_r in H0.
    pose proof (next_sample_id_step w ys c Hseq) as Hstep.
    cbv zeta in Hstep. rewrite H0 in Hstep. fold base in Hstep.
    destruct Hstep as (w' & Hrun & Hseq' & _ & Htick & Hclk & _).
    destruct (IH w' (Py.str y) (base + 1) Hseq') as [Hids Hfin].
    { intros k Hk. rewrite Hclk, Htick.
      replace (S (w_tick w) + k)%nat with (w_tick w + S k)%nat by lia.
      apply Hclock. lia. }
    rewrite bool_decide_eq_true_2 in Hids, Hfin by done.
    destruct (issue n w') as [[ids|e] w''] eqn:Hrest;
      simpl in Hids, Hfin; [|discriminate].
    injection Hids as ->.
    assert (Hall : issue (S n) w
                   = (Ok (sample_id (Py.str y) (base + 1)
                          :: (sample_id (Py.str y)
                                <$> seqZ (base + 1 + 1) (Z.of_nat n))), w'')).
    { simpl. unfold bind at 1. rewrite Hrun.
      unfold bind at 1. rewrite Hrest. done. }
    rewrite Hall. simpl. split.
    + rewrite (seqZ_cons (base + 1)) by lia. simpl.
      replace (Z.succ (base + 1)) with (base + 1 + 1) by lia.
      replace (Z.pred (Z.of_nat (S n))) with (Z.of_nat n) by lia. done.
    + intros _. destruct n as [|n].
      * simpl in Hrest. unfold ret in Hrest. injection Hrest as <-.
        replace (base + Z.of_nat 1) with (base + 1) by lia. exact Hseq'.
      * replace (base + Z.of_nat (S (S n)))
          with (base + 1 + Z.of_nat (S n)) by lia.
        apply Hfin. lia.
Qed.

End SeqFacts.

(** C1 (amended).  From a database whose sequencer rows hold the year text
    [ys] and the counter [c >= 0], [n] successive calls of
    [next_sample_id()] made while the clock shows year [y] return
    [S-<y>-<seq>] for the consecutive counters [base+1 .. base+n], where
    [base] is [c] if the stored year is [y] and 0 otherwise (so the first
    call of a new year returns counter 1); [seq] is the counter padded with
    zeros to at least four digits.  The identifiers are pairwise different
    and the last counter is what the database keeps.  As long as the counter
    stays at or below 9999 every [seq] has exactly four digits and the
    identifiers increase strictly as strings. *)
Theorem sequencer_contract (n : nat) (w : world) (ys : string) (c y : Z) :
  0 <= c ->
  sequencer_at ys c (w_db w) ->
  (forall k, (k < n)%nat -> now_year (w_clock w (w_tick w + k)) = y) ->
  let base := if bool_decide (ys = Py.str y) then c else 0 in
  let ids := sample_id (Py.str y) <$> seqZ (base + 1) (Z.of_nat n) in
  fst (issue n w) = Ok ids
  /\ ((0 < n)%nat ->
      sequencer_at (Py.str y) (base + Z.of_nat n) (w_db (snd (issue n w))))
  /\ NoDup ids
  /\ (base + Z.of_nat n <= 9999 ->
      Forall (fun id => four_digit_id y id = true) ids
      /\ StronglySorted str_lt ids).
Proof.
  intros Hc Hseq Hclock base ids.
  assert (Hbase : 0 <= base) by (subst base; case_bool_decide; lia).
  destruct (SeqFacts.issue_ids n w ys c y Hseq Hclock) as [Hids Hfin].
  split; [exact Hids|]. split; [exact Hfin|]. split.
  - apply NoDup_fmap_2; [|apply NoDup_seqZ].
    intros a b. apply SeqFacts.sample_id_inj.
  - intros Hle. split.
    + apply Forall_fmap, Forall_seqZ. intros k Hk. simpl.
      apply SeqFacts.sample_id_four_digit. lia.
    + eapply StronglySorted_fmap; [|apply (SeqFacts.sorted_seqZ 0 10000); lia].
      intros a b Hab. simpl in Hab. apply SeqFacts.sample_id_lt; lia.
Qed.

Lemma sequencer_contract_witness :
  fst (issue 2 (world_of (db_at 2025 0) 2025 "admin"))
  = Ok ["S-2025-0001"; "S-2025-0002"]
  /\ fst (issue 2 (world_of (db_at 2024 57) 2025 "admin"))
     = Ok ["S-2025-0001"; "S-2025-0002"].
Proof.
  split.
  - refine (proj1 (sequencer_contract 2 (world_of (db_at 2025 0) 2025 "admin")
                     "2025" 0 2025 _ _ _)).
    + lia.
    + split; vm_compute; reflexivity.
    + intros k _. reflexivity.
  - refine (proj1 (sequencer_contract 2 (world_of (db_at 2024 57) 2025 "admin")
                     "2024" 57 2025 _ _ _)).
    + lia.
    + split; vm_compute; reflexivity.
    + intros k _. reflexivity.
Defined.

(** C1 as stated fails once the counter passes 9999: with the counter at
    9998 in 2025 the next two identifiers are [S-2025-9999] and
    [S-2025-10000]; the second has five digits and is smaller, as a string,
    than the first. *)
Lemma sequencer_five_digits :
  fst (issue 2 (world_of (db_at 2025 9998) 2025 "admin"))
  = Ok ["S-2025-9999"; "S-2025-10000"]
  /\ four_digit_id 2025 "S-2025-10000" = false
  /\ ~ str_lt "S-2025-9999" "S-2025-10000".
Proof.
  split; [vm_compute; reflexivity|]. split; [vm_compute; reflexivity|].
  unfold str_lt. vm_compute. discriminate.
Qed.

(** ** The handlers of the pages *)

Ltac run :=
  unfold frm_sample, edit_sample, add_test, edit_test, add_result, add_link,
    qc_form, qc_close, add_user, add_coc, view_results, audit,
    optional_float,
    try_except, now_ts, current_year, datetime_now, session_user, show,
    run_execute, run_query, bind, ret, raise;
  simpl.

Lemma next_sample_id_frame (w : world) :
  tables (w_db (snd (next_sample_id w))) = tables (w_db w)
  /\ w_user (snd (next_sample_id w)) = w_user w
  /\ w_out (snd (next_sample_id w)) = w_out w
  /\ w_clock (snd (next_sample_id w)) = w_clock w.
Proof.
  unfold next_sample_id, Sql.select_meta. run.
  destruct (meta (w_db w) !! "seq_num") as [v|]; simpl; [|done].
  destruct (Py.int v) as [n|]; simpl; [|done].
  destruct (meta (w_db w) !! "seq_ano") as [ys|]; simpl; [|done].
  case_bool_decide; simpl; done.
Qed.

#[local] Arguments index_of : simpl never.
#[local] Arguments next_sample_id : simpl never.

Lemma index_of_in (x : string) (l : list string) (w : world) :
  x ∈ l -> exists i, index_of x l w = (Ok i, w).
Proof.
  intros Hin. unfold index_of.
  destruct (list_find (fun c => c = x) l) as [[i c]|] eqn:E; [by eexists|].
  apply list_find_None in E. rewrite Forall_forall in E.
  by destruct (E x Hin).
Qed.

Lemma index_of_notin (x : string) (l : list string) (w : world) :
  x ∉ l -> index_of x l w = (Raise ValueError, w).
Proof.
  intros Hnin. unfold index_of.
  destruct (list_find (fun c => c = x) l) as [[i c]|] eqn:E; [|done].
  apply list_find_Some in E as (Hl & -> & _).
  destruct Hnin. by eapply list_elem_of_lookup_2.
Qed.

(** C2.  Each operation of the pages either does not get to its write, and
    then leaves the entity tables and the audit trail as they were, or it
    completes and appends exactly one audit record, whose entity and action
    are those of the operation (create, update, close; add_event for a
    chain-of-custody event) and whose user is the session user. *)
Theorem every_mutation_audited (py_float : string -> option float)
    (op : operation) (w : world) :
  let r := perform py_float op w in
  if writes py_float op w
  then fst r = Ok tt
       /\ exists a, audit_log (w_db (snd r)) = audit_log (w_db w) ++ [a]
                    /\ a_entity a = op_entity op
                    /\ a_action a = op_action op
                    /\ a_by_user a = w_user w
  else audit_log (w_db (snd r)) = audit_log (w_db w)
       /\ domain (w_db (snd r)) = domain (w_db w).
Proof.
  destruct op; simpl.
  - (* RegisterSample *)
    destruct (next_sample_id_frame w) as (Htab & Huser & _).
    unfold can_register. run. unfold Sql.insert_sample.
    destruct (Py.truthy (f_client f)); simpl; [|done].
    destruct (next_sample_id w) as [[sid|e] w1] eqn:E; simpl in *;
      injection Htab as Hu Hs Ht Hr Ha Hc Hl Hq.
    + rewrite Hs. case_bool_decide; simpl.
      * unfold domain. rewrite Hl. split; [done|]. congruence.
      * split; [done|]. eexists. rewrite Hl. split; [reflexivity|]. done.
    + unfold domain. rewrite Hl. split; [done|]. congruence.
  - (* UpdateSample *)
    run. destruct (Py.truthy sid); simpl; [|done].
    destruct (Sql.select_sample sid (w_db w)) as [|rec recs]; simpl; [done|].
    case_bool_decide as Hst; simpl.
    + destruct (index_of_in _ _ w Hst) as [i ->].
      case_bool_decide as Hpr; simpl.
      * destruct (index_of_in _ _ w Hpr) as [j ->]. simpl. eauto 10.
      * rewrite (index_of_notin _ _ w Hpr). done.
    + rewrite (index_of_notin _ _ w Hst). done.
  - (* AddTest *)
    run. destruct (Py.truthy sid2), (Py.truthy test_name); simpl; eauto 10.
  - (* UpdateTest *)
    run. case_bool_decide; simpl; [|done].
    destruct (Sql.select_test tid (w_db w)) as [|row rows]; simpl; [done|].
    case_bool_decide as Hst; simpl.
    + destruct (index_of_in _ _ w Hst) as [i ->]. simpl. eauto 10.
    + rewrite (index_of_notin _ _ w Hst). done.
  - (* AddResult *)
    run. destruct (Py.truthy analyte); simpl; [|done].
    case_bool_decide; simpl; [|done].
    destruct (Py.truthy unc); simpl; [|eauto 10].
    destruct (py_float unc) as [u|]; simpl; eauto 10.
  - (* AddAttachment *)
    run. destruct (Py.truthy sid), (Py.truthy url); simpl; eauto 10.
  - (* AddQcEvent *)
    run. eauto 10.
  - (* CloseQcEvent *)
    run. case_bool_decide; simpl; eauto 10.
  - (* CreateUser *)
    run. destruct (Py.truthy uname); simpl; [|done].
    unfold Sql.insert_user. case_bool_decide; simpl; eauto 10.
  - (* AddCocEvent *)
    run. destruct (Py.truthy sid), (Py.truthy event); simpl; eauto 10.
Qed.

Lemma truthy_true (s : string) : s <> "" -> Py.truthy s = true.
Proof.
  intros H. unfold Py.truthy. by apply negb_true_iff, String.eqb_neq.
Qed.

(** C3.  Submitting the form [add_test] for the sample identifier [sid2]
    with a test name completes and appends one row to [tests]: its
    [sample_id] is [sid2], its name the one typed, and its status
    [pendiente], the value the schema also gives as the default of the
    column (the initial state of a test, pending).  It appends exactly one
    audit record, with entity [test] and action [create]. *)
Theorem add_test_creates_pending (sid2 test_name method unit_ : string)
    (due_at : option date) (w : world) :
  sid2 <> "" -> test_name <> "" ->
  let r := add_test sid2 test_name method unit_ due_at true w in
  fst r = Ok tt
  /\ exists t a,
       tests (w_db (snd r)) = tests (w_db w) ++ [t]
       /\ t_sample_id t = sid2
       /\ t_test_name t = test_name
       /\ t_status t = "pendiente"
       /\ audit_log (w_db (snd r)) = audit_log (w_db w) ++ [a]
       /\ a_entity a = "test" /\ a_action a = "create".
Proof.
  intros H1 H2. run. rewrite (truthy_true _ H1), (truthy_true _ H2). simpl.
  eauto 12.
Qed.

Lemma add_test_creates_pending_witness :
  let r := add_test "S-2025-0001" "ICP-OES" "" "" None true
             (world_of (db_at 2025 1) 2025 "admin") in
  fst r = Ok tt
  /\ exists t a,
       tests (w_db (snd r)) = [t]
       /\ t_sample_id t = "S-2025-0001"
       /\ t_test_name t = "ICP-OES"
       /\ t_status t = "pendiente"
       /\ audit_log (w_db (snd r)) = [a]
       /\ a_entity a = "test" /\ a_action a = "create".
Proof.
  apply (add_test_creates_pending "S-2025-0001" "ICP-OES" "" "" None
           (world_of (db_at 2025 1) 2025 "admin")); discriminate.
Defined.

(** C8.  Submitting [frm_sample] either registers nothing (no sample row,
    no chain-of-custody row), or completes with one new sample row and
    exactly one new chain-of-custody row for it: event [Registro], the
    session user, notes [Muestra creada].  The chain of custody shown for
    the new sample is then not empty. *)
Theorem registration_opens_custody (f : sample_form) (w : world) :
  let r := frm_sample f true w in
  if can_register f w
  then fst r = Ok tt
       /\ exists s c,
            samples (w_db (snd r)) = samples (w_db w) ++ [s]
            /\ fst (next_sample_id w) = Ok (s_id s)
            /\ coc (w_db (snd r)) = coc (w_db w) ++ [c]
            /\ c_sample_id c = s_id s
            /\ c_event c = "Registro"
            /\ c_by_user c = w_user w
            /\ c_notes c = "Muestra creada"
            /\ Sql.select_coc (s_id s) (w_db (snd r)) <> []
  else samples (w_db (snd r)) = samples (w_db w)
       /\ coc (w_db (snd r)) = coc (w_db w).
Proof.
  destruct (next_sample_id_frame w) as (Htab & Huser & _).
  unfold can_register. run. unfold Sql.insert_sample.
  destruct (Py.truthy (f_client f)); simpl; [|done].
  destruct (next_sample_id w) as [[sid|e] w1] eqn:E; simpl in *;
    injection Htab as Hu Hs Ht Hr Ha Hc Hl Hq; [|done].
  rewrite Hs. case_bool_decide; simpl; [done|].
  split; [done|]. eexists _, _. rewrite Hc, Huser.
  repeat (split; [reflexivity|]). simpl.
  unfold Sql.select_coc. simpl. intros Hnil.
  apply (f_equal length) in Hnil.
  rewrite merge_sort_Permutation in Hnil.
  rewrite filter_app, length_app in Hnil. simpl in Hnil.
  rewrite filter_cons_True in Hnil by done. simpl in Hnil. lia.
Qed.

(** The scenario of the registration page: Acme's water sample in 2025 with
    the counter at 0, then a second sample. *)
Lemma registration_scenario :
  let w1 := snd (frm_sample acme_form true lab_2025) in
  let w2 := snd (frm_sample acme_form true w1) in
  can_register acme_form lab_2025 = true
  /\ s_id <$> samples (w_db w1) = ["S-2025-0001"]
  /\ s_id <$> samples (w_db w2) = ["S-2025-0001"; "S-2025-0002"]
  /\ c_sample_id <$> coc (w_db w2) = ["S-2025-0001"; "S-2025-0002"]
  /\ w_out w1 = [st_success "Muestra creada: S-2025-0001"].
Proof. vm_compute. repeat split. Qed.

(** C6 (amended).  Submitting [add_result] with an analyte, a test id and
    an uncertainty field that is empty or holds a number completes and
    appends one row to [results] whose test id is the one supplied.  Its
    value is the float supplied, and its uncertainty the number typed,
    unless that float is a NaN, which is stored as [NULL], or a negative
    zero, which reads back as zero; an empty uncertainty field is [NULL].
    Reading the results of that test id afterwards returns the rows the
    table held for it, in table order, followed by the new one: exactly the
    new one if it held none. *)
Theorem result_round_trip (py_float : string -> option float) (tid_r : Z)
    (analyte : string) (value : float) (unit_ unc notes : string)
    (w : world) :
  analyte <> "" -> tid_r <> 0 ->
  (unc <> "" -> is_Some (py_float unc)) ->
  let supplied := if decide (unc = "") then None else py_float unc in
  let before := filter (fun r => r_test_id r = tid_r) (results (w_db w)) in
  let r := add_result py_float tid_r analyte value unit_ unc notes true w in
  fst r = Ok tt
  /\ exists row,
       results (w_db (snd r)) = results (w_db w) ++ [row]
       /\ r_test_id row = tid_r
       /\ r_analyte row = analyte
       /\ (Sql.kept_as_bound value -> r_value row = Some value)
       /\ (PrimFloat.classify value = FloatClass.NaN -> r_value row = None)
       /\ (PrimFloat.classify value = FloatClass.NZero ->
           r_value row = Some PrimFloat.zero)
       /\ (supplied = None -> r_uncertainty row = None)
       /\ (forall u, supplied = Some u ->
             (Sql.kept_as_bound u -> r_uncertainty row = Some u)
             /\ (PrimFloat.classify u = FloatClass.NaN ->
                 r_uncertainty row = None)
             /\ (PrimFloat.classify u = FloatClass.NZero ->
                 r_uncertainty row = Some PrimFloat.zero))
       /\ fst (view_results tid_r (snd r)) = Ok (Some (before ++ [row]))
       /\ (before = [] ->
           fst (view_results tid_r (snd r)) = Ok (Some [row])).
Proof.
  intros Ha Ht Hparse supplied before r.
  assert (Hreal : forall f : float,
            (Sql.kept_as_bound f -> Sql.sqlite_real f = Some f)
            /\ (PrimFloat.classify f = FloatClass.NaN ->
                Sql.sqlite_real f = None)
            /\ (PrimFloat.classify f = FloatClass.NZero ->
                Sql.sqlite_real f = Some PrimFloat.zero)).
  { intros f. unfold Sql.kept_as_bound, Sql.sqlite_real.
    destruct (PrimFloat.classify f); repeat split; try done;
      intros [H1 H2]; done. }
  assert (Hrun : exists u,
            supplied = u
            /\ fst r = Ok tt
            /\ results (w_db (snd r))
               = results (w_db w)
                 ++ [{| r_id := next_rowid (r_id <$> results (w_db w));
                        r_test_id := tid_r; r_analyte := analyte;
                        r_value := Sql.sqlite_real value; r_unit := unit_;
                        r_uncertainty := u ≫= Sql.sqlite_real;
                        r_notes := notes;
                        r_measured_at
                          := now_stamp (w_clock w (w_tick w)) |}]).
  { unfold r, supplied. run. rewrite (truthy_true _ Ha).
    rewrite bool_decide_eq_true_2 by done. simpl.
    destruct (decide (unc = "")) as [->|Hne].
    - exists None. simpl. done.
    - rewrite (truthy_true _ Hne).
      destruct (Hparse Hne) as [u Hu]. rewrite Hu. exists (Some u). done. }
  destruct Hrun as (u & Hsup & Hok & Hres).
  split; [exact Hok|]. eexists. split; [exact Hres|]. simpl.
  destruct (Hreal value) as (Hv1 & Hv2 & Hv3).
  repeat (split; [done|]).
  split; [intros Hnone; rewrite Hsup in Hnone; by rewrite Hnone|].
  split.
  { intros u' Hu'. rewrite Hsup in Hu'. rewrite Hu'. simpl. apply Hreal. }
  assert (Hview : fst (view_results tid_r (snd r))
                  = Ok (Some (filter (fun r0 => r_test_id r0 = tid_r)
                                     (results (w_db (snd r)))))).
  { unfold view_results, bind, run_query, ret.
    by rewrite bool_decide_eq_true_2. }
  rewrite Hview, Hres, filter_app, filter_cons_True, filter_nil by done.
  split; [done|]. fold before. by intros ->.
Qed.

Lemma result_round_trip_witness :
  let py_float :=
    fun s : string => if String.eqb s "0.5" then Some 0.5%float else None in
  let r := add_result py_float 1 "Fe" 12.5%float "mg/kg" "0.5" "" true
             lab_2025 in
  exists row,
    fst (view_results 1 (snd r)) = Ok (Some [row])
    /\ r_test_id row = 1 /\ r_value row = Some 12.5%float
    /\ r_uncertainty row = Some 0.5%float.
Proof.
  intros py_float r.
  destruct (result_round_trip py_float 1 "Fe" 12.5%float "mg/kg" "0.5" ""
              lab_2025)
    as (_ & row & _ & Hid & _ & Hval & _ & _ & _ & Hunc & _ & Hview).
  - discriminate.
  - lia.
  - intros _. by exists 0.5%float.
  - exists row. split; [apply Hview; reflexivity|]. split; [exact Hid|].
    split.
    + apply Hval. split; vm_compute; discriminate.
    + apply (Hunc 0.5%float); [reflexivity|].
      split; vm_compute; discriminate.
Defined.

(** C6 as stated fails for an uncertainty that is not a number: the text
    [nan] is read by [float] as a NaN, SQLite stores it as [NULL], and the
    result read back has no uncertainty at all. *)
Lemma nan_uncertainty_reads_null :
  let py_float :=
    fun s : string => if String.eqb s "nan" then Some PrimFloat.nan
                      else None in
  let r := add_result py_float 1 "Fe" 12.5%float "mg/kg" "nan" "" true
             lab_2025 in
  py_float "nan" = Some PrimFloat.nan
  /\ fst r = Ok tt
  /\ exists row,
       fst (view_results 1 (snd r)) = Ok (Some [row])
       /\ r_value row = Some 12.5%float
       /\ r_uncertainty row = None
       /\ r_uncertainty row <> py_float "nan".
Proof.
  split; [reflexivity|]. split; [reflexivity|].
  eexists. split; [vm_compute; reflexivity|].
  split; [reflexivity|]. split; [reflexivity|]. discriminate.
Qed.

(** The other float a [REAL] column does not keep: a negative zero typed as
    the uncertainty reads back as zero. *)
Lemma negative_zero_reads_zero :
  let py_float :=
    fun s : string => if String.eqb s "-0.0" then Some (- 0)%float
                      else None in
  let r := add_result py_float 1 "Fe" 12.5%float "mg/kg" "-0.0" "" true
             lab_2025 in
  PrimFloat.classify (- 0)%float = FloatClass.NZero
  /\ r_uncertainty <$> results (w_db (snd r)) = [Some PrimFloat.zero]
  /\ PrimFloat.classify PrimFloat.zero = FloatClass.PZero.
Proof. vm_compute. repeat split. Qed.

(** C7.  Pressing "Cerrar evento QC" for a non-zero id completes; every QC
    event keeps its place and its other fields, those with that id get the
    status [cerrado] (closed) whatever their status was, so an event that
    was [abierto] (open) is closed, and the others keep theirs.  Pressing
    it again completes too and leaves the QC events as they are. *)
Theorem qc_close_idempotent (qid : Z) (w : world) :
  qid <> 0 ->
  let r1 := qc_close qid true w in
  let r2 := qc_close qid true (snd r1) in
  fst r1 = Ok tt
  /\ (forall (i : nat) (q : qc_row),
        qc_events (w_db w) !! i = Some q ->
        exists q',
          qc_events (w_db (snd r1)) !! i = Some q'
          /\ q_id q' = q_id q /\ q_type q' = q_type q
          /\ q_instrument q' = q_instrument q
          /\ q_description q' = q_description q
          /\ q_at_time q' = q_at_time q /\ q_by_user q' = q_by_user q
          /\ q_status q'
             = if bool_decide (q_id q = qid) then "cerrado" else q_status q)
  /\ length (qc_events (w_db (snd r1))) = length (qc_events (w_db w))
  /\ fst r2 = Ok tt
  /\ qc_events (w_db (snd r2)) = qc_events (w_db (snd r1)).
Proof.
  intros Hq. run. rewrite bool_decide_eq_true_2 by done. simpl.
  split; [done|]. split; [|split; [|split; [done|]]].
  - intros i q Hi. rewrite list_lookup_fmap, Hi. simpl.
    eexists. split; [reflexivity|].
    destruct (bool_decide (q_id q = qid)); simpl; auto 10.
  - by rewrite length_fmap.
  - rewrite <- list_fmap_compose. apply list_fmap_ext.
    intros i q _. simpl.
    destruct (bool_decide (q_id q = qid)) eqn:E; simpl; rewrite E; done.
Qed.

Lemma qc_close_idempotent_witness :
  let w := set_db (with_qc_events
                     [{| q_id := 3; q_type := "mantenimiento";
                         q_instrument := "Epsilon 4"; q_description := "";
                         q_status := "abierto";
                         q_at_time := "2025-08-28 10:00:00-0500";
                         q_by_user := "admin" |}] (db_at 2025 0)) lab_2025 in
  let r1 := qc_close 3 true w in
  let r2 := qc_close 3 true (snd r1) in
  fst r1 = Ok tt
  /\ q_status <$> qc_events (w_db (snd r1)) = ["cerrado"]
  /\ fst r2 = Ok tt
  /\ q_status <$> qc_events (w_db (snd r2)) = ["cerrado"].
Proof.
  intros w r1 r2.
  destruct (qc_close_idempotent 3 w) as (H1 & _ & _ & H2 & H3); [lia|].
  fold r1 in H1, H2, H3. fold r2 in H2, H3.
  split; [exact H1|]. split; [reflexivity|]. split; [exact H2|].
  rewrite H3. reflexivity.
Defined.

Lemma str_not_int (s : string) (n : Z) : Py.int s = None -> s <> Py.str n.
Proof. intros H ->. by rewrite PyFacts.int_str in H. Qed.

(** C10.  What the audit record of a creation carries as [entity_id]: for a
    test, the sample identifier typed into the form (the [sample_id] of the
    new row), which is not the text of the new row's id unless it is itself
    a number; for a result, the text of the test id (the [test_id] of the new
    row), which is the text of the new row's id only if the two ids
    coincide; for a QC event, the dash, which is the text of no id. *)
Theorem creation_audit_entity_id (py_float : string -> option float)
    (w : world) :
  (forall sid2 test_name method unit_ due_at,
     sid2 <> "" -> test_name <> "" ->
     let r := add_test sid2 test_name method unit_ due_at true w in
     exists t a,
       tests (w_db (snd r)) = tests (w_db w) ++ [t]
       /\ audit_log (w_db (snd r)) = audit_log (w_db w) ++ [a]
       /\ a_entity_id a = sid2 /\ t_sample_id t = sid2
       /\ (Py.int sid2 = None -> a_entity_id a <> Py.str (t_id t)))
  /\ (forall tid_r analyte value unit_ unc notes uncertainty,
        analyte <> "" -> tid_r <> 0 ->
        fst (optional_float py_float unc w) = Ok uncertainty ->
        let r :=
          add_result py_float tid_r analyte value unit_ unc notes true w in
        exists row a,
          results (w_db (snd r)) = results (w_db w) ++ [row]
          /\ audit_log (w_db (snd r)) = audit_log (w_db w) ++ [a]
          /\ a_entity_id a = Py.str tid_r /\ r_test_id row = tid_r
          /\ (a_entity_id a = Py.str (r_id row) <-> tid_r = r_id row))
  /\ (forall qtype instr desc,
        let r := qc_form qtype instr desc true w in
        exists q a,
          qc_events (w_db (snd r)) = qc_events (w_db w) ++ [q]
          /\ audit_log (w_db (snd r)) = audit_log (w_db w) ++ [a]
          /\ a_entity_id a = "-"
          /\ a_entity_id a <> Py.str (q_id q)).
Proof.
  split; [|split].
  - intros sid2 test_name method unit_ due_at H1 H2. run.
    rewrite (truthy_true _ H1), (truthy_true _ H2). simpl.
    eexists _, _. repeat (split; [reflexivity|]). simpl.
    intros Hint. by apply str_not_int.
  - intros tid_r analyte value unit_ unc notes uncertainty Ha Ht. run.
    rewrite (truthy_true _ Ha). rewrite bool_decide_eq_true_2 by done. simpl.
    destruct (Py.truthy unc); [destruct (py_float unc) as [u|]|]; simpl;
      intros [= <-];
      (eexists _, _; repeat (split; [reflexivity|]); simpl;
       split; [apply PyFacts.str_inj|by intros ->]).
  - intros qtype instr desc. run.
    eexists _, _. repeat (split; [reflexivity|]). simpl.
    by apply str_not_int.
Qed.

Lemma creation_audit_entity_id_witness :
  let w := set_db (with_results
                     [{| r_id := 1; r_test_id := 1; r_analyte := "Fe";
                         r_value := Some 12.5%float; r_unit := "mg/kg";
                         r_uncertainty := None; r_notes := "";
                         r_measured_at := "2025-08-28 10:00:00-0500" |}]
                     (db_at 2025 1)) lab_2025 in
  a_entity_id <$> audit_log (w_db (snd (add_test "S-2025-0001" "ICP-OES" "" ""
                                          None true w)))
  = ["S-2025-0001"]
  /\ a_entity_id <$> audit_log (w_db (snd (add_result (fun _ => None) 1 "Cu"
                                             3.25%float "mg/kg" "" "" true w)))
     = ["1"]
  /\ r_id <$> results (w_db (snd (add_result (fun _ => None) 1 "Cu"
                                    3.25%float "mg/kg" "" "" true w)))
     = [1; 2]
  /\ a_entity_id <$> audit_log (w_db (snd (qc_form "mantenimiento" "" ""
                                             true w)))
     = ["-"].
Proof.
  intros w.
  destruct (creation_audit_entity_id (fun _ => None) w) as (Ht & Hr & Hq).
  destruct (Ht "S-2025-0001" "ICP-OES" "" "" None)
    as (t & a & _ & Ha & Hid & _); [discriminate|discriminate|].
  destruct (Hr 1 "Cu" 3.25%float "mg/kg" "" "" None)
    as (row & a' & Hrow & Ha' & Hid' & _); [discriminate|lia|reflexivity|].
  destruct (Hq "mantenimiento" "" "") as (q & a'' & _ & Ha'' & Hid'' & _).
  rewrite Ha, Ha', Ha''. rewrite !fmap_app. simpl.
  rewrite Hid, Hid', Hid''. repeat split; reflexivity.
Defined.

(** X26.  What every form keeps of C5: an operation submitted with a
    starred field left empty completes without raising and leaves the whole
    database as it was; no row of any table is added or changed and the
    sequencer rows of [meta] keep their values.  The registration of a
    sample without a client also reports it: the page shows the error
    [Cliente es obligatorio.]. *)
Theorem missing_field_blocks_writes (py_float : string -> option float)
    (op : operation) (w : world) :
  missing_required op = true ->
  let r := perform py_float op w in
  fst r = Ok tt
  /\ w_db (snd r) = w_db w
  /\ match op with
     | RegisterSample _ =>
         w_out (snd r) = w_out w ++ [st_error "Cliente es obligatorio."]
     | _ => True
     end.
Proof.
  destruct op; simpl; try discriminate; intros H;
    apply negb_true_iff in H; run; rewrite H; simpl;
    rewrite ?andb_false_r; try done.
  - destruct (Py.truthy sid2); done.
  - destruct (Py.truthy sid); done.
Qed.

Lemma missing_field_blocks_writes_witness :
  let f := {| f_client := ""; f_project := "P-7"; f_matrix := "agua";
              f_description := ""; f_received_at := 739491;
              f_due_at := None; f_priority := "normal";
              f_status := "registrado"; f_location := "";
              f_created_by := "admin" |} in
  let r := frm_sample f true lab_2025 in
  fst r = Ok tt /\ w_db (snd r) = db_at 2025 0
  /\ w_out (snd r) = [st_error "Cliente es obligatorio."].
Proof.
  intros f.
  apply (missing_field_blocks_writes (fun _ => None) (RegisterSample f)
           lab_2025).
  reflexivity.
Defined.

(** C5.  A missing required field is to be reported, as the registration
    does for its client.  The form [add_test] does not: a test submitted
    for sample [S-2025-0001] without its name is dropped without a word;
    the run completes, nothing is written, and the page shows no message at
    all.  The forms [add_result], [add_link], [add_user] and [add_coc]
    guard their starred field the same way. *)
Theorem missing_test_name_unreported :
  let op := AddTest "S-2025-0001" "" "EPA 6010D" "mg/kg" None in
  let r := perform (fun _ => None) op lab_2025 in
  let sibling :=
    RegisterSample
      {| f_client := ""; f_project := "P-7"; f_matrix := "agua";
         f_description := ""; f_received_at := 739491; f_due_at := None;
         f_priority := "normal"; f_status := "registrado"; f_location := "";
         f_created_by := "admin" |} in
  missing_required op = true
  /\ fst r = Ok tt
  /\ w_db (snd r) = w_db lab_2025
  /\ existsb is_error (w_out (snd r)) = false
  /\ w_out (snd r) = []
  /\ missing_required sibling = true
  /\ w_out (snd (perform (fun _ => None) sibling lab_2025))
     = [st_error "Cliente es obligatorio."].
Proof.
  split; [reflexivity|]. split; [reflexivity|]. split; [reflexivity|].
  repeat split.
Qed.

(** ** The dashboard *)

Lemma due_soon_where_spec (today : date) (s : sample_row) :
  Sql.due_soon_where today s = true
  <-> exists due, s_due_at s = Some due /\ due <= today + 7
                  /\ s_status s <> "cerrado" /\ s_status s <> "cancelado".
Proof.
  unfold Sql.due_soon_where. destruct (s_due_at s) as [due|].
  - rewrite andb_true_iff, Z.leb_le, negb_true_iff, bool_decide_eq_false.
    rewrite !elem_of_cons, elem_of_nil. split.
    + intros [Hle Hst]. exists due. repeat split; [done|tauto|tauto].
    + intros (due' & [= <-] & Hle & H1 & H2). split; [done|tauto].
  - split; [discriminate|]. by intros (? & ? & _).
Qed.

(** C4.  The due-soon listing holds, once each and in ascending order of due
    date, the samples that have a due date no later than seven days after
    today and whose status is neither [cerrado] (closed) nor [cancelado]
    (cancelled).  So a row is listed exactly when it is the projection of
    such a sample; no listed row is closed or cancelled, and none is due
    later than seven days from today. *)
Theorem due_soon_listing (today : date) (d : DB) :
  Sql.select_due_soon today d
    ≡ₚ Sql.due_of <$> List.filter (Sql.due_soon_where today) (samples d)
  /\ (forall row,
        row ∈ Sql.select_due_soon today d
        <-> exists s due,
              s ∈ samples d /\ row = Sql.due_of s
              /\ s_due_at s = Some due /\ due <= today + 7
              /\ s_status s <> "cerrado" /\ s_status s <> "cancelado")
  /\ (forall s,
        s ∈ samples d ->
        s_status s = "cerrado" \/ s_status s = "cancelado" ->
        Sql.due_of s ∉ Sql.select_due_soon today d)
  /\ (forall s due,
        s ∈ samples d -> s_due_at s = Some due -> today + 7 < due ->
        Sql.due_of s ∉ Sql.select_due_soon today d)
  /\ (forall s, s ∈ samples d -> s_due_at s = None ->
                Sql.due_of s ∉ Sql.select_due_soon today d)
  /\ Sorted (fun a b => Sql.null_first_le (Sql.d_due_at a) (Sql.d_due_at b))
            (Sql.select_due_soon today d).
Proof.
  assert (Hperm : Sql.select_due_soon today d
                  ≡ₚ Sql.due_of <$> List.filter (Sql.due_soon_where today)
                                                (samples d)).
  { unfold Sql.select_due_soon. by rewrite merge_sort_Permutation. }
  assert (Hmem : forall row,
            row ∈ Sql.select_due_soon today d
            <-> exists s due,
                  s ∈ samples d /\ row = Sql.due_of s
                  /\ s_due_at s = Some due /\ due <= today + 7
                  /\ s_status s <> "cerrado" /\ s_status s <> "cancelado").
  { intros row. rewrite Hperm, list_elem_of_fmap. split.
    - intros (s & -> & Hin).
      apply list_elem_of_In, filter_In in Hin as [Hin Hw].
      apply due_soon_where_spec in Hw as (due & Hd & Hrest).
      exists s, due. split; [by apply list_elem_of_In|]. by split.
    - intros (s & due & Hin & -> & Hd & Hrest).
      exists s. split; [done|].
      apply list_elem_of_In, filter_In. split; [by apply list_elem_of_In|].
      apply due_soon_where_spec. by exists due. }
  split; [exact Hperm|]. split; [exact Hmem|]. split; [|split; [|split]].
  - intros s Hin Hst Hrow. apply Hmem in Hrow
      as (s' & due & _ & Heq & _ & _ & H1 & H2).
    apply (f_equal Sql.d_status) in Heq. simpl in Heq.
    rewrite <- Heq in H1, H2. tauto.
  - intros s due Hin Hd Hlate Hrow. apply Hmem in Hrow
      as (s' & due' & _ & Heq & Hd' & Hle & _).
    apply (f_equal Sql.d_due_at) in Heq. simpl in Heq.
    rewrite Hd, Hd' in Heq. injection Heq as ->. lia.
  - intros s Hin Hd Hrow. apply Hmem in Hrow
      as (s' & due' & _ & Heq & Hd' & _).
    apply (f_equal Sql.d_due_at) in Heq. simpl in Heq. congruence.
  - unfold Sql.select_due_soon.
    apply (Sorted_fmap _ Sql.due_le); [done|].
    apply Sorted_merge_sort. intros a b. unfold Sql.due_le, Sql.null_first_le.
    destruct (s_due_at a), (s_due_at b); try tauto. lia.
Qed.

(** ** Initialisation *)

Lemma select_users_nil (name : string) (d : DB) :
  Sql.select_users name d = [] <-> name ∉ u_username <$> users d.
Proof.
  unfold Sql.select_users. rewrite list_elem_of_fmap. split.
  - intros Hnil (u & -> & Hin).
    exact (filter_nil_not_elem_of _ _ u Hnil eq_refl Hin).
  - intros Hnot.
    destruct (filter _ (users d)) as [|u l] eqn:E; [done|].
    assert (Hu : u ∈ filter (fun v => u_username v = name) (users d))
      by (rewrite E; left).
    apply list_elem_of_filter in Hu as [Hname Hin].
    destruct Hnot. by exists u.
Qed.

#[local] Arguments Sql.select_users : simpl never.

(** What one run of [init_db()] leaves, from any database. *)
Lemma init_db_run (w : world) :
  let d := w_db w in
  let d' := w_db (snd (init_db w)) in
  fst (init_db w) = Ok tt
  /\ meta d'
     = (let m := match meta d !! "seq_ano" with
                 | Some _ => meta d
                 | None => <["seq_ano" :=
                              Py.str (now_year (w_clock w (w_tick w)))]>
                             (meta d)
                 end in
        match m !! "seq_num" with
        | Some _ => m
        | None => <["seq_num" := "0"]> m
        end)
  /\ (if bool_decide ("admin" ∈ u_username <$> users d)
      then users d' = users d
      else exists u, users d' = users d ++ [u]
                     /\ u_username u = "admin" /\ u_role u = "admin"
                     /\ u_active u = 1)
  /\ untouched_by_init d' = untouched_by_init d
  /\ w_user (snd (init_db w)) = w_user w
  /\ w_out (snd (init_db w)) = w_out w
  /\ w_clock (snd (init_db w)) = w_clock w.
Proof.
  unfold init_db. run.
  unfold Sql.select_meta, Sql.insert_meta, Sql.insert_user.
  assert (Hsel : forall d0 : DB,
            users d0 = users (w_db w) ->
            bool_decide (Sql.select_users "admin" d0 = [])
            = negb (bool_decide ("admin" ∈ u_username <$> users (w_db w)))).
  { intros d0 Hd0. rewrite <- Hd0.
    destruct (decide ("admin" ∈ u_username <$> users d0)) as [Hin|Hnin].
    - rewrite (bool_decide_eq_true_2 _ Hin). simpl.
      apply bool_decide_eq_false_2. rewrite select_users_nil. tauto.
    - rewrite (bool_decide_eq_false_2 _ Hnin). simpl.
      apply bool_decide_eq_true_2. by rewrite select_users_nil. }
  destruct (meta (w_db w) !! "seq_ano") as [ys|] eqn:Hy;
    destruct (meta (w_db w) !! "seq_num") as [c|] eqn:Hc; simpl;
    repeat (progress (rewrite ?lookup_insert_ne by done;
                      rewrite ?Hy, ?Hc; simpl));
    rewrite Hsel by done;
    destruct (bool_decide ("admin" ∈ _)) eqn:Hadm; simpl;
    rewrite ?Hadm; simpl;
    repeat (progress (rewrite ?lookup_insert_ne by done;
                      rewrite ?Hy, ?Hc; simpl));
    repeat first [done | split | eexists].
Qed.

Lemma db_ext (d1 d2 : DB) :
  meta d1 = meta d2 -> users d1 = users d2 ->
  untouched_by_init d1 = untouched_by_init d2 -> d1 = d2.
Proof.
  destruct d1, d2. unfold untouched_by_init. simpl.
  intros -> -> [= -> -> -> -> -> -> ->]. done.
Qed.

(** The rows of [meta] after [init_db()]. *)
Lemma init_db_meta (w : world) :
  let d := w_db w in
  let d' := w_db (snd (init_db w)) in
  meta d' !! "seq_ano"
  = Some (default (Py.str (now_year (w_clock w (w_tick w))))
                  (meta d !! "seq_ano"))
  /\ meta d' !! "seq_num" = Some (default "0" (meta d !! "seq_num"))
  /\ (forall k, k <> "seq_ano" -> k <> "seq_num" ->
                meta d' !! k = meta d !! k).
Proof.
  cbv zeta. pose proof (init_db_run w) as Hrun. cbv zeta in Hrun.
  destruct Hrun as (_ & -> & _).
  destruct (meta (w_db w) !! "seq_ano") as [ys|] eqn:Hy;
    destruct (meta (w_db w) !! "seq_num") as [c|] eqn:Hc; simpl;
    rewrite ?lookup_insert_ne by done; rewrite ?Hc; simpl;
    (split; [|split]); try (intros k H1 H2);
    rewrite ?lookup_insert_eq, ?lookup_insert_ne by done;
    rewrite ?lookup_insert_eq, ?lookup_insert_ne by done;
    rewrite ?Hy, ?Hc; done.
Qed.

(** The [admin] user after [init_db()]. *)
Lemma init_db_admin (w : world) :
  let d := w_db w in
  let d' := w_db (snd (init_db w)) in
  "admin" ∈ u_username <$> users d'
  /\ (has_admin d \/ "admin" ∉ u_username <$> users d -> has_admin d').
Proof.
  cbv zeta. pose proof (init_db_run w) as Hrun. cbv zeta in Hrun.
  destruct Hrun as (_ & _ & Husers & _).
  destruct (bool_decide ("admin" ∈ u_username <$> users (w_db w))) eqn:E.
  - apply bool_decide_eq_true in E. rewrite Husers. split; [done|].
    intros [Hhas|Hno]; [|done]. unfold has_admin. by rewrite Husers.
  - destruct Husers as (u & Hu & Hname & Hrec). split.
    + rewrite Hu, fmap_app, elem_of_app. right. simpl. rewrite Hname. left.
    + intros _. exists u. split; [|done]. rewrite Hu, elem_of_app. right. left.
Qed.

(** C9.  [init_db()] completes on any database.  Afterwards [meta] has a
    row [seq_ano], holding the year of the clock if the row was absent and
    its old value otherwise, and a row [seq_num], holding [0] if it was
    absent and its old value otherwise; the other rows of [meta] are as
    before.  If no user was called [admin], one row is appended to [users]
    with username [admin], role [admin] and active 1; otherwise [users] is as
    before.  No other table changes.  Running it again, at any later time,
    changes nothing at all: no duplicate row, nothing overwritten. *)
Theorem init_db_bootstrap (w : world) :
  let d := w_db w in
  let r := init_db w in
  let d' := w_db (snd r) in
  fst r = Ok tt
  /\ meta d' !! "seq_ano"
     = Some (default (Py.str (now_year (w_clock w (w_tick w))))
                     (meta d !! "seq_ano"))
  /\ meta d' !! "seq_num" = Some (default "0" (meta d !! "seq_num"))
  /\ (forall k, k <> "seq_ano" -> k <> "seq_num" ->
                meta d' !! k = meta d !! k)
  /\ (if bool_decide ("admin" ∈ u_username <$> users d)
      then users d' = users d
      else exists u, users d' = users d ++ [u]
                     /\ u_username u = "admin" /\ u_role u = "admin"
                     /\ u_active u = 1)
  /\ untouched_by_init d' = untouched_by_init d
  /\ (has_admin d \/ "admin" ∉ u_username <$> users d -> has_admin d')
  /\ (forall w2, w_db w2 = d' ->
                 fst (init_db w2) = Ok tt /\ w_db (snd (init_db w2)) = d').
Proof.
  cbv zeta.
  pose proof (init_db_run w) as Hrun. cbv zeta in Hrun.
  destruct Hrun as (Hok & _ & Husers & Hrest & _).
  pose proof (init_db_meta w) as Hmeta. cbv zeta in Hmeta.
  destruct Hmeta as (Hano & Hnum & Hother).
  pose proof (init_db_admin w) as Hadm. cbv zeta in Hadm.
  destruct Hadm as (Hadmin & Hhas).
  repeat (split; [assumption|]).
  intros w2 Hw2.
  pose proof (init_db_run w2) as Hrun2. cbv zeta in Hrun2.
  rewrite Hw2 in Hrun2. rewrite Hano in Hrun2. cbv iota beta in Hrun2.
  rewrite Hnum in Hrun2.
  rewrite (bool_decide_eq_true_2 _ Hadmin) in Hrun2.
  destruct Hrun2 as (Hok2 & Hmeta2 & Husers2 & Hrest2 & _).
  split; [exact Hok2|]. by apply db_ext.
Qed.

(** On a new database: the three bootstrap rows and nothing else. *)
Lemma init_db_fresh :
  let w := world_of empty_db 2025 "admin" in
  fst (init_db w) = Ok tt
  /\ map_to_list (meta (w_db (snd (init_db w))))
     = [("seq_ano", "2025"); ("seq_num", "0")]
  /\ users (w_db (snd (init_db w)))
     = [{| u_id := 1; u_username := "admin"; u_role := "admin";
           u_active := 1; u_created_at := "2025-08-28 10:00:00-0500" |}]
  /\ w_db (snd (init_db (snd (init_db w)))) = w_db (snd (init_db w)).
Proof.
  intros w.
  destruct (init_db_bootstrap w) as (Hok & _ & _ & _ & _ & _ & _ & Hidem).
  split; [exact Hok|]. split; [vm_compute; reflexivity|].
  split; [vm_compute; reflexivity|].
  by apply Hidem.
Defined.

(** ** Invariants of the script *)

Ltac unchanged := split; left; reflexivity.

Lemma perform_meta_users (py_float : string -> option float)
    (op : operation) (w : world) :
  let w' := snd (perform py_float op w) in
  (meta (w_db w') = meta (w_db w)
   \/ meta (w_db w') = meta (w_db (snd (next_sample_id w))))
  /\ (users (w_db w') = users (w_db w)
      \/ exists u, users (w_db w') = users (w_db w) ++ [u]).
Proof.
  destruct op; simpl.
  - destruct (next_sample_id_frame w) as (Htab & _).
    run. unfold Sql.insert_sample.
    destruct (Py.truthy (f_client f)); simpl; [|unchanged].
    destruct (next_sample_id w) as [[sid|e] w1] eqn:E; simpl in *;
      injection Htab as Hu Hs Ht Hr Ha Hc Hl Hq.
    + case_bool_decide; simpl; (split; [right|left]; done).
    + split; [right|left]; done.
  - run. destruct (Py.truthy sid); simpl; [|unchanged].
    destruct (Sql.select_sample sid (w_db w)) as [|rec recs]; simpl;
      [unchanged|].
    destruct (decide (s_status rec ∈ sample_statuses)) as [Hst|Hst].
    + destruct (index_of_in _ _ w Hst) as [i ->].
      destruct (decide (s_priority rec ∈ priorities)) as [Hpr|Hpr].
      * destruct (index_of_in _ _ w Hpr) as [j ->]. simpl. unchanged.
      * rewrite (index_of_notin _ _ w Hpr). unchanged.
    + rewrite (index_of_notin _ _ w Hst). unchanged.
  - run. destruct (Py.truthy sid2), (Py.truthy test_name); simpl; unchanged.
  - run. case_bool_decide; simpl; [|unchanged].
    destruct (Sql.select_test tid (w_db w)) as [|row rows]; simpl;
      [unchanged|].
    destruct (decide (t_status row ∈ test_statuses)) as [Hst|Hst].
    + destruct (index_of_in _ _ w Hst) as [i ->]. simpl. unchanged.
    + rewrite (index_of_notin _ _ w Hst). unchanged.
  - run. destruct (Py.truthy analyte); simpl; [|unchanged].
    case_bool_decide; simpl; [|unchanged].
    destruct (Py.truthy unc); [destruct (py_float unc)|]; simpl; unchanged.
  - run. destruct (Py.truthy sid), (Py.truthy url); simpl; unchanged.
  - run. unchanged.
  - run. case_bool_decide; simpl; unchanged.
  - run. destruct (Py.truthy uname); simpl; [|unchanged].
    unfold Sql.insert_user. case_bool_decide; simpl; [unchanged|].
    split; [by left|right; eauto].
  - run. destruct (Py.truthy sid), (Py.truthy event); simpl; unchanged.
Qed.

Lemma has_admin_mono (d d' : DB) :
  (users d' = users d \/ exists u, users d' = users d ++ [u]) ->
  has_admin d -> has_admin d'.
Proof.
  intros Hu (a & Hin & Hrec). exists a. split; [|done].
  destruct Hu as [->|(u & ->)]; [done|].
  rewrite elem_of_app. by left.
Qed.

Lemma next_sample_id_keeps_sequencer (w : world) :
  (exists ys c, 0 <= c /\ sequencer_at ys c (w_db w)) ->
  exists ys c, 0 <= c /\ sequencer_at ys c (w_db (snd (next_sample_id w))).
Proof.
  intros (ys & c & Hc & Hseq).
  destruct (SeqFacts.next_sample_id_step w ys c Hseq) as (w' & -> & Hseq' & _).
  simpl. eexists _, _. split; [|exact Hseq']. case_bool_decide; lia.
Qed.

Lemma perform_keeps_bootstrapped (py_float : string -> option float)
    (op : operation) (w : world) :
  bootstrapped (w_db w) -> bootstrapped (w_db (snd (perform py_float op w))).
Proof.
  intros [Hseq Hadm].
  destruct (perform_meta_users py_float op w) as [Hm Hu]. split.
  - destruct Hm as [Hm|Hm].
    + destruct Hseq as (ys & c & Hc & Hy & Hn). exists ys, c.
      split; [done|]. unfold sequencer_at. by rewrite Hm.
    + destruct (next_sample_id_keeps_sequencer w Hseq)
        as (ys & c & Hc & Hy & Hn).
      exists ys, c. split; [done|]. unfold sequencer_at. by rewrite Hm.
  - by eapply has_admin_mono.
Qed.

Lemma init_db_bootstraps (w : world) :
  w_db w = empty_db \/ bootstrapped (w_db w) ->
  bootstrapped (w_db (snd (init_db w))).
Proof.
  intros Hpre.
  pose proof (init_db_meta w) as Hmeta. cbv zeta in Hmeta.
  destruct Hmeta as (Hano & Hnum & _).
  pose proof (init_db_admin w) as Hadm. cbv zeta in Hadm.
  destruct Hadm as (_ & Hadm).
  split.
  - destruct Hpre as [Hempty|[(ys & c & Hc & Hy & Hn) _]].
    + rewrite Hempty in Hano, Hnum. simpl in Hano, Hnum.
      rewrite lookup_empty in Hano, Hnum. simpl in Hano, Hnum.
      eexists _, 0. split; [lia|]. split; [exact Hano|exact Hnum].
    + rewrite Hy in Hano. rewrite Hn in Hnum. simpl in Hano, Hnum.
      exists ys, c. by split.
  - apply Hadm. destruct Hpre as [Hempty|[_ Hhas]]; [right|by left].
    rewrite Hempty. simpl. apply not_elem_of_nil.
Qed.

Lemma script_bootstraps (py_float : string -> option float) (user : string)
    (act : option operation) (w : world) :
  w_db w = empty_db \/ bootstrapped (w_db w) ->
  bootstrapped (w_db (snd (script py_float user act w))).
Proof.
  intros Hpre. unfold script, new_page, login.
  unfold bind at 1. simpl. unfold bind at 1.
  set (w0 := {| w_db := w_db w; w_clock := w_clock w; w_tick := w_tick w;
                w_user := w_user w; w_out := [] |}).
  pose proof (init_db_bootstraps w0 Hpre) as Hinit.
  destruct (init_db_run w0) as (Hok & _).
  destruct (init_db w0) as [[[]|e] w1]; simpl in Hok, Hinit; [|discriminate].
  unfold bind at 1. simpl. destruct act as [op|]; [|exact Hinit].
  by apply (perform_keeps_bootstrapped py_float op
              {| w_db := w_db w1; w_clock := w_clock w1; w_tick := w_tick w1;
                 w_user := user; w_out := w_out w1 |}).
Qed.

(** X1.  Every world the script can be in has its sequencer rows, with a
    counter that is the text of a number that is not negative, and its
    active [admin] user: the hypotheses under which the sequencer is
    specified hold whenever the pages run. *)
Theorem reachable_bootstrapped (py_float : string -> option float)
    (w : world) :
  reachable py_float w -> bootstrapped (w_db w).
Proof.
  induction 1 as [clock user act|w user act Hreach IH].
  - apply script_bootstraps. by left.
  - apply script_bootstraps. by right.
Qed.

Lemma reachable_bootstrapped_witness : bootstrapped (w_db first_run).
Proof.
  apply (reachable_bootstrapped (fun _ => None) first_run).
  apply reachable_first.
Defined.

(** ** How the database evolves *)

Lemma appended_same {A} (key : A -> Z) (l : list A) : appended key l l.
Proof. by left. Qed.

Lemma appended_snoc {A} (key : A -> Z) (l : list A) (r : A) :
  key r = next_rowid (key <$> l) -> appended key l (l ++ [r]).
Proof. intros H. right. by exists r. Qed.

Lemma same_sample_all (l : list sample_row) : Forall2 same_sample l l.
Proof. apply Forall_Forall2_diag, Forall_forall. by intros s _. Qed.

Lemma same_test_all (l : list test_row) : Forall2 same_test l l.
Proof. apply Forall_Forall2_diag, Forall_forall. by intros t _. Qed.

Lemma same_qc_all (l : list qc_row) : Forall2 same_qc l l.
Proof.
  apply Forall_Forall2_diag, Forall_forall. intros q _.
  unfold same_qc. auto 10.
Qed.

Lemma Forall2_fmap_same {A} (R : A -> A -> Prop) (f : A -> A) (l : list A) :
  (forall x, R x (f x)) -> Forall2 R l (f <$> l).
Proof.
  intros H. induction l as [|x l IH]; simpl; constructor; auto.
Qed.

Lemma evolves_same (d : DB) : evolves d d.
Proof.
  unfold evolves, user_step, sample_step, test_step, qc_step, custody_opened.
  repeat split; try (by left).
  - left. apply same_sample_all.
  - left. apply same_test_all.
  - left. apply same_qc_all.
Qed.

Ltac evolve_same :=
  first [ by left
        | left; apply same_sample_all
        | left; apply same_test_all
        | left; apply same_qc_all
        | by apply appended_snoc
        | right; eexists; split; [reflexivity|done] ].

Lemma perform_evolves (py_float : string -> option float) (op : operation)
    (w : world) :
  evolves (w_db w) (w_db (snd (perform py_float op w))).
Proof.
  destruct op; simpl.
  - (* RegisterSample *)
    destruct (next_sample_id_frame w) as (Htab & _).
    run. unfold Sql.insert_sample.
    destruct (Py.truthy (f_client f)); simpl; [|apply evolves_same].
    destruct (next_sample_id w) as [[sid|e] w1] eqn:E; simpl in *;
      injection Htab as Hu Hs Ht Hr Ha Hc Hl Hq.
    + rewrite Hs. case_bool_decide as Hdup; simpl.
      * unfold evolves, custody_opened; simpl.
        rewrite ?Hu, ?Hs, ?Ht, ?Hr, ?Ha, ?Hc, ?Hl, ?Hq.
        repeat split; evolve_same.
      * unfold evolves, custody_opened; simpl.
        rewrite ?Hu, ?Hs, ?Ht, ?Hr, ?Ha, ?Hc, ?Hl, ?Hq.
        repeat split; try evolve_same.
        right. eexists _, _, _. repeat (split; [reflexivity|]). done.
    + unfold evolves, custody_opened; simpl.
      rewrite ?Hu, ?Hs, ?Ht, ?Hr, ?Ha, ?Hc, ?Hl, ?Hq.
      repeat split; evolve_same.
  - (* UpdateSample *)
    run. destruct (Py.truthy sid); simpl; [|apply evolves_same].
    destruct (Sql.select_sample sid (w_db w)) as [|rec recs]; simpl;
      [apply evolves_same|].
    destruct (decide (s_status rec ∈ sample_statuses)) as [Hst|Hst];
      [|rewrite (index_of_notin _ _ w Hst); apply evolves_same].
    destruct (index_of_in _ _ w Hst) as [i ->].
    destruct (decide (s_priority rec ∈ priorities)) as [Hpr|Hpr];
      [|rewrite (index_of_notin _ _ w Hpr); apply evolves_same].
    destruct (index_of_in _ _ w Hpr) as [j ->]. simpl.
    unfold evolves, custody_opened; simpl. repeat split; try evolve_same.
    + left. apply Forall2_fmap_same. intros s.
      case_bool_decide; done.
    + left. rewrite <- list_fmap_compose. apply list_fmap_ext.
      intros k s _. simpl. case_bool_decide; done.
  - (* AddTest *)
    run. destruct (Py.truthy sid2), (Py.truthy test_name); simpl;
      try apply evolves_same.
    unfold evolves, custody_opened; simpl. repeat split; evolve_same.
  - (* UpdateTest *)
    run. case_bool_decide; simpl; [|apply evolves_same].
    destruct (Sql.select_test tid (w_db w)) as [|row rows]; simpl;
      [apply evolves_same|].
    destruct (decide (t_status row ∈ test_statuses)) as [Hst|Hst];
      [|rewrite (index_of_notin _ _ w Hst); apply evolves_same].
    destruct (index_of_in _ _ w Hst) as [i ->]. simpl.
    unfold evolves, custody_opened; simpl. repeat split; try evolve_same.
    left. apply Forall2_fmap_same. intros t. case_bool_decide; done.
  - (* AddResult *)
    run. destruct (Py.truthy analyte); simpl; [|apply evolves_same].
    case_bool_decide; simpl; [|apply evolves_same].
    destruct (Py.truthy unc); [destruct (py_float unc)|]; simpl;
      try apply evolves_same;
      (unfold evolves, custody_opened; simpl; repeat split; evolve_same).
  - (* AddAttachment *)
    run. destruct (Py.truthy sid), (Py.truthy url); simpl;
      try apply evolves_same.
    unfold evolves, custody_opened; simpl. repeat split; evolve_same.
  - (* AddQcEvent *)
    run. unfold evolves, custody_opened; simpl. repeat split; evolve_same.
  - (* CloseQcEvent *)
    run. case_bool_decide; simpl; [|apply evolves_same].
    unfold evolves, custody_opened; simpl. repeat split; try evolve_same.
    left. apply Forall2_fmap_same. intros q. unfold same_qc.
    case_bool_decide; simpl; auto 10.
  - (* CreateUser *)
    run. destruct (Py.truthy uname); simpl; [|apply evolves_same].
    unfold Sql.insert_user. case_bool_decide; simpl; [apply evolves_same|].
    unfold evolves, custody_opened; simpl. repeat split; evolve_same.
  - (* AddCocEvent *)
    run. destruct (Py.truthy sid), (Py.truthy event); simpl;
      try apply evolves_same.
    unfold evolves, custody_opened; simpl. repeat split; evolve_same.
Qed.

Lemma init_db_evolves (w : world) :
  evolves (w_db w) (w_db (snd (init_db w))).
Proof.
  unfold init_db. run.
  unfold Sql.select_meta, Sql.insert_meta, Sql.insert_user.
  assert (Hsel : forall d0 : DB,
            users d0 = users (w_db w) ->
            bool_decide (Sql.select_users "admin" d0 = [])
            = negb (bool_decide ("admin" ∈ u_username <$> users (w_db w)))).
  { intros d0 Hd0. rewrite <- Hd0.
    destruct (decide ("admin" ∈ u_username <$> users d0)) as [Hin|Hnin].
    - rewrite (bool_decide_eq_true_2 _ Hin). simpl.
      apply bool_decide_eq_false_2. rewrite select_users_nil. tauto.
    - rewrite (bool_decide_eq_false_2 _ Hnin). simpl.
      apply bool_decide_eq_true_2. by rewrite select_users_nil. }
  destruct (meta (w_db w) !! "seq_ano") as [ys|] eqn:Hy;
    destruct (meta (w_db w) !! "seq_num") as [c|] eqn:Hc; simpl;
    repeat (progress (rewrite ?lookup_insert_ne by done;
                      rewrite ?Hy, ?Hc; simpl));
    rewrite Hsel by done;
    destruct (bool_decide ("admin" ∈ _)) eqn:Hadm; simpl;
    rewrite ?Hadm; simpl;
    try apply bool_decide_eq_false in Hadm;
    unfold evolves, custody_opened; simpl;
    repeat split; evolve_same.
Qed.

(** Stepping through one run of the script: a property of the database
    that [init_db()] and every operation keep is kept by the run, and a
    preorder on databases that they follow is followed by the run. *)
Lemma script_keeps (py_float : string -> option float) (P : DB -> Prop) :
  (forall w, P (w_db w) -> P (w_db (snd (init_db w)))) ->
  (forall op w, P (w_db w) -> P (w_db (snd (perform py_float op w)))) ->
  forall user act w,
    P (w_db w) -> P (w_db (snd (script py_float user act w))).
Proof.
  intros Hinit Hop user act w HP. unfold script, new_page, login.
  unfold bind at 1. simpl. unfold bind at 1.
  set (w0 := {| w_db := w_db w; w_clock := w_clock w; w_tick := w_tick w;
                w_user := w_user w; w_out := [] |}).
  pose proof (Hinit w0 HP) as H1.
  destruct (init_db w0) as [[[]|e] w1]; simpl in H1; [|exact H1].
  unfold bind at 1. simpl. destruct act as [op|]; [|exact H1].
  by apply (Hop op {| w_db := w_db w1; w_clock := w_clock w1;
                      w_tick := w_tick w1; w_user := user;
                      w_out := w_out w1 |}).
Qed.

Lemma script_follows (py_float : string -> option float)
    (R : DB -> DB -> Prop) :
  (forall d, R d d) -> (forall a b c, R a b -> R b c -> R a c) ->
  (forall w, R (w_db w) (w_db (snd (init_db w)))) ->
  (forall op w, R (w_db w) (w_db (snd (perform py_float op w)))) ->
  forall user act w, R (w_db w) (w_db (snd (script py_float user act w))).
Proof.
  intros Hrefl Htrans Hinit Hop user act w.
  apply (script_keeps py_float (R (w_db w))); [| |apply Hrefl].
  - intros w' H. eapply Htrans; [exact H|apply Hinit].
  - intros op w' H. eapply Htrans; [exact H|apply Hop].
Qed.

Lemma reachable_keeps (py_float : string -> option float) (P : DB -> Prop) :
  P empty_db ->
  (forall w, P (w_db w) -> P (w_db (snd (init_db w)))) ->
  (forall op w, P (w_db w) -> P (w_db (snd (perform py_float op w)))) ->
  forall w, reachable py_float w -> P (w_db w).
Proof.
  intros Hempty Hinit Hop w Hreach.
  induction Hreach as [clock user act|w user act Hreach IH];
    by apply script_keeps.
Qed.

Lemma next_rowid_above (ids : list Z) :
  1 <= next_rowid ids /\ Forall (fun i => i < next_rowid ids) ids.
Proof.
  unfold next_rowid. induction ids as [|i ids [IH1 IH2]]; simpl.
  - split; [lia|constructor].
  - split; [lia|]. constructor; [lia|].
    eapply Forall_impl; [exact IH2|]. intros j Hj. simpl in Hj. lia.
Qed.

Lemma ascending_snoc (ids : list Z) :
  ascending ids -> ascending (ids ++ [next_rowid ids]).
Proof.
  intros [Hs Hp]. destruct (next_rowid_above ids) as [H1 Hall]. split.
  - apply StronglySorted_app_2; [|done|repeat constructor].
    intros x y Hx Hy. apply list_elem_of_singleton in Hy as ->.
    rewrite Forall_forall in Hall. by apply Hall.
  - apply Forall_app. split; [done|]. by repeat constructor.
Qed.

Lemma ascending_appended {A} (key : A -> Z) (l l' : list A) :
  appended key l l' -> ascending (key <$> l) -> ascending (key <$> l').
Proof.
  intros [->|(r & -> & Hr)] Hasc; [done|].
  rewrite fmap_app. simpl. rewrite Hr. by apply ascending_snoc.
Qed.

Lemma Forall2_same_fmap {A B} (R : A -> A -> Prop) (f : A -> B)
    (l l' : list A) :
  (forall x y, R x y -> f y = f x) -> Forall2 R l l' -> f <$> l' = f <$> l.
Proof.
  intros HR H. induction H as [|x y l l' Hxy H IH]; [done|].
  by rewrite !fmap_cons, (HR x y Hxy), IH.
Qed.

Lemma evolves_keys_unique (d d' : DB) :
  evolves d d' -> keys_unique d -> keys_unique d'.
Proof.
  intros (Hu & Hs & _) [Hsid Huname]. split.
  - destruct Hs as [Hsame|(s & -> & Hfresh)].
    + by rewrite (Forall2_same_fmap same_sample s_id _ _
                    ltac:(by intros ?? (? & _)) Hsame).
    + rewrite fmap_app. apply NoDup_app. split; [done|]. split.
      * intros x Hx Hx'. apply list_elem_of_singleton in Hx'. by subst.
      * apply NoDup_singleton.
  - destruct Hu as [->|(u & -> & _ & Hfresh)]; [done|].
    rewrite fmap_app. apply NoDup_app. split; [done|]. split.
    + intros x Hx Hx'. apply list_elem_of_singleton in Hx'. by subst.
    + apply NoDup_singleton.
Qed.

Lemma evolves_rowids_ascending (d d' : DB) :
  evolves d d' -> rowids_ascending d -> rowids_ascending d'.
Proof.
  intros (Hu & _ & Ht & Hr & Ha & Hc & Hl & Hq & _)
         (Iu & It & Ir & Ia & Ic & Il & Iq).
  split; [|split; [|split; [|split; [|split; [|split]]]]];
    try by eapply ascending_appended.
  - destruct Hu as [->|(u & -> & Hid & _)]; [by apply Iu|].
    rewrite fmap_app. simpl. rewrite Hid. by apply ascending_snoc.
  - destruct Ht as [Hsame|(t & -> & Hid)].
    + rewrite (Forall2_same_fmap same_test t_id _ _
                 ltac:(by intros ?? (? & _)) Hsame). apply It.
    + rewrite fmap_app. simpl. rewrite Hid. by apply ascending_snoc.
  - destruct Hq as [Hsame|(q & -> & Hid)].
    + rewrite (Forall2_same_fmap same_qc q_id _ _
                 ltac:(by intros ?? (? & _)) Hsame). apply Iq.
    + rewrite fmap_app. simpl. rewrite Hid. by apply ascending_snoc.
Qed.

Lemma appended_prefix {A} (key : A -> Z) (l l' : list A) :
  appended key l l' -> l `prefix_of` l'.
Proof. intros [->|(r & -> & _)]; [done|]. by apply prefix_app_r. Qed.

Lemma evolves_custody_complete (d d' : DB) :
  evolves d d' -> custody_complete d -> custody_complete d'.
Proof.
  intros (_ & _ & _ & _ & _ & Hc & Hl & _ & Hopen) Hall s Hs.
  apply appended_prefix in Hc as [lc Hc], Hl as [ll Hl].
  assert (Hold : forall s0, s0 ∈ samples d ->
            (exists c, c ∈ coc d' /\ c_sample_id c = s_id s0
                       /\ c_event c = "Registro")
            /\ (exists a, a ∈ audit_log d' /\ a_entity a = "sample"
                          /\ a_entity_id a = s_id s0
                          /\ a_action a = "create")).
  { intros s0 Hs0. destruct (Hall s0 Hs0) as [(c & Hin & Hc') (a & Hin' & Ha')].
    split.
    - exists c. split; [|done]. rewrite Hc, elem_of_app. by left.
    - exists a. split; [|done]. rewrite Hl, elem_of_app. by left. }
  destruct Hopen as [Hids|(s1 & c1 & a1 & Hs1 & Hc1 & Hcs & Hce & Ha1 & Hae
                                & Hai & Haa)].
  - assert (Hid : s_id s ∈ s_id <$> samples d).
    { rewrite <- Hids. apply list_elem_of_fmap. by exists s. }
    apply list_elem_of_fmap in Hid as (s0 & Heq & Hs0).
    rewrite Heq. by apply Hold.
  - rewrite Hs1, elem_of_app in Hs. destruct Hs as [Hs|Hs].
    + by apply Hold.
    + apply list_elem_of_singleton in Hs as ->. split.
      * exists c1. split; [|done]. rewrite Hc1, elem_of_app. right. left.
      * exists a1. split; [|done]. rewrite Ha1, elem_of_app. right. left.
Qed.

Lemma first_run_reachable : reachable (fun _ => None) first_run.
Proof. apply reachable_first. Qed.

Lemma kept_same {A} (R : A -> A -> Prop) (l : list A) :
  (forall x, R x x) -> kept R l l.
Proof. intros HR i x Hi. exists x. by split. Qed.

Lemma kept_trans {A} (R : A -> A -> Prop) (l1 l2 l3 : list A) :
  (forall x y z, R x y -> R y z -> R x z) ->
  kept R l1 l2 -> kept R l2 l3 -> kept R l1 l3.
Proof.
  intros HR H12 H23 i x Hi.
  destruct (H12 i x Hi) as (y & Hy & Hxy).
  destruct (H23 i y Hy) as (z & Hz & Hyz).
  exists z. split; [done|]. by eapply HR.
Qed.

Lemma kept_Forall2 {A} (R : A -> A -> Prop) (l l' : list A) :
  Forall2 R l l' -> kept R l l'.
Proof. intros H i x Hi. by eapply Forall2_lookup_l. Qed.

Lemma kept_snoc {A} (R : A -> A -> Prop) (l : list A) (r : A) :
  (forall x, R x x) -> kept R l (l ++ [r]).
Proof.
  intros HR i x Hi. exists x. split; [|done].
  by apply lookup_app_l_Some.
Qed.

(** X2.  In every state the script can reach no two samples share an
    identifier and no two users share a username. *)
Theorem reachable_keys_unique (py_float : string -> option float)
    (w : world) :
  reachable py_float w -> keys_unique (w_db w).
Proof.
  apply (reachable_keeps py_float keys_unique).
  - split; constructor.
  - intros w0. apply evolves_keys_unique, init_db_evolves.
  - intros op w0. apply evolves_keys_unique, perform_evolves.
Qed.

Lemma reachable_keys_unique_witness : keys_unique (w_db first_run).
Proof.
  apply (reachable_keys_unique (fun _ => None) first_run).
  apply reachable_first.
Defined.

(** X3.  In every state the script can reach the row ids of [users],
    [tests], [results], [attachments], [coc], [audit] and [qc_events] are at
    least 1 and grow strictly along the table, so an id names one row. *)
Theorem reachable_rowids_ascending (py_float : string -> option float)
    (w : world) :
  reachable py_float w -> rowids_ascending (w_db w).
Proof.
  apply (reachable_keeps py_float rowids_ascending).
  - repeat split; constructor.
  - intros w0. apply evolves_rowids_ascending, init_db_evolves.
  - intros op w0. apply evolves_rowids_ascending, perform_evolves.
Qed.

Lemma reachable_rowids_ascending_witness : rowids_ascending (w_db first_run).
Proof.
  apply (reachable_rowids_ascending (fun _ => None) first_run).
  apply reachable_first.
Defined.

(** X4.  In every state the script can reach each sample has a
    chain-of-custody event [Registro] and an audit record
    [sample]/[create] under its identifier. *)
Theorem reachable_custody_complete (py_float : string -> option float)
    (w : world) :
  reachable py_float w -> custody_complete (w_db w).
Proof.
  apply (reachable_keeps py_float custody_complete).
  - intros s Hs. by apply elem_of_nil in Hs.
  - intros w0. apply evolves_custody_complete, init_db_evolves.
  - intros op w0. apply evolves_custody_complete, perform_evolves.
Qed.

Lemma reachable_custody_complete_witness : custody_complete (w_db first_run).
Proof.
  apply (reachable_custody_complete (fun _ => None) first_run).
  apply reachable_first.
Defined.

(** X5.  One run of the script, whatever the operation and whether it
    completes or raises, only adds rows at the end of [audit], [coc],
    [results], [attachments] and [users]: the rows that were there are all
    still there, unchanged and in the same order. *)
Theorem script_append_only (py_float : string -> option float)
    (user : string) (act : option operation) (w : world) :
  let d := w_db w in
  let d' := w_db (snd (script py_float user act w)) in
  audit_log d `prefix_of` audit_log d'
  /\ coc d `prefix_of` coc d'
  /\ results d `prefix_of` results d'
  /\ attachments d `prefix_of` attachments d'
  /\ users d `prefix_of` users d'.
Proof.
  cbv zeta.
  apply (script_follows py_float
           (fun d d' =>
              audit_log d `prefix_of` audit_log d'
              /\ coc d `prefix_of` coc d'
              /\ results d `prefix_of` results d'
              /\ attachments d `prefix_of` attachments d'
              /\ users d `prefix_of` users d')).
  - intros d. repeat split; reflexivity.
  - intros a b c (H1 & H2 & H3 & H4 & H5) (K1 & K2 & K3 & K4 & K5).
    repeat split; etrans; eauto.
  - intros w0. destruct (init_db_evolves w0)
      as (Hu & _ & _ & Hr & Ha & Hc & Hl & _).
    repeat split; try by eapply appended_prefix.
    destruct Hu as [->|(u & -> & _)]; [done|by apply prefix_app_r].
  - intros op w0. destruct (perform_evolves py_float op w0)
      as (Hu & _ & _ & Hr & Ha & Hc & Hl & _).
    repeat split; try by eapply appended_prefix.
    destruct Hu as [->|(u & -> & _)]; [done|by apply prefix_app_r].
Qed.

Lemma same_sample_trans (x y z : sample_row) :
  same_sample x y -> same_sample y z -> same_sample x z.
Proof. unfold same_sample. intros (?&?&?) (?&?&?). repeat split; congruence. Qed.

Lemma same_test_trans (x y z : test_row) :
  same_test x y -> same_test y z -> same_test x z.
Proof.
  unfold same_test. intros (?&?&?&?&?) (?&?&?&?&?). repeat split; congruence.
Qed.

Lemma same_qc_trans (x y z : qc_row) :
  same_qc x y -> same_qc y z -> same_qc x z.
Proof.
  unfold same_qc. intros (?&?&?&?&?&?&Hs) (?&?&?&?&?&?&Hs').
  repeat split; try congruence.
  destruct Hs' as [Hs'|Hs']; [|by right].
  destruct Hs as [Hs|Hs]; [left|right]; congruence.
Qed.

Lemma evolves_kept (d d' : DB) :
  evolves d d' ->
  kept same_sample (samples d) (samples d')
  /\ kept same_test (tests d) (tests d')
  /\ kept same_qc (qc_events d) (qc_events d').
Proof.
  intros (_ & Hs & Ht & _ & _ & _ & _ & Hq & _). repeat split.
  - destruct Hs as [H|(s & -> & _)]; [by apply kept_Forall2|].
    by apply kept_snoc.
  - destruct Ht as [H|(t & -> & _)]; [by apply kept_Forall2|].
    by apply kept_snoc.
  - destruct Hq as [H|(q & -> & _)]; [by apply kept_Forall2|].
    apply kept_snoc. intros x. unfold same_qc. auto 10.
Qed.

(** X6.  One run of the script never removes or moves a sample, a test or
    a QC event and never changes what identifies it: a sample keeps its
    identifier, creator and creation time; a test keeps its id, sample
    identifier, name, method and unit; a QC event keeps everything but its
    status, which stays as it is or becomes [cerrado], so a closed event is
    never reopened. *)
Theorem script_keeps_identities (py_float : string -> option float)
    (user : string) (act : option operation) (w : world) :
  let d := w_db w in
  let d' := w_db (snd (script py_float user act w)) in
  (forall i s, samples d !! i = Some s ->
     exists s', samples d' !! i = Some s' /\ s_id s' = s_id s
                /\ s_created_by s' = s_created_by s
                /\ s_created_at s' = s_created_at s)
  /\ (forall i t, tests d !! i = Some t ->
        exists t', tests d' !! i = Some t' /\ t_id t' = t_id t
                   /\ t_sample_id t' = t_sample_id t
                   /\ t_test_name t' = t_test_name t
                   /\ t_method t' = t_method t /\ t_unit t' = t_unit t)
  /\ (forall i q, qc_events d !! i = Some q ->
        exists q', qc_events d' !! i = Some q' /\ q_id q' = q_id q
                   /\ q_type q' = q_type q
                   /\ q_instrument q' = q_instrument q
                   /\ q_description q' = q_description q
                   /\ q_at_time q' = q_at_time q
                   /\ q_by_user q' = q_by_user q
                   /\ (q_status q' = q_status q \/ q_status q' = "cerrado")
                   /\ (q_status q = "cerrado" -> q_status q' = "cerrado")).
Proof.
  cbv zeta.
  assert (H : kept same_sample (samples (w_db w))
                (samples (w_db (snd (script py_float user act w))))
              /\ kept same_test (tests (w_db w))
                   (tests (w_db (snd (script py_float user act w))))
              /\ kept same_qc (qc_events (w_db w))
                   (qc_events (w_db (snd (script py_float user act w))))).
  { apply (script_follows py_float
             (fun d d' => kept same_sample (samples d) (samples d')
                          /\ kept same_test (tests d) (tests d')
                          /\ kept same_qc (qc_events d) (qc_events d'))).
    - intros d. repeat split; apply kept_same; try done.
      intros x. unfold same_qc. auto 10.
    - intros a b c (H1 & H2 & H3) (K1 & K2 & K3). repeat split.
      + eapply kept_trans; eauto using same_sample_trans.
      + eapply kept_trans; eauto using same_test_trans.
      + eapply kept_trans; eauto using same_qc_trans.
    - intros w0. apply evolves_kept, init_db_evolves.
    - intros op w0. apply evolves_kept, perform_evolves. }
  destruct H as (Hs & Ht & Hq). repeat split.
  - intros i s Hi. destruct (Hs i s Hi) as (s' & Hs' & Hsame).
    exists s'. by split.
  - intros i t Hi. destruct (Ht i t Hi) as (t' & Ht' & Hsame).
    exists t'. by split.
  - intros i q Hi. destruct (Hq i q Hi)
      as (q' & Hq' & H1 & H2 & H3 & H4 & H5 & H6 & H7).
    exists q'. repeat (split; [assumption|]).
    intros Hclosed. destruct H7 as [H7|H7]; congruence.
Qed.

(** ** Edges of the sequencer and of the forms *)

(** X7.  The sequencer reads its counter with [int].  Without a usable
    counter it raises before it writes: [IndexError] if [meta] has no row
    [seq_num], [ValueError] if the row holds ASCII text that [int] does not
    read (no digit, a misplaced sign or underscore, a character that is
    neither); a registration then raises the same exception and leaves the
    database as it was.  A counter that [int] does read is used, however it
    is written (blanks around it, a plus sign, underscores between digits):
    the identifier is made from its number and the row is rewritten in the
    canonical way. *)
Theorem sequencer_needs_counter (w : world) (f : sample_form) :
  f_client f <> "" ->
  (meta (w_db w) !! "seq_num" = None ->
     fst (next_sample_id w) = Raise IndexError
     /\ w_db (snd (next_sample_id w)) = w_db w
     /\ fst (frm_sample f true w) = Raise IndexError
     /\ w_db (snd (frm_sample f true w)) = w_db w)
  /\ (forall v, meta (w_db w) !! "seq_num" = Some v ->
        Py.is_ascii v = true -> Py.int v = None ->
        fst (next_sample_id w) = Raise ValueError
        /\ w_db (snd (next_sample_id w)) = w_db w
        /\ fst (frm_sample f true w) = Raise ValueError
        /\ w_db (snd (frm_sample f true w)) = w_db w)
  /\ (forall v n ys,
        meta (w_db w) !! "seq_num" = Some v -> Py.int v = Some n ->
        meta (w_db w) !! "seq_ano" = Some ys ->
        let y := now_year (w_clock w (w_tick w)) in
        let c' := (if bool_decide (ys = Py.str y) then n else 0) + 1 in
        fst (next_sample_id w) = Ok (sample_id (Py.str y) c')
        /\ sequencer_at (Py.str y) c' (w_db (snd (next_sample_id w)))).
Proof.
  intros Hclient. split; [|split].
  - intros Hnone. unfold frm_sample, next_sample_id, Sql.select_meta. run.
    rewrite (truthy_true _ Hclient).
    repeat (progress (simpl; rewrite ?Hnone)). done.
  - intros v Hv _ Hint.
    unfold frm_sample, next_sample_id, Sql.select_meta. run.
    rewrite (truthy_true _ Hclient).
    repeat (progress (simpl; rewrite ?Hv, ?Hint)). done.
  - intros v n ys Hv Hint Hy y c'.
    unfold next_sample_id, bind, current_year, datetime_now, run_query, ret,
      Sql.select_meta.
    simpl. rewrite Hy, Hv. simpl. rewrite Hint. simpl.
    fold y. subst c'.
    destruct (decide (ys = Py.str y)) as [->|Hne].
    + rewrite (bool_decide_eq_true_2 (Some _ = Some _)) by done.
      rewrite bool_decide_eq_true_2 by done. simpl.
      split; [reflexivity|].
      unfold sequencer_at. simpl.
      repeat (rewrite lookup_alter_eq || rewrite lookup_alter_ne by done).
      rewrite Hy, Hv. done.
    + rewrite (bool_decide_eq_false_2 (Some _ = Some _)) by congruence.
      rewrite bool_decide_eq_false_2 by done. simpl.
      split; [reflexivity|].
      unfold sequencer_at. simpl.
      repeat (rewrite lookup_alter_eq || rewrite lookup_alter_ne by done).
      rewrite Hy, Hv. done.
Qed.

Lemma sequencer_needs_counter_witness :
  let w := world_of (with_meta (<["seq_num" := "n/a"]> ∅) empty_db) 2025
             "admin" in
  let w' := world_of (with_meta (<["seq_num" := " 41 "]>
                                   (<["seq_ano" := "2025"]> ∅)) empty_db)
              2025 "admin" in
  fst (frm_sample acme_form true (world_of empty_db 2025 "admin"))
  = Raise IndexError
  /\ fst (frm_sample acme_form true w) = Raise ValueError
  /\ w_db (snd (frm_sample acme_form true w)) = w_db w
  /\ fst (next_sample_id w') = Ok "S-2025-0042"
  /\ meta (w_db (snd (next_sample_id w'))) !! "seq_num" = Some "42".
Proof.
  intros w w'.
  destruct (sequencer_needs_counter (world_of empty_db 2025 "admin") acme_form)
    as [H1 _]; [discriminate|].
  destruct (sequencer_needs_counter w acme_form) as (_ & H2 & _);
    [discriminate|].
  destruct (sequencer_needs_counter w' acme_form) as (_ & _ & H5);
    [discriminate|].
  destruct H1 as (_ & _ & H1 & _); [reflexivity|].
  destruct (H2 "n/a") as (_ & _ & H3 & H4);
    [reflexivity|reflexivity|reflexivity|].
  destruct (H5 " 41 " 41 "2025") as (H6 & _ & H7);
    [reflexivity|reflexivity|reflexivity|].
  split; [exact H1|]. split; [exact H3|]. split; [exact H4|].
  split; [exact H6|exact H7].
Defined.

(** X8.  If [meta] has a counter but no row [seq_ano], the sequencer
    restarts at every call: [UPDATE ... WHERE key='seq_ano'] finds no row, so
    the year is never recorded, each call returns [S-<year>-0001] and leaves
    the counter at 1. *)
Theorem sequencer_without_year_row (w : world) (v : string) (n : Z) :
  meta (w_db w) !! "seq_ano" = None ->
  meta (w_db w) !! "seq_num" = Some v -> Py.int v = Some n ->
  let r := next_sample_id w in
  let y := Py.str (now_year (w_clock w (w_tick w))) in
  fst r = Ok (sample_id y 1)
  /\ meta (w_db (snd r)) !! "seq_ano" = None
  /\ meta (w_db (snd r)) !! "seq_num" = Some "1"
  /\ (now_year (w_clock w (S (w_tick w))) = now_year (w_clock w (w_tick w))
      -> fst (next_sample_id (snd r)) = Ok (sample_id y 1)).
Proof.
  intros Hy Hv Hint. unfold next_sample_id, Sql.select_meta. run.
  repeat (progress (simpl; rewrite ?Hy, ?Hv, ?Hint;
                    rewrite ?lookup_alter_eq;
                    rewrite ?lookup_alter_ne by done)).
  repeat split. intros ->. reflexivity.
Qed.

Lemma sequencer_without_year_row_witness :
  let w := world_of (with_meta (<["seq_num" := "41"]> ∅) empty_db) 2025
             "admin" in
  fst (next_sample_id w) = Ok "S-2025-0001"
  /\ fst (next_sample_id (snd (next_sample_id w))) = Ok "S-2025-0001".
Proof.
  intros w.
  destruct (sequencer_without_year_row w "41" 41)
    as (H1 & _ & _ & H2); [reflexivity|reflexivity|reflexivity|].
  split; [exact H1|exact (H2 eq_refl)].
Defined.

(** X9.  If the identifier the sequencer hands out is already taken, the
    registration raises [IntegrityError] at the insert: no sample, audit
    record or chain-of-custody event is written and nothing is shown, but the
    sequencer is not rolled back, so [meta] keeps the advanced counter. *)
Theorem registration_collision (f : sample_form) (w w1 : world)
    (sid : string) :
  f_client f <> "" ->
  next_sample_id w = (Ok sid, w1) ->
  sid ∈ s_id <$> samples (w_db w) ->
  let r := frm_sample f true w in
  fst r = Raise IntegrityError
  /\ tables (w_db (snd r)) = tables (w_db w)
  /\ meta (w_db (snd r)) = meta (w_db w1)
  /\ w_out (snd r) = w_out w.
Proof.
  intros Hclient Hnext Hdup.
  destruct (next_sample_id_frame w) as (Htab & _ & Hout & _).
  rewrite Hnext in Htab, Hout. simpl in Htab, Hout.
  run. unfold Sql.insert_sample. rewrite (truthy_true _ Hclient). simpl.
  rewrite Hnext. simpl.
  assert (Hs : samples (w_db w1) = samples (w_db w))
    by (by injection Htab).
  rewrite Hs. rewrite (bool_decide_eq_true_2 _ Hdup). simpl. done.
Qed.

Lemma registration_collision_witness :
  let w := world_of db_clock_went_back 2025 "admin" in
  let r := frm_sample acme_form true w in
  fst r = Raise IntegrityError
  /\ samples (w_db (snd r)) = samples db_clock_went_back
  /\ map_to_list (meta (w_db (snd r)))
     = [("seq_ano", "2025"); ("seq_num", "1")].
Proof.
  intros w r.
  destruct (registration_collision acme_form w (snd (next_sample_id w))
              "S-2025-0001") as (H1 & H2 & H3 & _).
  - discriminate.
  - reflexivity.
  - vm_compute. left.
  - split; [exact H1|]. split; [vm_compute; reflexivity|].
    fold r in H3. rewrite H3. vm_compute. reflexivity.
Defined.

(** X10.  Creating a user with a username: if the name is taken, the page
    reports [Nombre de usuario ya existe.] and the database stays as it was
    (no second row, no audit record); otherwise one row is appended to
    [users] with that name and role and [active] 1 or 0 as ticked, the
    success message is shown, and everything else but the audit trail is
    untouched. *)
Theorem add_user_outcome (uname role : string) (active : bool) (w : world) :
  uname <> "" ->
  let r := add_user uname role active true w in
  fst r = Ok tt
  /\ if bool_decide (uname ∈ u_username <$> users (w_db w))
     then w_db (snd r) = w_db w
          /\ w_out (snd r) = w_out w ++ [st_error "Nombre de usuario ya existe."]
     else (exists u, users (w_db (snd r)) = users (w_db w) ++ [u]
                     /\ u_username u = uname /\ u_role u = role
                     /\ u_active u = (if active then 1 else 0))
          /\ meta (w_db (snd r)) = meta (w_db w)
          /\ untouched_by_init
               (with_audit_log (audit_log (w_db w)) (w_db (snd r)))
             = untouched_by_init (w_db w)
          /\ w_out (snd r) = w_out w ++ [st_success "Usuario creado."].
Proof.
  intros Hname. run. rewrite (truthy_true _ Hname). simpl.
  unfold Sql.insert_user. case_bool_decide; simpl; [done|].
  split; [done|]. split; [eauto|]. done.
Qed.

Lemma add_user_outcome_witness :
  let r := add_user "admin" "guest" true true lab_2025 in
  fst r = Ok tt
  /\ w_db (snd r) = w_db lab_2025
  /\ w_out (snd r) = [st_error "Nombre de usuario ya existe."].
Proof.
  apply (add_user_outcome "admin" "guest" true lab_2025). discriminate.
Defined.

(** X11.  A result whose uncertainty field holds text that is not a number
    raises [ValueError] at [float(unc)], before the insert: no result, no
    audit record, no message. *)
Theorem add_result_bad_uncertainty (py_float : string -> option float)
    (tid_r : Z) (analyte : string) (value : float)
    (unit_ unc notes : string) (w : world) :
  analyte <> "" -> tid_r <> 0 -> unc <> "" -> py_float unc = None ->
  let r := add_result py_float tid_r analyte value unit_ unc notes true w in
  fst r = Raise ValueError /\ w_db (snd r) = w_db w
  /\ w_out (snd r) = w_out w.
Proof.
  intros Ha Ht Hu Hp. run.
  rewrite (truthy_true _ Ha), (truthy_true _ Hu), Hp.
  rewrite bool_decide_eq_true_2 by done. simpl. done.
Qed.

Lemma add_result_bad_uncertainty_witness :
  let r := add_result (fun _ => None) 1 "Fe" 12.5%float "mg/kg" "about 2" ""
             true lab_2025 in
  fst r = Raise ValueError /\ w_db (snd r) = w_db lab_2025
  /\ w_out (snd r) = [].
Proof.
  apply (add_result_bad_uncertainty (fun _ => None) 1 "Fe" 12.5%float
           "mg/kg" "about 2" "" lab_2025);
    [discriminate|lia|discriminate|reflexivity].
Defined.

Lemma filter_fmap_key {A K} `{EqDecision K} (key : A -> K) (k : K)
    (f : A -> A) (l : list A) :
  (forall x, key (f x) = key x) ->
  (forall x, key x <> k -> f x = x) ->
  filter (fun x => key x = k) (f <$> l)
  = f <$> filter (fun x => key x = k) l
  /\ filter (fun x => key x <> k) (f <$> l)
     = filter (fun x => key x <> k) l.
Proof.
  intros Hkey Hother. induction l as [|x l [IH1 IH2]]; [done|].
  rewrite fmap_cons. destruct (decide (key x = k)) as [Hx|Hx].
  - rewrite (filter_cons_True _ (f x)) by (by rewrite Hkey).
    rewrite (filter_cons_True _ x) by done.
    rewrite (filter_cons_False _ (f x)) by (rewrite Hkey; tauto).
    rewrite (filter_cons_False _ x) by tauto.
    by rewrite fmap_cons, IH1, IH2.
  - rewrite (filter_cons_False _ (f x)) by (by rewrite Hkey).
    rewrite (filter_cons_False _ x) by done.
    rewrite (filter_cons_True _ (f x)) by (by rewrite Hkey).
    rewrite (filter_cons_True _ x) by done.
    by rewrite IH1, IH2, (Hother x Hx).
Qed.

(** X12.  Saving the form [edit_sample] for an identifier: if no sample
    has it, the page warns [No existe esa muestra.] and writes nothing; if
    the stored status or priority is not one of the choices, building the
    form raises [ValueError] and nothing is written; otherwise the run
    completes, reading the sample back gives the values of the form with
    the identifier, creator and creation time it had, the samples under
    other identifiers are untouched and no sample is added. *)
Theorem edit_sample_outcome (sid : string) (f : sample_form) (w : world) :
  sid <> "" ->
  let r := edit_sample sid f true w in
  let d := w_db w in
  let d' := w_db (snd r) in
  match Sql.select_sample sid d with
  | [] =>
      fst r = Ok tt /\ d' = d
      /\ w_out (snd r) = w_out w ++ [st_warning "No existe esa muestra."]
  | rec :: _ =>
      if bool_decide (s_status rec ∈ sample_statuses
                      /\ s_priority rec ∈ priorities)
      then
        fst r = Ok tt
        /\ Forall2
             (fun s s' =>
                s_id s' = s_id s /\ s_created_by s' = s_created_by s
                /\ s_created_at s' = s_created_at s
                /\ s_client s' = f_client f /\ s_project s' = f_project f
                /\ s_matrix s' = f_matrix f
                /\ s_description s' = f_description f
                /\ s_received_at s' = f_received_at f
                /\ s_due_at s' = f_due_at f /\ s_status s' = f_status f
                /\ s_priority s' = f_priority f
                /\ s_location s' = f_location f)
             (Sql.select_sample sid d) (Sql.select_sample sid d')
        /\ filter (fun s => s_id s <> sid) (samples d')
           = filter (fun s => s_id s <> sid) (samples d)
        /\ length (samples d') = length (samples d)
      else fst r = Raise ValueError /\ d' = d
  end.
Proof.
  intros Hsid. run. rewrite (truthy_true _ Hsid). simpl.
  destruct (Sql.select_sample sid (w_db w)) as [|rec recs] eqn:Hsel; simpl;
    [done|].
  destruct (bool_decide (s_status rec ∈ sample_statuses /\ _)) eqn:Hb.
  2:{ apply bool_decide_eq_false in Hb.
      destruct (decide (s_status rec ∈ sample_statuses)) as [Hst|Hst];
        [|by rewrite (index_of_notin _ _ w Hst)].
      destruct (index_of_in _ _ w Hst) as [i ->].
      assert (Hpr : s_priority rec ∉ priorities) by tauto.
      by rewrite (index_of_notin _ _ w Hpr). }
  apply bool_decide_eq_true in Hb as [Hst Hpr].
  destruct (index_of_in _ _ w Hst) as [i ->].
  destruct (index_of_in _ _ w Hpr) as [j ->]. simpl.
  unfold Sql.select_sample in *. simpl.
  match goal with
  | |- context [ (?g <$> samples (w_db w)) ] =>
      destruct (filter_fmap_key s_id sid g (samples (w_db w))) as [H1 H2]
  end.
  { intros s. by case_bool_decide. }
  { intros s Hs. by rewrite bool_decide_eq_false_2. }
  rewrite H1, H2, Hsel.
  split; [done|]. split; [|split; [done|by rewrite length_fmap]].
  apply Forall2_fmap_r, Forall_Forall2_diag, Forall_forall.
  intros s Hs. rewrite <- Hsel in Hs.
  apply list_elem_of_filter in Hs as [Hid _]. simpl.
  rewrite bool_decide_eq_true_2 by done. simpl. done.
Qed.

Lemma edit_sample_outcome_witness :
  let r := edit_sample "S-2025-0001" acme_closed true lab_busy in
  let r0 := edit_sample "S-2025-0404" acme_closed true lab_busy in
  fst r = Ok tt
  /\ s_status <$> Sql.select_sample "S-2025-0001" (w_db (snd r)) = ["cerrado"]
  /\ w_db (snd r0) = w_db lab_busy.
Proof.
  intros r r0.
  pose proof (edit_sample_outcome "S-2025-0001" acme_closed lab_busy)
    as H. 
  destruct H as (H1 & _); [discriminate|].
  pose proof (edit_sample_outcome "S-2025-0404" acme_closed lab_busy)
    as H0.
  destruct H0 as (_ & H0 & _); [discriminate|].
  split; [exact H1|]. split; [vm_compute; reflexivity|exact H0].
Defined.

(** X13.  Saving the form [edit_test] for a non-zero id: if no test has it,
    the page says [Ingrese un ID válido] and writes
    nothing; if the stored status is not one of the choices, building the
    form raises [ValueError] and nothing is written; otherwise the run
    completes, the tests with that id get the status, assignee and due date
    of the form and keep their id, sample, name, method and unit, the other
    tests are untouched and no test is added. *)
Theorem edit_test_outcome (tid : Z) (status assigned_to : string)
    (due_at : option date) (w : world) :
  tid <> 0 ->
  let r := edit_test tid status assigned_to due_at true w in
  let d := w_db w in
  let d' := w_db (snd r) in
  match Sql.select_test tid d with
  | [] =>
      fst r = Ok tt /\ d' = d
      /\ w_out (snd r) = w_out w ++ [st_info "Ingrese un ID válido"]
  | row :: _ =>
      if bool_decide (t_status row ∈ test_statuses)
      then
        fst r = Ok tt
        /\ Forall2
             (fun t t' =>
                t_id t' = t_id t /\ t_sample_id t' = t_sample_id t
                /\ t_test_name t' = t_test_name t
                /\ t_method t' = t_method t /\ t_unit t' = t_unit t
                /\ t_status t' = status
                /\ t_assigned_to t' = Some assigned_to
                /\ t_due_at t' = due_at)
             (Sql.select_test tid d) (Sql.select_test tid d')
        /\ filter (fun t => t_id t <> tid) (tests d')
           = filter (fun t => t_id t <> tid) (tests d)
        /\ length (tests d') = length (tests d)
      else fst r = Raise ValueError /\ d' = d
  end.
Proof.
  intros Htid. run. rewrite bool_decide_eq_true_2 by done. simpl.
  destruct (Sql.select_test tid (w_db w)) as [|row rows] eqn:Hsel; simpl;
    [done|].
  destruct (bool_decide (t_status row ∈ test_statuses)) eqn:Hb.
  2:{ apply bool_decide_eq_false in Hb.
      by rewrite (index_of_notin _ _ w Hb). }
  apply bool_decide_eq_true in Hb.
  destruct (index_of_in _ _ w Hb) as [i ->]. simpl.
  unfold Sql.select_test in *. simpl.
  match goal with
  | |- context [ (?g <$> tests (w_db w)) ] =>
      destruct (filter_fmap_key t_id tid g (tests (w_db w))) as [H1 H2]
  end.
  { intros t. by case_bool_decide. }
  { intros t Ht. by rewrite bool_decide_eq_false_2. }
  rewrite H1, H2, Hsel.
  split; [done|]. split; [|split; [done|by rewrite length_fmap]].
  apply Forall2_fmap_r, Forall_Forall2_diag, Forall_forall.
  intros t Ht. rewrite <- Hsel in Ht.
  apply list_elem_of_filter in Ht as [Hid _]. simpl.
  rewrite bool_decide_eq_true_2 by done. simpl. done.
Qed.

Lemma edit_test_outcome_witness :
  let r := edit_test 1 "en_revision" "ana" None true lab_busy in
  let r0 := edit_test 7 "en_revision" "ana" None true lab_busy in
  fst r = Ok tt
  /\ (fun t => (t_status t, t_assigned_to t))
       <$> Sql.select_test 1 (w_db (snd r)) = [("en_revision", Some "ana")]
  /\ w_db (snd r0) = w_db lab_busy.
Proof.
  intros r r0.
  pose proof (edit_test_outcome 1 "en_revision" "ana" None lab_busy) as H.
  destruct H as (H1 & _); [lia|].
  pose proof (edit_test_outcome 7 "en_revision" "ana" None lab_busy) as H0.
  destruct H0 as (_ & H0 & _); [lia|].
  split; [exact H1|]. split; [vm_compute; reflexivity|exact H0].
Defined.

(** X14.  A registration that goes through can be read back: selecting the
    identifier it was given returns exactly one sample, which carries that
    identifier and every field of the form as submitted (a missing due date
    as [NULL]). *)
Theorem registration_round_trip (f : sample_form) (w : world) :
  can_register f w = true ->
  let r := frm_sample f true w in
  exists sid s,
    fst (next_sample_id w) = Ok sid
    /\ Sql.select_sample sid (w_db (snd r)) = [s]
    /\ s_id s = sid /\ s_client s = f_client f /\ s_project s = f_project f
    /\ s_matrix s = f_matrix f /\ s_description s = f_description f
    /\ s_received_at s = f_received_at f /\ s_due_at s = f_due_at f
    /\ s_status s = f_status f /\ s_priority s = f_priority f
    /\ s_location s = f_location f /\ s_created_by s = f_created_by f.
Proof.
  destruct (next_sample_id_frame w) as (Htab & _).
  unfold can_register. run. unfold Sql.insert_sample.
  destruct (Py.truthy (f_client f)); simpl; [|discriminate].
  destruct (next_sample_id w) as [[sid|e] w1] eqn:E; simpl in *;
    injection Htab as Hu Hs Ht Hr Ha Hc Hl Hq; [|discriminate].
  rewrite Hs. case_bool_decide as Hfresh; simpl; [discriminate|]. intros _.
  assert (Hnone : filter (fun s => s_id s = sid) (samples (w_db w)) = []).
  { destruct (filter _ (samples (w_db w))) as [|s l] eqn:Hf; [done|].
    assert (Hin : s ∈ filter (fun s => s_id s = sid) (samples (w_db w)))
      by (rewrite Hf; left).
    apply list_elem_of_filter in Hin as [Hid Hin]. destruct Hfresh.
    apply list_elem_of_fmap. by exists s. }
  eexists sid, _. split; [done|]. split.
  - unfold Sql.select_sample. simpl.
    rewrite filter_app, filter_cons_True, filter_nil by done.
    rewrite Hnone. reflexivity.
  - simpl. by repeat split.
Qed.

Lemma registration_round_trip_witness :
  let r := frm_sample acme_closed true lab_2025 in
  exists s, Sql.select_sample "S-2025-0001" (w_db (snd r)) = [s]
            /\ s_client s = "Acme" /\ s_due_at s = Some 739500
            /\ s_status s = "cerrado".
Proof.
  intros r.
  destruct (registration_round_trip acme_closed lab_2025)
    as (sid & s & Hsid & Hsel & _ & Hc & _ & _ & _ & _ & Hd & Hst & _);
    [reflexivity|].
  injection Hsid as <-. exists s. by repeat split.
Defined.

(** ** The dashboard *)

(** X15.  The dashboard only reads: the database is as before.  Its
    figures fit together: the open samples are at most the samples, the
    due-soon table has at most as many rows as there are open samples, and
    the note [Sin vencimientos próximos.] is shown exactly when the table is
    empty. *)
Theorem dashboard_consistent (today : date) (w : world) :
  let r := page_dashboard today w in
  exists v,
    fst r = Ok v
    /\ w_db (snd r) = w_db w
    /\ total v = length (samples (w_db w))
    /\ (abiertos v <= total v)%nat
    /\ (length (df_due v) <= abiertos v)%nat
    /\ w_out (snd r)
       = w_out w ++ (if bool_decide (df_due v = [])
                     then [st_info "Sin vencimientos próximos."] else []).
Proof.
  unfold page_dashboard. run.
  assert (Hdue : (length (Sql.select_due_soon today (w_db w))
                  <= Query.count_open_samples (w_db w))%nat).
  { unfold Sql.select_due_soon, Query.count_open_samples.
    rewrite length_fmap, merge_sort_Permutation.
    induction (samples (w_db w)) as [|s l IH]; [done|].
    simpl. unfold Sql.due_soon_where at 1.
    destruct (s_due_at s) as [due|]; simpl.
    - destruct (decide (s_status s ∈ ["cerrado"; "cancelado"])) as [Hc|Hc].
      + rewrite bool_decide_eq_true_2 by done. rewrite andb_false_r.
        rewrite filter_cons_False by tauto. exact IH.
      + rewrite bool_decide_eq_false_2 by done.
        rewrite filter_cons_True by done. simpl.
        destruct (due <=? today + 7); simpl; lia.
    - destruct (decide (s_status s ∉ ["cerrado"; "cancelado"])).
      + rewrite filter_cons_True by done. simpl. lia.
      + by rewrite filter_cons_False. }
  case_bool_decide as Hempty; simpl.
  - eexists. split; [reflexivity|]. simpl.
    rewrite bool_decide_eq_true_2 by done.
    repeat split; try done. apply length_filter.
  - eexists. split; [reflexivity|]. simpl.
    rewrite bool_decide_eq_false_2 by done. rewrite app_nil_r.
    repeat split; try done. apply length_filter.
Qed.

(** X16.  The metrics follow the operations.  A registration that goes
    through adds one to the samples, and one to the open samples unless it
    was registered as [cerrado] or [cancelado]; a test added adds one to the
    pending tests; a QC event recorded adds one to the open QC events; and
    closing takes off exactly the open events that carry the id. *)
Theorem dashboard_follows_operations (w : world) :
  let d := w_db w in
  (forall f,
     can_register f w = true ->
     let d' := w_db (snd (frm_sample f true w)) in
     Query.count_samples d' = S (Query.count_samples d)
     /\ Query.count_open_samples d'
        = (Query.count_open_samples d
           + if bool_decide (f_status f ∈ ["cerrado"; "cancelado"])
             then 0 else 1)%nat)
  /\ (forall sid2 test_name method unit_ due_at,
        sid2 <> "" -> test_name <> "" ->
        let d' := w_db (snd (add_test sid2 test_name method unit_ due_at
                               true w)) in
        Query.count_pending_tests d' = S (Query.count_pending_tests d))
  /\ (forall qtype instr desc,
        let d' := w_db (snd (qc_form qtype instr desc true w)) in
        Query.count_open_qc d' = S (Query.count_open_qc d))
  /\ (forall qid,
        qid <> 0 ->
        let d' := w_db (snd (qc_close qid true w)) in
        (Query.count_open_qc d'
         + length (filter (fun q => q_id q = qid /\ q_status q = "abierto")
                          (qc_events d)))%nat
        = Query.count_open_qc d).
Proof.
  cbv zeta. split; [|split; [|split]].
  - intros f.
    destruct (next_sample_id_frame w) as (Htab & _).
    unfold can_register. run. unfold Sql.insert_sample.
    destruct (Py.truthy (f_client f)); simpl; [|discriminate].
    destruct (next_sample_id w) as [[sid|e] w1] eqn:E; simpl in *;
      injection Htab as Hu Hs Ht Hr Ha Hc Hl Hq; [|discriminate].
    rewrite Hs. case_bool_decide as Hfresh; simpl; [discriminate|]. intros _.
    unfold Query.count_samples, Query.count_open_samples. simpl.
    rewrite length_app, filter_app, length_app. simpl.
    split; [lia|]. f_equal.
    case_bool_decide as Hclosed.
    + by rewrite filter_cons_False by (simpl; tauto).
    + by rewrite filter_cons_True by done.
  - intros sid2 test_name method unit_ due_at H1 H2. run.
    rewrite (truthy_true _ H1), (truthy_true _ H2). simpl.
    unfold Query.count_pending_tests. simpl.
    rewrite filter_app, length_app, filter_cons_True by done. simpl. lia.
  - intros qtype instr desc. run.
    unfold Query.count_open_qc. simpl.
    rewrite filter_app, length_app, filter_cons_True by done. simpl. lia.
  - intros qid Hqid. run. rewrite bool_decide_eq_true_2 by done. simpl.
    unfold Query.count_open_qc. simpl.
    induction (qc_events (w_db w)) as [|q l IH]; [done|].
    rewrite fmap_cons.
    destruct (decide (q_id q = qid)) as [Hid|Hid].
    + rewrite bool_decide_eq_true_2 by done.
      rewrite (filter_cons_False (fun q => q_status q = "abierto"))
        by (simpl; discriminate).
      destruct (decide (q_status q = "abierto")) as [Hopen|Hopen].
      * rewrite !(filter_cons_True _ q) by done. simpl. lia.
      * rewrite !(filter_cons_False _ q) by tauto. exact IH.
    + rewrite bool_decide_eq_false_2 by done.
      rewrite (filter_cons_False (fun q => q_id q = qid /\ _)) by tauto.
      destruct (decide (q_status q = "abierto")) as [Hopen|Hopen].
      * rewrite !(filter_cons_True _ q) by done. simpl. lia.
      * rewrite !(filter_cons_False _ q) by tauto. exact IH.
Qed.

Lemma dashboard_follows_operations_witness :
  Query.count_open_samples (w_db (snd (frm_sample acme_closed true lab_busy)))
  = 1%nat
  /\ Query.count_samples (w_db (snd (frm_sample acme_closed true lab_busy)))
     = 2%nat
  /\ Query.count_open_qc (w_db (snd (qc_close 1 true lab_busy))) = 0%nat.
Proof.
  destruct (dashboard_follows_operations lab_busy) as (Hreg & _ & _ & Hclose).
  destruct (Hreg acme_closed) as [H1 H2]; [reflexivity|].
  specialize (Hclose 1 ltac:(lia)). simpl in Hclose.
  split; [exact H2|]. split; [exact H1|].
  vm_compute in Hclose. vm_compute. lia.
Defined.

(** ** Reports and listings *)

(** X17.  The report of a sample identifier only reads.  Its sample is the
    first sample with the identifier, or empty if there is none; its tests
    are the tests stored under the identifier, whether or not the sample
    exists; its results are, in table order and each once, exactly the
    results whose test id is the id of one of those tests. *)
Theorem report_gathers (sid : string) (w : world) :
  sid <> "" ->
  let d := w_db w in
  exists rep,
    fst (generar_reporte sid true w) = Ok (Some rep)
    /\ w_db (snd (generar_reporte sid true w)) = d
    /\ (rep_sample rep = None <-> sid ∉ s_id <$> samples d)
    /\ (forall s, rep_sample rep = Some s -> s ∈ samples d /\ s_id s = sid)
    /\ (forall t, t ∈ rep_tests rep <-> t ∈ tests d /\ t_sample_id t = sid)
    /\ (forall r, r ∈ rep_results rep
                  <-> r ∈ results d
                      /\ exists t, t ∈ tests d /\ t_sample_id t = sid
                                   /\ t_id t = r_test_id r)
    /\ rep_results rep `sublist_of` results d
    /\ rep_tests rep `sublist_of` tests d.
Proof.
  intros Hsid. unfold generar_reporte. run. rewrite (truthy_true _ Hsid).
  simpl.
  assert (Hin : forall r : result_row,
            r_test_id r ∈ t_id <$> Query.select_tests_of sid (w_db w)
            <-> exists t, t ∈ tests (w_db w) /\ t_sample_id t = sid
                          /\ t_id t = r_test_id r).
  { intros r. unfold Query.select_tests_of. rewrite list_elem_of_fmap.
    split.
    - intros (t & Heq & Ht). apply list_elem_of_filter in Ht as [H1 H2].
      by exists t.
    - intros (t & Ht & H1 & H2). exists t. split; [done|].
      by apply list_elem_of_filter. }
  assert (Hsample :
            (head (Sql.select_sample sid (w_db w)) = None
             <-> sid ∉ s_id <$> samples (w_db w))
            /\ (forall s, head (Sql.select_sample sid (w_db w)) = Some s ->
                          s ∈ samples (w_db w) /\ s_id s = sid)).
  { unfold Sql.select_sample.
    destruct (filter _ (samples (w_db w))) as [|s l] eqn:Hf; simpl.
    - split; [|discriminate]. split; [|done]. intros _ Hin'.
      apply list_elem_of_fmap in Hin' as (s & -> & Hs).
      exact (filter_nil_not_elem_of _ _ s Hf eq_refl Hs).
    - assert (Hs : s ∈ filter (fun s => s_id s = sid) (samples (w_db w)))
        by (rewrite Hf; left).
      apply list_elem_of_filter in Hs as [Hid Hs]. split.
      + split; [discriminate|]. intros Hnot. destruct Hnot.
        apply list_elem_of_fmap. by exists s.
      + intros s' [= <-]. by split. }
  destruct Hsample as [Hs1 Hs2].
  assert (Htests : forall t, t ∈ Query.select_tests_of sid (w_db w)
                             <-> t ∈ tests (w_db w) /\ t_sample_id t = sid).
  { intros t. unfold Query.select_tests_of. rewrite list_elem_of_filter.
    tauto. }
  case_bool_decide as Hnil; simpl.
  - eexists. split; [reflexivity|]. simpl.
    split; [done|]. split; [exact Hs1|]. split; [exact Hs2|].
    split; [exact Htests|]. split; [|split].
    + intros r. split; [intros Hr; by apply elem_of_nil in Hr|].
      intros [_ Hex]. apply Hin in Hex. rewrite Hnil in Hex.
      by apply elem_of_nil in Hex.
    + apply sublist_nil_l.
    + apply sublist_filter.
  - eexists. split; [reflexivity|]. simpl.
    split; [done|]. split; [exact Hs1|]. split; [exact Hs2|].
    split; [exact Htests|]. split; [|split].
    + intros r. unfold Query.select_results_in.
      rewrite list_elem_of_filter, Hin. tauto.
    + apply sublist_filter.
    + apply sublist_filter.
Qed.

Lemma report_gathers_witness :
  exists rep,
    fst (generar_reporte "S-2025-0001" true lab_busy) = Ok (Some rep)
    /\ t_test_name <$> rep_tests rep = ["ICP-OES"]
    /\ rep_results rep = [].
Proof.
  destruct (report_gathers "S-2025-0001" lab_busy) as (rep & Hrep & _);
    [discriminate|].
  exists rep. split; [exact Hrep|].
  vm_compute in Hrep. injection Hrep as <-. by split.
Defined.

(** ** Listings in the order of their row ids *)

Lemma keys_inj {A} (key : A -> Z) (l : list A) (x y : A) :
  StronglySorted Z.lt (key <$> l) -> x ∈ l -> y ∈ l -> key x = key y ->
  x = y.
Proof.
  induction l as [|a l IH]; intros Hs Hx Hy Hk.
  - by apply elem_of_nil in Hx.
  - rewrite fmap_cons in Hs. apply StronglySorted_inv in Hs as [Hs Hall].
    rewrite Forall_fmap, Forall_forall in Hall.
    apply elem_of_cons in Hx as [->|Hx]; apply elem_of_cons in Hy as [->|Hy].
    + done.
    + specialize (Hall _ Hy). simpl in Hall. lia.
    + specialize (Hall _ Hx). simpl in Hall. lia.
    + by apply IH.
Qed.

Lemma filter_keys_sorted {A} (key : A -> Z) (P : A -> Prop)
    `{!forall x, Decision (P x)} (l : list A) :
  StronglySorted Z.lt (key <$> l) ->
  StronglySorted Z.lt (key <$> filter P l).
Proof.
  induction l as [|a l IH]; intros Hs; [done|].
  rewrite fmap_cons in Hs. apply StronglySorted_inv in Hs as [Hs Hall].
  rewrite filter_cons. destruct (decide (P a)); [|by apply IH].
  rewrite fmap_cons. constructor; [by apply IH|].
  rewrite Forall_fmap, Forall_forall in *. intros x Hx.
  apply Hall. apply list_elem_of_filter in Hx. tauto.
Qed.

Lemma sort_ascending_keys {A} (key : A -> Z) (R : relation A)
    `{!forall x y, Decision (R x y)} (l : list A) :
  (forall x y, R x y <-> key x ≤ key y) ->
  StronglySorted Z.lt (key <$> l) ->
  merge_sort R l = l.
Proof.
  intros HR Hs.
  assert (Transitive R) by (intros x y z; rewrite !HR; lia).
  assert (Total R) by (intros x y; rewrite !HR; lia).
  apply (StronglySorted_unique_strong R).
  - intros x y Hx Hy Hxy Hyx. rewrite (merge_sort_Permutation R l) in Hx.
    apply (keys_inj key l); [done..|]. apply HR in Hxy, Hyx. lia.
  - by apply StronglySorted_merge_sort.
  - clear -HR Hs. induction l as [|a l IH]; [constructor|].
    rewrite fmap_cons in Hs. apply StronglySorted_inv in Hs as [Hs Hall].
    constructor; [by apply IH|].
    rewrite Forall_fmap, Forall_forall in Hall. apply Forall_forall.
    intros x Hx. apply HR. specialize (Hall _ Hx). simpl in Hall. lia.
  - apply merge_sort_Permutation.
Qed.

Lemma sort_descending_keys {A} (key : A -> Z) (R : relation A)
    `{!forall x y, Decision (R x y)} (l : list A) :
  (forall x y, R x y <-> key y ≤ key x) ->
  StronglySorted Z.lt (key <$> l) ->
  merge_sort R l = reverse l.
Proof.
  intros HR Hs.
  assert (Transitive R) by (intros x y z; rewrite !HR; lia).
  assert (Total R) by (intros x y; rewrite !HR; lia).
  apply (StronglySorted_unique_strong R).
  - intros x y Hx Hy Hxy Hyx. rewrite (merge_sort_Permutation R l) in Hx.
    rewrite elem_of_reverse in Hy.
    apply (keys_inj key l); [done..|]. apply HR in Hxy, Hyx. lia.
  - by apply StronglySorted_merge_sort.
  - clear -HR Hs. induction l as [|a l IH]; [constructor|].
    rewrite fmap_cons in Hs. apply StronglySorted_inv in Hs as [Hs Hall].
    rewrite reverse_cons.
    apply StronglySorted_app_2; [|by apply IH|repeat constructor].
    intros x y Hx Hy. apply list_elem_of_singleton in Hy as ->.
    rewrite elem_of_reverse in Hx.
    rewrite Forall_fmap, Forall_forall in Hall. apply HR.
    specialize (Hall _ Hx). simpl in Hall. lia.
  - rewrite merge_sort_Permutation. by rewrite reverse_Permutation.
Qed.

Lemma add_link_run (sid label url notes : string) (w : world) :
  sid <> "" -> url <> "" ->
  exists a w',
    add_link sid label url notes true w = (Ok tt, w')
    /\ attachments (w_db w') = attachments (w_db w) ++ [a]
    /\ at_id a = next_rowid (at_id <$> attachments (w_db w))
    /\ at_sample_id a = sid /\ at_label a = label /\ at_url a = url
    /\ at_added_by a = w_user w.
Proof.
  intros Hsid Hurl. run. rewrite (truthy_true _ Hsid), (truthy_true _ Hurl).
  simpl. eexists _, _. split; [reflexivity|]. simpl.
  split; [reflexivity|]. done.
Qed.

Lemma add_coc_run (sid event notes : string) (w : world) :
  sid <> "" -> event <> "" ->
  exists c w',
    add_coc sid event notes true w = (Ok tt, w')
    /\ coc (w_db w') = coc (w_db w) ++ [c]
    /\ c_id c = next_rowid (c_id <$> coc (w_db w))
    /\ c_sample_id c = sid /\ c_event c = event /\ c_notes c = notes
    /\ c_by_user c = w_user w.
Proof.
  intros Hsid Hevent. run.
  rewrite (truthy_true _ Hsid), (truthy_true _ Hevent).
  simpl. eexists _, _. split; [reflexivity|]. simpl.
  split; [reflexivity|]. done.
Qed.

Lemma view_attachments_run (sid : string) (w : world) :
  sid <> "" ->
  StronglySorted Z.lt (at_id <$> attachments (w_db w)) ->
  view_attachments sid w
  = (Ok (Some (reverse (filter (fun a => at_sample_id a = sid)
                               (attachments (w_db w))))), w).
Proof.
  intros Hsid Hasc. unfold view_attachments.
  rewrite (truthy_true _ Hsid). unfold bind, run_query, ret.
  unfold Query.select_attachments.
  rewrite (sort_descending_keys at_id); [done|done|].
  by apply filter_keys_sorted.
Qed.

Lemma view_coc_run (sid : string) (w : world) :
  sid <> "" ->
  StronglySorted Z.lt (c_id <$> coc (w_db w)) ->
  view_coc sid w
  = (Ok (Some (filter (fun c => c_sample_id c = sid) (coc (w_db w)))), w).
Proof.
  intros Hsid Hasc. unfold view_coc.
  rewrite (truthy_true _ Hsid). unfold bind, run_query, ret.
  unfold Sql.select_coc.
  rewrite (sort_ascending_keys c_id); [done|done|].
  by apply filter_keys_sorted.
Qed.

(** X18.  On the page of the links, with row ids ascending as the pages
    leave them, the table lists the links of the sample newest first, and a
    link added in a run is already the first line of the table of that same
    run, labelled as typed and signed by the session's user. *)
Theorem attachments_newest_first (sid label url notes : string)
    (w : world) :
  sid <> "" -> url <> "" ->
  ascending (at_id <$> attachments (w_db w)) ->
  let before := filter (fun a => at_sample_id a = sid)
                       (attachments (w_db w)) in
  fst (view_attachments sid w) = Ok (Some (reverse before))
  /\ exists a,
       fst (page_attachments sid label url notes true w)
       = Ok (Some (a :: reverse before))
       /\ at_sample_id a = sid /\ at_label a = label /\ at_url a = url
       /\ at_added_by a = w_user w.
Proof.
  intros Hsid Hurl Hasc before.
  split; [by rewrite view_attachments_run by (done || apply Hasc)|].
  destruct (add_link_run sid label url notes w Hsid Hurl)
    as (a & w' & E & Hatt & Hid & Ha).
  exists a. split; [|exact Ha].
  unfold page_attachments, bind. rewrite E.
  rewrite view_attachments_run; [|done|].
  - rewrite Hatt, filter_app, filter_cons, filter_nil.
    destruct Ha as [Hs _]. rewrite decide_True by done.
    by rewrite reverse_app.
  - rewrite Hatt, fmap_app. simpl. rewrite Hid.
    by apply (ascending_snoc (at_id <$> attachments (w_db w))).
Qed.

Lemma attachments_newest_first_witness :
  exists a,
    fst (page_attachments "S-2025-0001" "Protocolo"
           "https://drive.example/p.pdf" "" true lab_2025)
    = Ok (Some [a])
    /\ at_url a = "https://drive.example/p.pdf".
Proof.
  destruct (attachments_newest_first "S-2025-0001" "Protocolo"
              "https://drive.example/p.pdf" "" lab_2025)
    as (_ & a & H & _ & _ & Hu & _).
  - discriminate.
  - discriminate.
  - split; constructor.
  - exists a. split; [exact H|exact Hu].
Defined.

(** X19.  On the page of the chain of custody, with row ids ascending as the
    pages leave them, the table lists the events of the sample in the order
    they were added.  The table is read before the form is handled: the run
    that adds an event still shows the chain without it, and the next
    reading shows it as the last line, signed by the session's user; the
    chains of the other samples are what they were. *)
Theorem coc_page_lags_one_run (sid event notes : string) (w : world) :
  sid <> "" -> event <> "" ->
  ascending (c_id <$> coc (w_db w)) ->
  let before := filter (fun c => c_sample_id c = sid) (coc (w_db w)) in
  let r := page_coc sid event notes true w in
  fst r = Ok (Some before)
  /\ (exists c,
        fst (view_coc sid (snd r)) = Ok (Some (before ++ [c]))
        /\ c_event c = event /\ c_notes c = notes
        /\ c_by_user c = w_user w)
  /\ forall sid', sid' <> sid ->
       Sql.select_coc sid' (w_db (snd r)) = Sql.select_coc sid' (w_db w).
Proof.
  intros Hsid Hevent Hasc before r.
  destruct (add_coc_run sid event notes w Hsid Hevent)
    as (c & w' & E & Hcoc & Hid & Hs & Hc).
  assert (Hr : r = (Ok (Some before), w')).
  { unfold r, page_coc, bind.
    rewrite view_coc_run by (done || apply Hasc). by rewrite E. }
  rewrite Hr. simpl. split; [done|]. split.
  - exists c. split; [|exact Hc].
    rewrite view_coc_run; [|done|].
    + rewrite Hcoc, filter_app, filter_cons, filter_nil.
      by rewrite decide_True.
    + rewrite Hcoc, fmap_app. simpl. rewrite Hid.
      by apply (ascending_snoc (c_id <$> coc (w_db w))).
  - intros sid' Hne. unfold Sql.select_coc.
    rewrite Hcoc, filter_app, filter_cons, filter_nil.
    rewrite decide_False by congruence. by rewrite app_nil_r.
Qed.

Lemma coc_page_lags_one_run_witness :
  let before := filter (fun c => c_sample_id c = "S-2025-0001")
                       (coc (w_db first_run)) in
  let r := page_coc "S-2025-0001" "Entrega" "" true first_run in
  fst r = Ok (Some before)
  /\ exists c,
       fst (view_coc "S-2025-0001" (snd r)) = Ok (Some (before ++ [c]))
       /\ c_event c = "Entrega".
Proof.
  intros before r.
  destruct (coc_page_lags_one_run "S-2025-0001" "Entrega" "" first_run)
    as (H1 & (c & H2 & H3 & _) & _).
  - discriminate.
  - discriminate.
  - vm_compute. split; repeat constructor; discriminate.
  - split; [exact H1|]. exists c. split; [exact H2|exact H3].
Defined.

(** ** The listing of the tests *)

Lemma filter_key_notin {A} (key : A -> string) (l : list A) (k : string) :
  k ∉ key <$> l -> filter (fun x => key x = k) l = [].
Proof.
  induction l as [|a l IH]; intros Hk; [done|].
  rewrite fmap_cons, not_elem_of_cons in Hk. destruct Hk as [Hne Hk].
  rewrite filter_cons, decide_False by done. by apply IH.
Qed.

Lemma filter_key_nodup {A} (key : A -> string) (l : list A) (k : string) :
  NoDup (key <$> l) -> k ∈ key <$> l ->
  exists x, filter (fun x => key x = k) l = [x].
Proof.
  induction l as [|a l IH]; intros Hnd Hk.
  - by apply elem_of_nil in Hk.
  - rewrite fmap_cons in Hnd, Hk. apply NoDup_cons in Hnd as [Ha Hnd].
    rewrite filter_cons. destruct (decide (key a = k)) as [<-|Hne].
    + exists a. by rewrite filter_key_notin.
    + apply elem_of_cons in Hk as [->|Hk]; [done|]. by apply IH.
Qed.

Lemma join_of_unique_samples (d : DB) :
  NoDup (s_id <$> samples d) ->
  Query.tests_join_samples d
  = filter (fun t => t_sample_id t ∈ s_id <$> samples d) (tests d).
Proof.
  intros Hnd. unfold Query.tests_join_samples.
  induction (tests d) as [|t l IH]; [done|].
  rewrite bind_cons, filter_cons, IH.
  destruct (decide (t_sample_id t ∈ s_id <$> samples d)) as [Hin|Hout].
  - destruct (filter_key_nodup s_id _ _ Hnd Hin) as [s ->]. done.
  - by rewrite (filter_key_notin s_id _ _ Hout).
Qed.

(** X20.  The page of the tests joins [tests] with [samples]: with sample
    identifiers unique and row ids ascending, as the pages leave them, the
    unfiltered listing is exactly the tests whose sample exists, each once,
    newest first.  A test stored under an identifier that no sample has is
    not listed, whatever the filter. *)
Theorem tests_page_lists_tests_of_samples
    (sql_like : string -> string -> bool) (d : DB) :
  NoDup (s_id <$> samples d) ->
  ascending (t_id <$> tests d) ->
  Query.select_tests_page sql_like "" d
  = reverse (filter (fun t => t_sample_id t ∈ s_id <$> samples d) (tests d))
  /\ forall filt t,
       t ∈ Query.select_tests_page sql_like filt d ->
       t ∈ tests d /\ t_sample_id t ∈ s_id <$> samples d.
Proof.
  intros Hnd [Hasc _].
  assert (Hge : forall x y : test_row,
            Query.test_id_ge x y <-> t_id y ≤ t_id x) by done.
  unfold Query.select_tests_page. rewrite (join_of_unique_samples d Hnd).
  split.
  - simpl.
    assert (Hall : forall l : list test_row,
              List.filter (fun _ => true) l = l)
      by (induction l as [|x l IH]; simpl; by rewrite ?IH).
    rewrite Hall. apply (sort_descending_keys t_id _ _ Hge).
    by apply filter_keys_sorted.
  - intros filt t Ht.
    rewrite (merge_sort_Permutation Query.test_id_ge) in Ht.
    apply list_elem_of_In, List.filter_In in Ht as [Ht _].
    apply list_elem_of_In, list_elem_of_filter in Ht. tauto.
Qed.

Lemma tests_page_lists_tests_of_samples_witness :
  Query.select_tests_page (fun _ _ => false) "" (w_db lab_busy)
  = tests (w_db lab_busy).
Proof.
  destruct (tests_page_lists_tests_of_samples (fun _ _ => false)
              (w_db lab_busy)) as [H _].
  - vm_compute. repeat constructor. by intros ?%elem_of_nil.
  - vm_compute. split; repeat constructor; discriminate.
  - exact H.
Defined.

Lemma add_test_run (sid2 test_name method unit_ : string)
    (due_at : option date) (w : world) :
  sid2 <> "" -> test_name <> "" ->
  exists t w',
    add_test sid2 test_name method unit_ due_at true w = (Ok tt, w')
    /\ tests (w_db w') = tests (w_db w) ++ [t]
    /\ samples (w_db w') = samples (w_db w)
    /\ t_sample_id t = sid2.
Proof.
  intros H1 H2. run. rewrite (truthy_true _ H1), (truthy_true _ H2).
  simpl. eexists _, _. split; [reflexivity|]. simpl.
  split; [reflexivity|]. done.
Qed.

(** X21.  A test can be added under an identifier that no sample has (the
    foreign key of the schema is not enforced by the connections the
    program opens): the row is stored, the report of that identifier
    gathers it, but no listing of the page of the tests shows it, since
    that listing is the same as before. *)
Theorem orphan_test_hidden (sql_like : string -> string -> bool)
    (sid2 test_name method unit_ : string) (due_at : option date)
    (w : world) :
  sid2 <> "" -> test_name <> "" ->
  sid2 ∉ s_id <$> samples (w_db w) ->
  let r := add_test sid2 test_name method unit_ due_at true w in
  fst r = Ok tt
  /\ (exists t, tests (w_db (snd r)) = tests (w_db w) ++ [t]
                /\ Query.select_tests_of sid2 (w_db (snd r))
                   = Query.select_tests_of sid2 (w_db w) ++ [t])
  /\ forall filt,
       Query.select_tests_page sql_like filt (w_db (snd r))
       = Query.select_tests_page sql_like filt (w_db w).
Proof.
  intros H1 H2 Hout r.
  destruct (add_test_run sid2 test_name method unit_ due_at w H1 H2)
    as (t & w' & E & Ht & Hs & Hsid).
  unfold r. rewrite E. cbn [fst snd]. split; [done|]. split.
  - exists t. split; [exact Ht|]. unfold Query.select_tests_of.
    rewrite Ht, filter_app, filter_cons, filter_nil.
    by rewrite decide_True.
  - intros filt. unfold Query.select_tests_page. do 2 f_equal.
    unfold Query.tests_join_samples. rewrite Ht, Hs, bind_app, bind_cons.
    rewrite Hsid, (filter_key_notin s_id _ _ Hout). simpl.
    by rewrite app_nil_r.
Qed.

Lemma orphan_test_hidden_witness :
  let r := add_test "S-1999-0007" "FRX" "" "" None true lab_busy in
  length (tests (w_db (snd r))) = 2%nat
  /\ Query.select_tests_page (fun _ _ => false) "" (w_db (snd r))
     = Query.select_tests_page (fun _ _ => false) "" (w_db lab_busy).
Proof.
  intros r.
  destruct (orphan_test_hidden (fun _ _ => false) "S-1999-0007" "FRX" "" ""
              None lab_busy) as (_ & (t & Ht & _) & H).
  - discriminate.
  - discriminate.
  - vm_compute. intros Hin. apply list_elem_of_In in Hin.
    destruct Hin as [Hin|[]]. discriminate.
  - split; [|apply H]. fold r in Ht. rewrite Ht. reflexivity.
Defined.

(** ** The listing of the audit trail *)

Lemma list_filter_keys_sorted {A} (key : A -> Z) (f : A -> bool)
    (l : list A) :
  StronglySorted Z.lt (key <$> l) ->
  StronglySorted Z.lt (key <$> List.filter f l).
Proof.
  induction l as [|a l IH]; intros Hs; [done|].
  rewrite fmap_cons in Hs. apply StronglySorted_inv in Hs as [Hs Hall].
  simpl. destruct (f a); [|by apply IH].
  rewrite fmap_cons. constructor; [by apply IH|].
  rewrite Forall_fmap, Forall_forall in *. intros x Hx.
  apply Hall. apply list_elem_of_In, List.filter_In in Hx as [Hx _].
  by apply list_elem_of_In.
Qed.

Lemma list_filter_sublist {A} (f : A -> bool) (l : list A) :
  List.filter f l `sublist_of` l.
Proof.
  induction l as [|a l IH]; simpl; [done|].
  destruct (f a); by constructor.
Qed.

Lemma sublist_reverse {A} (l1 l2 : list A) :
  l1 `sublist_of` l2 -> reverse l1 `sublist_of` reverse l2.
Proof.
  induction 1 as [|x l1 l2 _ IH|x l1 l2 _ IH]; [done| |].
  - rewrite !reverse_cons. by apply sublist_app.
  - rewrite reverse_cons. by apply sublist_inserts_r.
Qed.

(** X22.  The page of the audit trail, with row ids ascending as the pages
    leave them: at most 1000 records are listed, in the reverse of the order
    in which they were written; without a filter they are exactly the last
    1000 records written (all of them while there are no more than
    1000). *)
Theorem audit_page_newest (sql_like : string -> string -> bool)
    (filt : string) (d : DB) :
  ascending (a_id <$> audit_log d) ->
  let page := Query.select_audit_page sql_like filt d in
  (length page <= 1000)%nat
  /\ page `sublist_of` reverse (audit_log d)
  /\ (filt = "" -> page = take 1000 (reverse (audit_log d)))
  /\ (filt = "" -> (length (audit_log d) <= 1000)%nat ->
      page = reverse (audit_log d)).
Proof.
  intros [Hasc _] page.
  assert (Hge : forall x y : audit_row,
            Query.audit_id_ge x y <-> a_id y ≤ a_id x) by done.
  assert (Hall : forall l : list audit_row,
            List.filter (fun _ => true) l = l)
    by (induction l as [|x l IH]; simpl; by rewrite ?IH).
  unfold page, Query.select_audit_page.
  rewrite (sort_descending_keys a_id _ _ Hge)
    by (by apply list_filter_keys_sorted).
  split; [|split; [|split]].
  - rewrite length_take. lia.
  - etrans; [apply sublist_take|].
    apply sublist_reverse, list_filter_sublist.
  - intros ->. simpl. by rewrite Hall.
  - intros -> Hlen. simpl. rewrite Hall. apply take_ge.
    by rewrite length_reverse.
Qed.

Lemma audit_page_newest_witness :
  Query.select_audit_page (fun _ _ => false) "" (w_db first_run)
  = reverse (audit_log (w_db first_run)).
Proof.
  destruct (audit_page_newest (fun _ _ => false) "" (w_db first_run))
    as (_ & _ & _ & H).
  - vm_compute. split; repeat constructor; discriminate.
  - apply H; [reflexivity|]. vm_compute. lia.
Defined.

(** ** Identifiers are told apart by year and counter *)

Lemma uint_digits (s : string) (d : Decimal.uint) :
  NilEmpty.uint_of_string s = Some d -> all_digits s = true.
Proof.
  revert d. induction s as [|a s IH]; intros d H; [done|].
  simpl in H. destruct (NilEmpty.uint_of_string s) as [d0|] eqn:Hs.
  - simpl. rewrite (IH d0 eq_refl), andb_true_r.
    destruct a as [[] [] [] [] [] [] [] []]; simpl in H;
      first [discriminate H|reflexivity].
  - destruct a as [[] [] [] [] [] [] [] []]; discriminate H.
Qed.

Lemma format_04d_digits (n : Z) :
  0 <= n -> all_digits (Py.format_04d n) = true.
Proof.
  intros Hn. unfold Py.format_04d.
  destruct (Z.ltb_spec n 0) as [Hneg|_]; [lia|].
  destruct (PyFacts.str_digits n Hn) as (d & Hd & _).
  unfold Py.lpad0. eapply uint_digits.
  rewrite PyFacts.uint_of_zeros, Hd. reflexivity.
Qed.

Lemma dash_not_digits (p q : string) :
  all_digits (p +:+ String "-" q) = false.
Proof.
  induction p as [|a p IH]; [done|].
  rewrite PyFacts.sapp_cons. simpl. rewrite IH. apply andb_false_r.
Qed.

Lemma split_at_last_dash (p p' q q' : string) :
  all_digits q = true -> all_digits q' = true ->
  p +:+ String "-" q = p' +:+ String "-" q' -> p = p' /\ q = q'.
Proof.
  intros Hq Hq'. revert p'.
  induction p as [|a p IH]; intros [|b p'];
    rewrite ?PyFacts.sapp_nil, ?PyFacts.sapp_cons.
  - by intros [= ->].
  - intros [= <- ->]. by rewrite dash_not_digits in Hq.
  - intros [= -> <-]. by rewrite dash_not_digits in Hq'.
  - intros [= -> H]. by destruct (IH p' H) as [-> ->].
Qed.

Lemma sample_id_inj_year (y y' n n' : Z) :
  0 <= n -> 0 <= n' ->
  sample_id (Py.str y) n = sample_id (Py.str y') n' -> y = y' /\ n = n'.
Proof.
  intros Hn Hn'. unfold sample_id. intros H.
  apply SeqFacts.sapp_inj_r in H.
  change ("-" +:+ ?s) with (String "-" s) in H.
  apply split_at_last_dash in H as [Hy Hf];
    [|by apply format_04d_digits..].
  split; [by apply PyFacts.str_inj|by apply PyFacts.format_04d_inj].
Qed.

Ltac framed :=
  split; [reflexivity|];
  right; split; [reflexivity|]; split; [reflexivity|simpl; lia].

Lemma perform_frame (py_float : string -> option float) (op : operation)
    (w : world) :
  let w' := snd (perform py_float op w) in
  w_clock w' = w_clock w
  /\ ((exists f, op = RegisterSample f)
      \/ (meta (w_db w') = meta (w_db w)
          /\ s_id <$> samples (w_db w') = s_id <$> samples (w_db w)
          /\ (w_tick w <= w_tick w')%nat)).
Proof.
  destruct op; simpl.
  - split; [|left; by eexists].
    destruct (next_sample_id_frame w) as (_ & _ & _ & Hclock).
    run. unfold Sql.insert_sample.
    destruct (Py.truthy (f_client f)); simpl; [|done].
    destruct (next_sample_id w) as [[sid|e] w1] eqn:E; simpl in *; [|done].
    case_bool_decide; simpl; done.
  - run. destruct (Py.truthy sid); simpl; [|framed].
    destruct (Sql.select_sample sid (w_db w)) as [|rec recs]; simpl;
      [framed|].
    destruct (decide (s_status rec ∈ sample_statuses)) as [Hst|Hst];
      [|rewrite (index_of_notin _ _ w Hst); framed].
    destruct (index_of_in _ _ w Hst) as [i ->].
    destruct (decide (s_priority rec ∈ priorities)) as [Hpr|Hpr];
      [|rewrite (index_of_notin _ _ w Hpr); framed].
    destruct (index_of_in _ _ w Hpr) as [j ->]. simpl.
    split; [reflexivity|]. right. split; [reflexivity|].
    split; [|lia].
    rewrite <- list_fmap_compose. apply list_fmap_ext.
    intros k s _. simpl. case_bool_decide; done.
  - run. destruct (Py.truthy sid2), (Py.truthy test_name); simpl; framed.
  - run. case_bool_decide; simpl; [|framed].
    destruct (Sql.select_test tid (w_db w)) as [|row rows]; simpl;
      [framed|].
    destruct (decide (t_status row ∈ test_statuses)) as [Hst|Hst].
    + destruct (index_of_in _ _ w Hst) as [i ->]. simpl. framed.
    + rewrite (index_of_notin _ _ w Hst). framed.
  - run. destruct (Py.truthy analyte); simpl; [|framed].
    case_bool_decide; simpl; [|framed].
    destruct (Py.truthy unc); [destruct (py_float unc)|]; simpl; framed.
  - run. destruct (Py.truthy sid), (Py.truthy url); simpl; framed.
  - run. framed.
  - run. case_bool_decide; simpl; framed.
  - run. destruct (Py.truthy uname); simpl; [|framed].
    unfold Sql.insert_user. case_bool_decide; simpl; framed.
  - run. destruct (Py.truthy sid), (Py.truthy event); simpl; framed.
Qed.

Lemma init_db_tick (w : world) :
  (w_tick w <= w_tick (snd (init_db w)))%nat.
Proof.
  unfold init_db. run.
  unfold Sql.select_meta, Sql.insert_meta, Sql.insert_user.
  destruct (meta (w_db w) !! "seq_ano") as [ys|] eqn:Hy;
    destruct (meta (w_db w) !! "seq_num") as [c|] eqn:Hc; simpl;
    repeat (progress (rewrite ?lookup_insert_ne by done;
                      rewrite ?Hy, ?Hc; simpl));
    match goal with
    | |- context [bool_decide (Sql.select_users ?n ?d = [])] =>
        destruct (bool_decide (Sql.select_users n d = []))
    end; simpl; try lia;
    case_bool_decide; simpl; lia.
Qed.

Lemma script_clock (py_float : string -> option float) (user : string)
    (act : option operation) (w : world) :
  w_clock (snd (script py_float user act w)) = w_clock w.
Proof.
  unfold script, new_page, login.
  unfold bind at 1. simpl. unfold bind at 1.
  set (w0 := {| w_db := w_db w; w_clock := w_clock w; w_tick := w_tick w;
                w_user := w_user w; w_out := [] |}).
  destruct (init_db_run w0) as (Hok & _ & _ & _ & _ & _ & Hclock).
  destruct (init_db w0) as [[[]|e] w1]; simpl in Hok, Hclock;
    [|discriminate].
  unfold bind at 1. simpl. destruct act as [op|]; [|exact Hclock].
  destruct (perform_frame py_float op
              {| w_db := w_db w1; w_clock := w_clock w1; w_tick := w_tick w1;
                 w_user := user; w_out := w_out w1 |}) as [Hc _].
  cbv zeta in Hc. rewrite Hc. exact Hclock.
Qed.

Lemma issued_by_mono (y0 c y1 c1 : Z) (id : string) :
  y0 < y1 \/ (y0 = y1 /\ c <= c1) -> issued_by y0 c id -> issued_by y1 c1 id.
Proof.
  intros Hle (y & n & -> & Hn & Hyn). exists y, n.
  split; [done|]. split; [done|]. lia.
Qed.

Lemma fresh_id (y0 c y : Z) (ids : list string) :
  0 <= c -> y0 <= y -> Forall (issued_by y0 c) ids ->
  sample_id (Py.str y)
    ((if bool_decide (Py.str y0 = Py.str y) then c else 0) + 1) ∉ ids.
Proof.
  intros Hc Hy Hall Hin. rewrite Forall_forall in Hall.
  destruct (Hall _ Hin) as (y1 & n & Heq & Hn & Hyn).
  assert (Hne : bool_decide (Py.str y0 = Py.str y) = false -> y0 <> y).
  { intros Hs%bool_decide_eq_false ->. done. }
  destruct (bool_decide (Py.str y0 = Py.str y)) eqn:Hs.
  - apply bool_decide_eq_true, PyFacts.str_inj in Hs.
    apply sample_id_inj_year in Heq as [<- <-]; lia.
  - specialize (Hne eq_refl).
    apply sample_id_inj_year in Heq as [<- <-]; lia.
Qed.

Lemma sequencer_ahead_frame (w w' : world) :
  meta (w_db w') = meta (w_db w) ->
  s_id <$> samples (w_db w') = s_id <$> samples (w_db w) ->
  w_clock w' = w_clock w -> (w_tick w <= w_tick w')%nat ->
  year_never_goes_back (w_clock w) ->
  sequencer_ahead w -> sequencer_ahead w'.
Proof.
  intros Hm Hs Hclock Htick Hmono (y0 & c & Hseq & Hc & Hy & Hall).
  exists y0, c. unfold sequencer_at. rewrite Hm, Hs, Hclock.
  repeat split; try done; try apply Hseq.
  specialize (Hmono _ _ Htick). lia.
Qed.

Lemma frm_sample_ahead (f : sample_form) (w : world) :
  year_never_goes_back (w_clock w) -> sequencer_ahead w ->
  let r := frm_sample f true w in
  sequencer_ahead (snd r)
  /\ (f_client f <> "" ->
      fst r = Ok tt
      /\ exists s, samples (w_db (snd r)) = samples (w_db w) ++ [s]
                   /\ fst (next_sample_id w) = Ok (s_id s)
                   /\ s_id s ∉ s_id <$> samples (w_db w)).
Proof.
  intros Hmono Hahead.
  pose proof Hahead as (y0 & c & Hseq & Hc & Hy & Hall).
  destruct (SeqFacts.next_sample_id_step w _ c Hseq)
    as (w1 & E & Hseq1 & Htab & Htick & Hclock & _).
  cbv zeta in E, Hseq1.
  set (y := now_year (w_clock w (w_tick w))) in *.
  set (c' := (if bool_decide (Py.str y0 = Py.str y) then c else 0) + 1) in *.
  assert (Hfresh : sample_id (Py.str y) c' ∉ s_id <$> samples (w_db w))
    by (by apply fresh_id).
  assert (Hs : samples (w_db w1) = samples (w_db w)) by (by injection Htab).
  run. unfold Sql.insert_sample.
  destruct (Py.truthy (f_client f)) eqn:Hclient; simpl.
  - rewrite E. simpl. rewrite Hs.
    rewrite (bool_decide_eq_false_2 _ Hfresh). simpl. split.
    + exists y, c'. unfold sequencer_at. simpl. rewrite Hclock, Htick.
      split; [exact Hseq1|]. split; [subst c'; case_bool_decide; lia|].
      split; [apply Hmono; lia|].
      rewrite fmap_app, Forall_app. split.
      * eapply Forall_impl; [exact Hall|]. intros id.
        apply issued_by_mono. subst c'.
        case_bool_decide as Hsy; [apply PyFacts.str_inj in Hsy|]; [lia|].
        left. destruct (decide (y0 = y)) as [->|]; [done|lia].
      * repeat constructor. exists y, c'. split; [done|].
        subst c'. case_bool_decide; lia.
    + intros _. split; [done|]. eexists. split; [reflexivity|]. done.
  - split.
    + apply (sequencer_ahead_frame w); simpl; try done. 
    + intros Hne. by rewrite (truthy_true _ Hne) in Hclient.
Qed.

Lemma init_db_ahead (w : world) :
  year_never_goes_back (w_clock w) ->
  w_db w = empty_db \/ sequencer_ahead w ->
  sequencer_ahead (snd (init_db w)).
Proof.
  intros Hmono Hpre.
  pose proof (init_db_meta w) as Hmeta. cbv zeta in Hmeta.
  destruct Hmeta as (Hano & Hnum & _).
  pose proof (init_db_run w) as Hrun. cbv zeta in Hrun.
  destruct Hrun as (_ & _ & _ & Hun & _ & _ & Hclock).
  pose proof (init_db_tick w) as Htick.
  assert (Hs : samples (w_db (snd (init_db w))) = samples (w_db w))
    by (by injection Hun).
  specialize (Hmono _ _ Htick).
  destruct Hpre as [Hempty|(y0 & c & [Hy0 Hc0] & Hc & Hy & Hall)].
  - rewrite Hempty in Hano, Hnum. simpl in Hano, Hnum.
    rewrite lookup_empty in Hano, Hnum. simpl in Hano, Hnum.
    eexists _, 0. split; [split; [exact Hano|exact Hnum]|].
    split; [lia|]. rewrite Hclock. split; [exact Hmono|].
    rewrite Hs, Hempty. constructor.
  - rewrite Hy0 in Hano. rewrite Hc0 in Hnum. simpl in Hano, Hnum.
    exists y0, c. split; [by split|]. split; [done|].
    rewrite Hclock, Hs. split; [lia|done].
Qed.

Lemma script_ahead (py_float : string -> option float) (user : string)
    (act : option operation) (w : world) :
  year_never_goes_back (w_clock w) ->
  w_db w = empty_db \/ sequencer_ahead w ->
  sequencer_ahead (snd (script py_float user act w)).
Proof.
  intros Hmono Hpre. unfold script, new_page, login.
  unfold bind at 1. simpl. unfold bind at 1.
  set (w0 := {| w_db := w_db w; w_clock := w_clock w; w_tick := w_tick w;
                w_user := w_user w; w_out := [] |}).
  pose proof (init_db_ahead w0 Hmono Hpre) as Hinit.
  destruct (init_db_run w0) as (Hok & _ & _ & _ & _ & _ & Hclock).
  destruct (init_db w0) as [[[]|e] w1]; simpl in Hok, Hinit, Hclock;
    [|discriminate].
  unfold bind at 1. simpl. destruct act as [op|]; [|exact Hinit].
  set (w2 := {| w_db := w_db w1; w_clock := w_clock w1; w_tick := w_tick w1;
                w_user := user; w_out := w_out w1 |}).
  assert (Hmono2 : year_never_goes_back (w_clock w2))
    by (simpl; by rewrite Hclock).
  destruct (perform_frame py_float op w2) as [Hc [[f ->]|(Hm & Hs & Ht)]].
  - by apply (frm_sample_ahead f w2).
  - by apply (sequencer_ahead_frame w2).
Qed.

Lemma reachable_ahead (py_float : string -> option float) (w : world) :
  reachable py_float w -> year_never_goes_back (w_clock w) ->
  sequencer_ahead w.
Proof.
  induction 1 as [clock user act|w user act Hreach IH]; intros Hmono;
    rewrite script_clock in Hmono.
  - apply script_ahead; [done|by left].
  - apply script_ahead; [done|]. right. by apply IH.
Qed.

Lemma script_run (py_float : string -> option float) (user : string)
    (act : option operation) (w : world) :
  exists w1,
    init_db {| w_db := w_db w; w_clock := w_clock w; w_tick := w_tick w;
               w_user := w_user w; w_out := [] |} = (Ok tt, w1)
    /\ script py_float user act w
       = let w2 := {| w_db := w_db w1; w_clock := w_clock w1;
                      w_tick := w_tick w1; w_user := user;
                      w_out := w_out w1 |} in
         match act with
         | Some op => perform py_float op w2
         | None => (Ok tt, w2)
         end.
Proof.
  unfold script, new_page, login.
  unfold bind at 1. simpl. unfold bind at 1.
  set (w0 := {| w_db := w_db w; w_clock := w_clock w; w_tick := w_tick w;
                w_user := w_user w; w_out := [] |}).
  destruct (init_db_run w0) as (Hok & _).
  destruct (init_db w0) as [[[]|e] w1]; simpl in Hok; [|discriminate].
  exists w1. split; [reflexivity|].
  unfold bind at 1. simpl. by destruct act.
Qed.

(** X23.  While the years the clock shows never go back, registering a
    sample never fails once a client is given: in every state the script
    can reach, a run that submits the form completes, the identifier it is
    given is one no sample has, and [samples] grows by the row carrying
    it. *)
Theorem registration_never_collides (py_float : string -> option float)
    (user : string) (f : sample_form) (w : world) :
  reachable py_float w ->
  year_never_goes_back (w_clock w) ->
  f_client f <> "" ->
  let r := script py_float user (Some (RegisterSample f)) w in
  fst r = Ok tt
  /\ exists s, samples (w_db (snd r)) = samples (w_db w) ++ [s]
               /\ s_id s ∉ s_id <$> samples (w_db w).
Proof.
  intros Hreach Hmono Hclient.
  pose proof (reachable_ahead py_float w Hreach Hmono) as Hahead.
  destruct (script_run py_float user (Some (RegisterSample f)) w)
    as (w1 & Einit & ->). cbv zeta.
  set (w0 := {| w_db := w_db w; w_clock := w_clock w; w_tick := w_tick w;
                w_user := w_user w; w_out := [] |}) in Einit.
  pose proof (init_db_ahead w0 Hmono (or_intror Hahead)) as Hinit.
  destruct (init_db_run w0) as (_ & _ & _ & Hun & _ & _ & Hclock).
  rewrite Einit in Hinit, Hun, Hclock. simpl in Hinit, Hun, Hclock.
  assert (Hs : samples (w_db w1) = samples (w_db w)) by (by injection Hun).
  set (w2 := {| w_db := w_db w1; w_clock := w_clock w1; w_tick := w_tick w1;
                w_user := user; w_out := w_out w1 |}).
  assert (Hmono2 : year_never_goes_back (w_clock w2))
    by (simpl; by rewrite Hclock).
  destruct (frm_sample_ahead f w2 Hmono2 Hinit) as [_ Hreg].
  destruct (Hreg Hclient) as (Hfst & s & Hsam & _ & Hnew).
  change (samples (w_db w2)) with (samples (w_db w1)) in Hsam, Hnew.
  rewrite Hs in Hsam, Hnew.
  change (perform py_float (RegisterSample f) w2)
    with (frm_sample f true w2).
  split; [exact Hfst|]. exists s. by split.
Qed.

Lemma registration_never_collides_witness :
  let r := script (fun _ => None) "ana" (Some (RegisterSample acme_form))
             first_run in
  fst r = Ok tt
  /\ exists s, samples (w_db (snd r)) = samples (w_db first_run) ++ [s]
               /\ s_id s ∉ s_id <$> samples (w_db first_run).
Proof.
  apply (registration_never_collides (fun _ => None) "ana" acme_form
           first_run).
  - apply reachable_first.
  - intros i j _. reflexivity.
  - discriminate.
Defined.

(** ** Rows as dictionaries *)

Lemma dict_factory_from_ok {V} (description : list string) (row : list V) :
  forall (idx : nat) (d0 : gmap string V),
    (idx + length description <= length row)%nat ->
    exists d,
      dict_factory_from idx description row d0 = Ok d
      /\ (forall col, col ∉ description -> d !! col = d0 !! col)
      /\ (forall i col, description !! i = Some col ->
                        col ∉ drop (S i) description ->
                        d !! col = row !! (idx + i)%nat).
Proof.
  induction description as [|c description IH]; intros idx d0 Hlen.
  - exists d0. split; [done|]. split; [done|]. intros i col Hi.
    by rewrite lookup_nil in Hi.
  - simpl in Hlen. simpl.
    destruct (row !! idx) as [v|] eqn:Hv;
      [|apply lookup_ge_None in Hv; lia].
    destruct (IH (S idx) (<[c:=v]> d0)) as (d & Hd & Hout & Hin); [lia|].
    exists d. split; [exact Hd|]. split.
    + intros col Hcol. apply not_elem_of_cons in Hcol as [Hne Hcol].
      rewrite (Hout col Hcol). by rewrite lookup_insert_ne.
    + intros [|i] col Hi Hlast; simpl in Hi, Hlast.
      * injection Hi as ->. rewrite ?drop_0 in Hlast.
        rewrite (Hout col Hlast), lookup_insert_eq, Nat.add_0_r. done.
      * rewrite (Hin i col Hi Hlast). f_equal. lia.
Qed.

Lemma dict_factory_from_short {V} (description : list string)
    (row : list V) :
  forall (idx : nat) (d0 : gmap string V),
    (idx <= length row < idx + length description)%nat ->
    dict_factory_from idx description row d0 = Raise IndexError.
Proof.
  induction description as [|c description IH]; intros idx d0 Hlen;
    simpl in Hlen; [lia|]. simpl.
  destruct (row !! idx) as [v|] eqn:Hv; [|done].
  apply lookup_lt_Some in Hv. apply IH. lia.
Qed.

Lemma last_occurrence (l : list string) (x : string) :
  x ∈ l -> exists i, l !! i = Some x /\ x ∉ drop (S i) l.
Proof.
  induction l as [|a l IH]; intros Hx.
  - by apply elem_of_nil in Hx.
  - destruct (decide (x ∈ l)) as [Hl|Hl].
    + destruct (IH Hl) as (i & Hi & Hdrop). by exists (S i).
    + apply elem_of_cons in Hx as [->|]; [|done].
      exists 0%nat. split; [done|]. simpl. by rewrite ?drop_0.
Qed.

(** X24.  [dict_factory] on a row that has a value for every column of the
    cursor returns a dictionary whose keys are exactly the column names and
    in which each name maps to the value at the position of the column; if
    a name occurs more than once, its last column wins.  On a row that is
    shorter than the description it raises [IndexError]. *)
Theorem dict_factory_columns {V} (description : list string)
    (row : list V) :
  if decide (length description <= length row)%nat
  then exists d,
         dict_factory description row = Ok d
         /\ (forall col, is_Some (d !! col) <-> col ∈ description)
         /\ (forall i col, description !! i = Some col ->
                           col ∉ drop (S i) description ->
                           d !! col = row !! i)
  else dict_factory description row = Raise IndexError.
Proof.
  unfold dict_factory. destruct (decide _) as [Hlen|Hlen].
  - destruct (dict_factory_from_ok description row 0 ∅ Hlen)
      as (d & Hd & Hout & Hin).
    exists d. split; [exact Hd|]. split; [|exact Hin].
    intros col. split.
    + intros Hsome. destruct (decide (col ∈ description)) as [|Hno]; [done|].
      rewrite (Hout col Hno), lookup_empty in Hsome.
      by destruct Hsome.
    + intros Hcol.
      destruct (last_occurrence description col Hcol) as (i & Hi & Hdrop).
      rewrite (Hin i col Hi Hdrop).
      apply lookup_lt_is_Some. apply lookup_lt_Some in Hi. lia.
  - apply dict_factory_from_short. lia.
Qed.

(** ** The listing of the samples *)

Lemma list_filter_decide {A} (f : A -> bool) (P : A -> Prop)
    `{!forall x, Decision (P x)} (l : list A) :
  (forall x, f x = true <-> P x) -> List.filter f l = filter P l.
Proof.
  intros Hf. induction l as [|a l IH]; [done|].
  simpl. rewrite filter_cons, IH. destruct (decide (P a)) as [Ha|Ha].
  - apply Hf in Ha. by rewrite Ha.
  - destruct (f a) eqn:E; [|done]. apply Hf in E. done.
Qed.

(** X25.  The page of the samples lists stored samples only, by creation
    stamp from the latest to the earliest.  Ticking statuses restricts the
    listing to the samples in one of them; with no status ticked the filter
    is off, so that without a search text every sample is listed, each
    once, as many as the dashboard counts. *)
Theorem samples_page_listing (sql_like : string -> string -> bool)
    (q : string) (status_f : list string) (d : DB) :
  let page := Query.select_samples_page sql_like q status_f d in
  Sorted Query.created_at_ge page
  /\ (forall s, s ∈ page ->
                s ∈ samples d /\ (status_f <> [] -> s_status s ∈ status_f))
  /\ (q = "" ->
      page ≡ₚ (if decide (status_f = []) then samples d
               else filter (fun s => s_status s ∈ status_f) (samples d)))
  /\ (q = "" -> status_f = [] -> length page = Query.count_samples d).
Proof.
  intros page.
  assert (Htotal : Total Query.created_at_ge).
  { intros a b. unfold Query.created_at_ge.
    destruct (String.le_total (s_created_at a) (s_created_at b)); auto. }
  assert (Hperm : q = "" ->
            page ≡ₚ (if decide (status_f = []) then samples d
                     else filter (fun s => s_status s ∈ status_f)
                                 (samples d))).
  { intros ->. unfold page, Query.select_samples_page.
    rewrite merge_sort_Permutation. simpl.
    destruct (decide (status_f = [])) as [Hnil|Hnil].
    - rewrite (bool_decide_eq_true_2 _ Hnil).
      rewrite (list_filter_decide _ (fun _ => True)) by done.
      clear. induction (samples d) as [|a l IH]; [done|].
      rewrite filter_cons. simpl. by rewrite IH.
    - rewrite (bool_decide_eq_false_2 _ Hnil).
      rewrite (list_filter_decide _ (fun s => s_status s ∈ status_f));
        [done|].
      intros s. by rewrite bool_decide_eq_true. }
  split; [by apply Sorted_merge_sort|]. split; [|split; [exact Hperm|]].
  - intros s Hs. unfold page, Query.select_samples_page in Hs.
    rewrite merge_sort_Permutation in Hs.
    apply list_elem_of_In, List.filter_In in Hs as [Hs Hf].
    split; [by apply list_elem_of_In|]. intros Hne.
    apply andb_prop in Hf as [_ Hf].
    rewrite (bool_decide_eq_false_2 _ Hne) in Hf.
    by apply bool_decide_eq_true in Hf.
  - intros Hq Hnil. rewrite (Hperm Hq). by rewrite decide_True.
Qed.
